(** * CQ091 report verification: the label classifier and the summary
      reconciliation engine of [verfication_CQ091.py], embedded and verified.

    The development has three parts.

    The model follows the Python source function by function:
    - [Py]        the Python built-ins the source calls on [str];
    - [Difflib]   [difflib.SequenceMatcher (None, a, b).ratio ()];
    - the label classifier [analyze_difference];
    - the structural comparator [test_standard_report_columns];
    - [Num]       Python numbers: [int], [float], [/] and [float (str)];
    - [Pd]        the pandas operations on detail sheets;
    - the column discovery, the section verifiers ([verify_visit_section]
      and its siblings) and [verify_summary_total_counts] that runs them.

    The specifications are the predicates the properties are stated with,
    and sample workbooks. The properties follow, by component.

    Text is modelled by [string]: a character is a code point below 256.
    Python floats are the kernel's binary64 floats. *)

From Stdlib Require Import ZArith List String Ascii Bool Lia Permutation.
From Stdlib Require Import Floats Uint63 DecimalString.
From stdpp Require Import base option list sorting gmap strings.

Set Default Proof Using "Type".
Local Open Scope string_scope.
Local Open Scope nat_scope.
Local Open Scope list_scope.

(** ** Python built-ins *)

Module Py.

(** Characters of a [str], in order. *)
Definition chars (s : string) : list ascii := list_ascii_of_string s.
Definition of_chars (l : list ascii) : string := string_of_list_ascii l.

Definition code (c : ascii) : nat := nat_of_ascii c.

(** [c.isspace ()]: TAB, LF, VT, FF, CR, the four separators FS..US, the
    space, NEL and the no-break space. *)
Definition isspace (c : ascii) : bool :=
  let n := code c in
  ((9 <=? n) && (n <=? 13)) || ((28 <=? n) && (n <=? 32))
  || (n =? 133) || (n =? 160).

(** [c.lower ()]: A..Z and the upper-case letters of the Latin-1 block
    (all of 192..222 but the multiplication sign 215) move up by 32. *)
Definition lower_char (c : ascii) : ascii :=
  let n := code c in
  if ((65 <=? n) && (n <=? 90))
     || ((192 <=? n) && (n <=? 222) && negb (n =? 215))
  then ascii_of_nat (n + 32) else c.

(** Lower case for the letters A..Z only. *)
Definition lower_ascii (c : ascii) : ascii :=
  let n := code c in
  if (65 <=? n) && (n <=? 90) then ascii_of_nat (n + 32) else c.

(** [s.lower ()] *)
Definition lower (s : string) : string := of_chars (map lower_char (chars s)).

(** [s.split ()]: the maximal runs of non-space characters, in order.
    [cur] holds the run being read, reversed. *)
Fixpoint split_chars (cur : list ascii) (l : list ascii) : list string :=
  match l with
  | [] => match cur with [] => [] | _ => [of_chars (rev cur)] end
  | c :: l' =>
      if isspace c
      then match cur with
           | [] => split_chars [] l'
           | _ => of_chars (rev cur) :: split_chars [] l'
           end
      else split_chars (c :: cur) l'
  end.

Definition split (s : string) : list string := split_chars [] (chars s).

(** [sep.join (l)] *)
Fixpoint join (sep : string) (l : list string) : string :=
  match l with
  | [] => ""
  | [x] => x
  | x :: l' => x +:+ sep +:+ join sep l'
  end.

(** [s.strip ()] *)
Fixpoint lstrip_chars (l : list ascii) : list ascii :=
  match l with
  | c :: l' => if isspace c then lstrip_chars l' else l
  | [] => []
  end.

Definition strip (s : string) : string :=
  of_chars (rev (lstrip_chars (rev (lstrip_chars (chars s))))).

(** [sub in s] for two strings *)
Fixpoint contains (sub s : string) : bool :=
  String.prefix sub s
  || match s with
     | EmptyString => false
     | String _ s' => contains sub s'
     end.

(** [x in l] for a list of strings *)
Definition mem (x : string) (l : list string) : bool :=
  existsb (String.eqb x) l.

(** [sorted (l)] for a list of strings: Python orders [str] by code
    points, lexicographically, which is [String.leb]. *)
Fixpoint insert_sorted (x : string) (l : list string) : list string :=
  match l with
  | [] => [x]
  | y :: l' => if String.leb x y then x :: l else y :: insert_sorted x l'
  end.

Definition sorted (l : list string) : list string :=
  fold_right insert_sorted [] l.

(** [str (n)] for a non-negative integer *)
Definition str_nat (n : nat) : string := NilZero.string_of_uint (Nat.to_uint n).

(** [float (n)] for a length: exact below 2^53. *)
Definition float_of_nat (n : nat) : float :=
  PrimFloat.of_uint63 (Uint63.of_Z (Z.of_nat n)).

(** The exact value of a finite double as [m * 2^e], and the rounding of
    [num / den] to the nearest integer, ties to even. *)
Definition round_half_even (num den : Z) : Z :=
  let q := (num / den)%Z in
  let r := (num mod den)%Z in
  if (den <? 2 * r)%Z then (q + 1)%Z
  else if (2 * r =? den)%Z then (if Z.even q then q else (q + 1)%Z)
  else q.

Definition two_digits (n : Z) : string :=
  let s := NilZero.string_of_uint (N.to_uint (Z.to_N n)) in
  if (n <? 10)%Z then "0" +:+ s else s.

(** [f"{x:.2f}"] *)
Definition format_2f (x : float) : string :=
  match Prim2SF x with
  | S754_nan => "nan"
  | S754_infinity s => if s then "-inf" else "inf"
  | S754_zero s => if s then "-0.00" else "0.00"
  | S754_finite s m e =>
      let hundredths :=
        if (0 <=? e)%Z then (Z.pos m * 100 * 2 ^ e)%Z
        else round_half_even (Z.pos m * 100) (2 ^ (- e))%Z in
      (if s then "-" else "")
      +:+ NilZero.string_of_uint (N.to_uint (Z.to_N (hundredths / 100)))
      +:+ "." +:+ two_digits (hundredths mod 100)%Z
  end.

End Py.

(** ** difflib.SequenceMatcher (None, a, b).ratio () *)

Module Difflib.

Section Matcher.
Variables a b : list ascii.

Definition count_occ_b (c : ascii) : nat :=
  length (filter (fun x => Ascii.eqb x c) b).

(** [__chain_b]: with [isjunk = None] nothing is junk; with the default
    [autojunk], once [b] has 200 elements or more, an element occurring
    more than [len (b) // 100 + 1] times is popular and leaves [b2j]. *)
Definition popular (c : ascii) : bool :=
  (200 <=? length b) && (length b / 100 + 1 <? count_occ_b c).

(** [j in b2j.get (c, [])] *)
Definition in_b2j (c : ascii) (j : nat) : bool :=
  match nth_error b j with
  | Some x => Ascii.eqb x c && negb (popular c)
  | None => false
  end.

(** [j2len.get (j - 1, 0)]; a row of [j2len] is kept dense, absent keys
    as 0. *)
Definition j2lenget (j2len : list nat) (j : nat) : nat :=
  match j with
  | 0 => 0
  | S j' => nth j' j2len 0
  end.

(** The dictionary [newj2len] built for [a[i]]. *)
Definition new_row (c : ascii) (blo bhi : nat) (j2len : list nat) : list nat :=
  map (fun j => if in_b2j c j && (blo <=? j) && (j <? bhi)
                then j2lenget j2len j + 1 else 0)
      (seq 0 (length b)).

(** [(besti, bestj, bestsize)] *)
Definition Match : Type := nat * nat * nat.

(** The updates of the best block while [j] runs through [b2j[a[i]]]
    in increasing order: [if k > bestsize]. *)
Definition update_best (i : nat) (row : list nat) (best : Match) : Match :=
  fold_left (fun (bst : Match) (j : nat) =>
               let k := nth j row 0 in
               if snd bst <? k then (i + 1 - k, j + 1 - k, k) else bst)
            (seq 0 (length b)) best.

(** [for i in range (alo, ahi)] *)
Definition scan (alo ahi blo bhi : nat) : Match :=
  snd (fold_left
         (fun (st : list nat * Match) (i : nat) =>
            match nth_error a i with
            | Some c =>
                let row := new_row c blo bhi (fst st) in
                (row, update_best i row (snd st))
            | None => st
            end)
         (seq alo (ahi - alo)) ([], (alo, blo, 0))).

Definition same_at (i j : nat) : bool :=
  match nth_error a i, nth_error b j with
  | Some x, Some y => Ascii.eqb x y
  | _, _ => false
  end.

(** The first extension loop: grow the block to the left while the
    elements before it agree. *)
Fixpoint extend_left (alo blo besti bestj bestsize : nat) : Match :=
  match besti, bestj with
  | S i', S j' =>
      if (alo <? besti) && (blo <? bestj) && same_at i' j'
      then extend_left alo blo i' j' (S bestsize)
      else (besti, bestj, bestsize)
  | _, _ => (besti, bestj, bestsize)
  end.

(** The second extension loop: grow it to the right. Each turn adds one
    to [bestsize], so [ahi - (besti + bestsize)] turns are enough
    ([extend_right_fuel_sufficient]). *)
Fixpoint extend_right (fuel ahi bhi besti bestj bestsize : nat) : Match :=
  match fuel with
  | 0 => (besti, bestj, bestsize)
  | S fuel' =>
      if (besti + bestsize <? ahi) && (bestj + bestsize <? bhi)
         && same_at (besti + bestsize) (bestj + bestsize)
      then extend_right fuel' ahi bhi besti bestj (S bestsize)
      else (besti, bestj, bestsize)
  end.

(** [find_longest_match (alo, ahi, blo, bhi)]. The two loops over junk
    that end the Python function never run: [bjunk] is empty. *)
Definition find_longest_match (alo ahi blo bhi : nat) : Match :=
  let '(i, j, k) := scan alo ahi blo bhi in
  let '(i, j, k) := extend_left alo blo i j k in
  extend_right (ahi - (i + k)) ahi bhi i j k.

(** The total size of the blocks [get_matching_blocks] collects: the
    longest block of a window, then the windows to its left and to its
    right. Every recursive call is on a strictly shorter window of
    [a], so [fuel] bounds the nesting depth; [matches_fuel_sufficient]
    shows that the fuel given below is never used up. *)
Fixpoint matches (fuel alo ahi blo bhi : nat) : nat :=
  match fuel with
  | 0 => 0
  | S fuel' =>
      let '(i, j, k) := find_longest_match alo ahi blo bhi in
      if k =? 0 then 0
      else k
           + (if (alo <? i) && (blo <? j)
              then matches fuel' alo i blo j else 0)
           + (if (i + k <? ahi) && (j + k <? bhi)
              then matches fuel' (i + k) ahi (j + k) bhi else 0)
  end.

Definition total_matches : nat :=
  matches (S (length a)) 0 (length a) 0 (length b).

(** [_calculate_ratio (matches, len (a) + len (b))] *)
Definition calculate_ratio (m len : nat) : float :=
  if len =? 0 then 1%float
  else PrimFloat.div (PrimFloat.mul 2%float (Py.float_of_nat m))
                     (Py.float_of_nat len).

End Matcher.

Definition ratio (x y : string) : float :=
  let a := Py.chars x in
  let b := Py.chars y in
  calculate_ratio (total_matches a b) (length a + length b).

End Difflib.


(** ** Exceptions and results *)

(** The exceptions the modelled code can raise, each with the text
    [str (e)] gives. *)
Inductive Exception : Type :=
| FileNotFoundError (path : string)
| WorksheetNotFound (sheet_name : string)   (* a ValueError of read_excel *)
| IndexError
| KeyError (key : option string)
| ValueError (msg : string)
| OverflowError (msg : string)
| ZeroDivisionError.

Definition str_exception (e : Exception) : string :=
  match e with
  | FileNotFoundError p => "[Errno 2] No such file or directory: '" +:+ p +:+ "'"
  | WorksheetNotFound n => "Worksheet named '" +:+ n +:+ "' not found"
  | IndexError => "single positional indexer is out-of-bounds"
  | KeyError (Some k) => "'" +:+ k +:+ "'"
  | KeyError None => "None"
  | ValueError m => m
  | OverflowError m => m
  | ZeroDivisionError => "division by zero"
  end.

(** A computation that returns a value or raises. *)
Inductive Res (A : Type) : Type :=
| Ok (a : A)
| Raise (e : Exception).
Arguments Ok {A} a.
Arguments Raise {A} e.

#[global] Instance res_ret : MRet Res := fun A a => Ok a.
#[global] Instance res_bind : MBind Res := fun A B k m =>
  match m with
  | Ok a => k a
  | Raise e => Raise e
  end.

(** [try: body except Exception as e: handler (e)] *)
Definition try_except {A} (body : Res A) (handler : Exception -> Res A) : Res A :=
  match body with
  | Ok a => Ok a
  | Raise e => handler e
  end.

Definition raises {A} (m : Res A) : Prop := exists e, m = Raise e.

(** [for x in l: body], stopping at the first exception. *)
Fixpoint for_each {A S} (l : list A) (body : A -> S -> Res S) (s : S) : Res S :=
  match l with
  | [] => Ok s
  | x :: l' => s' ← body x s; for_each l' body s'
  end.

(** ** The label difference classifier *)

Inductive Verdict : Type :=
| ExactMatch
| SpaceDifference
| CaseDifference
| SpellingError (similarity : float)
| WordOrderDifference
| ExtraWordsInVerification
| MissingWordsInVerification
| ContentDifference.

(** The string [analyze_difference] returns for a verdict. *)
Definition verdict_text (v : Verdict) : string :=
  match v with
  | ExactMatch => "Exact match"
  | SpaceDifference => "Space difference (extra/missing spaces)"
  | CaseDifference => "Case difference (upper/lower case)"
  | SpellingError similarity =>
      "Spelling error (similarity: " +:+ Py.format_2f similarity +:+ ")"
  | WordOrderDifference => "Word order difference"
  | ExtraWordsInVerification => "Extra words in verification"
  | MissingWordsInVerification => "Missing words in verification"
  | ContentDifference => "Content difference"
  end.

Definition list_string_eqb (l1 l2 : list string) : bool :=
  bool_decide (l1 = l2).

(** [all (word in ys for word in xs)] *)
Definition all_in (xs ys : list string) : bool :=
  forallb (fun word => Py.mem word ys) xs.

(** The threshold of the spelling rule, the double written [0.8]. *)
Definition spelling_threshold : float := 0x1.999999999999ap-1%float.

Definition analyze_difference (design_col verification_col : string) : Verdict :=
  if String.eqb design_col verification_col then ExactMatch
  else
    let design_norm := Py.join " " (Py.split design_col) in
    let verification_norm := Py.join " " (Py.split verification_col) in
    if String.eqb design_norm verification_norm then SpaceDifference
    else if String.eqb (Py.lower design_col) (Py.lower verification_col)
    then CaseDifference
    else
      let similarity :=
        Difflib.ratio (Py.lower design_col) (Py.lower verification_col) in
      if PrimFloat.ltb spelling_threshold similarity then SpellingError similarity
      else
        let design_words := Py.split (Py.lower design_col) in
        let verification_words := Py.split (Py.lower verification_col) in
        if list_string_eqb (Py.sorted design_words) (Py.sorted verification_words)
        then WordOrderDifference
        else if all_in design_words verification_words
        then ExtraWordsInVerification
        else if all_in verification_words design_words
        then MissingWordsInVerification
        else ContentDifference.

(** ** The structural comparator *)

(** A sheet read with [header=None] is a grid of cells; a cell is empty
    (NaN) or holds a value, kept as the text [str] gives for it. *)
Abbreviation Grid := (list (list (option string))).

(** A workbook maps sheet names to grids; a path that cannot be opened
    denotes no workbook. *)
Record Document : Type := {
  doc_path : string;
  doc_sheets : option (gmap string Grid)
}.

(** [pd.read_excel (path, sheet_name=name, header=None)] *)
Definition read_excel (doc : Document) (sheet_name : string) : Res Grid :=
  match doc_sheets doc with
  | None => Raise (FileNotFoundError (doc_path doc))
  | Some sheets =>
      match sheets !! sheet_name with
      | Some g => Ok g
      | None => Raise (WorksheetNotFound sheet_name)
      end
  end.

(** [df.iloc[r]] *)
Definition iloc (g : Grid) (r : nat) : Res (list (option string)) :=
  match g !! r with
  | Some row => Ok row
  | None => Raise IndexError
  end.

(** [[str (col).strip () for col in row.dropna ().tolist ()]] *)
Definition labels_of_row (row : list (option string)) : list string :=
  map Py.strip (omap id row).

Inductive ColumnNumber : Type :=
| Col (n : nat)
| NA.

Record Detail : Type := {
  column_number : ColumnNumber;
  design : string;
  verification : string;
  error_type : string
}.

Record ComparisonResult : Type := {
  passed : bool;
  message : string;
  details : list Detail;
  mismatches : option (list string)     (* the key is absent when [None] *)
}.

(** The text and the record appended for position [i]. *)
Definition column_mismatch (i : nat) (design_col verification_col : string)
  : string * Detail :=
  let error_type := verdict_text (analyze_difference design_col verification_col) in
  ("Column " +:+ Py.str_nat (i + 1) +:+ ": " +:+ error_type
     +:+ " - Design='" +:+ design_col
     +:+ "' vs Verification='" +:+ verification_col +:+ "'",
   {| column_number := Col (i + 1);
      design := design_col;
      verification := verification_col;
      error_type := error_type |}).

Definition count_mismatch (n_design n_verification : nat) : string * Detail :=
  ("Column count mismatch: Design=" +:+ Py.str_nat n_design
     +:+ ", Verification=" +:+ Py.str_nat n_verification,
   {| column_number := NA;
      design := "Total columns: " +:+ Py.str_nat n_design;
      verification := "Total columns: " +:+ Py.str_nat n_verification;
      error_type := "Column count mismatch" |}).

(** One turn of [for i in range (min_length)]; the state is
    [(mismatches, details)]. *)
Definition compare_step (design_columns verification_columns : list string)
    (st : list string * list Detail) (i : nat) : list string * list Detail :=
  let design_col := nth i design_columns "" in
  let verification_col := nth i verification_columns "" in
  if negb (String.eqb design_col verification_col)
  then let '(m, d) := column_mismatch i design_col verification_col in
       (fst st ++ [m], snd st ++ [d])
  else st.

(** The lists [mismatches] and [details] once both loops are done. *)
Definition compare_columns (design_columns verification_columns : list string)
  : list string * list Detail :=
  let min_length := Nat.min (length design_columns) (length verification_columns) in
  let st := fold_left (compare_step design_columns verification_columns)
                      (seq 0 min_length) ([], []) in
  if negb (length design_columns =? length verification_columns)
  then let '(m, d) := count_mismatch (length design_columns)
                                     (length verification_columns) in
       (fst st ++ [m], snd st ++ [d])
  else st.

(** The part of [test_standard_report_columns] after the [try] block. *)
Definition compare_result (standard_number : nat)
    (design_columns verification_columns : list string) : ComparisonResult :=
  let '(mismatches, details) := compare_columns design_columns verification_columns in
  match mismatches with
  | [] =>
      {| passed := true;
         message := "Standard " +:+ Py.str_nat standard_number
                      +:+ " columns match perfectly";
         details := [];
         mismatches := None |}
  | _ =>
      {| passed := false;
         message := "Standard " +:+ Py.str_nat standard_number
                      +:+ " column differences found";
         details := details;
         mismatches := Some mismatches |}
  end.

(** Row 9 of sheet "Standard Report N" of the design spec. *)
Definition read_design_columns (design_spec : Document) (standard_number : nat)
  : Res (list string) :=
  design_df ← read_excel design_spec ("Standard Report " +:+ Py.str_nat standard_number);
  row ← iloc design_df 8;
  Ok (labels_of_row row).

(** Row 2 of sheet "Standard N Report" of the verification report. *)
Definition read_verification_columns (verification : Document) (standard_number : nat)
  : Res (list string) :=
  verification_df ←
    read_excel verification ("Standard " +:+ Py.str_nat standard_number +:+ " Report");
  row ← iloc verification_df 1;
  Ok (labels_of_row row).

Definition read_error_result (standard_number : nat) (e : Exception) : ComparisonResult :=
  {| passed := false;
     message := "Error reading files for Standard " +:+ Py.str_nat standard_number
                  +:+ ": " +:+ str_exception e;
     details := [];
     mismatches := None |}.

Definition test_standard_report_columns
    (design_spec verification : Document) (standard_number : nat)
  : Res ComparisonResult :=
  try_except
    (design_columns ← read_design_columns design_spec standard_number;
     verification_columns ← read_verification_columns verification standard_number;
     Ok (compare_result standard_number design_columns verification_columns))
    (fun e => Ok (read_error_result standard_number e)).

(** ** Python numbers *)

Module Num.

(** A Python number: an [int] or a [float]. *)
Inductive PyNum : Type :=
| PInt (z : Z)
| PFloat (f : float).

Definition is_nan (f : float) : bool := negb (PrimFloat.eqb f f).

(** The double nearest to [n / d] (ties to even), with sign [neg]. *)
Definition float_of_ratio (neg : bool) (n d : positive) : float :=
  let '(mz, ez, lz) := SFdiv_core_binary prec emax (Z.pos n) 0 (Z.pos d) 0 in
  SF2Prim (binary_round_aux prec emax neg mz ez lz).

(** The double nearest to the integer [z]; infinite when [z] is out of
    range. *)
Definition nearest_float (z : Z) : float :=
  SF2Prim (binary_normalize prec emax z 0 false).

Definition is_infinite (f : float) : bool :=
  match Prim2SF f with
  | S754_infinity _ => true
  | _ => false
  end.

(** [float (x)] for a number *)
Definition float_of (x : PyNum) : Res float :=
  match x with
  | PFloat f => Ok f
  | PInt z =>
      let f := nearest_float z in
      if is_infinite f then Raise (OverflowError "int too large to convert to float")
      else Ok f
  end.

(** [int (x)] for a number: a float is truncated towards zero. *)
Definition int_of (x : PyNum) : Res Z :=
  match x with
  | PInt z => Ok z
  | PFloat f =>
      match Prim2SF f with
      | S754_nan => Raise (ValueError "cannot convert float NaN to integer")
      | S754_infinity _ =>
          Raise (OverflowError "cannot convert float infinity to integer")
      | S754_zero _ => Ok 0%Z
      | S754_finite s m e =>
          let a := if (0 <=? e)%Z then (Z.pos m * 2 ^ e)%Z
                   else (Z.pos m / 2 ^ (- e))%Z in
          Ok (if s then (- a)%Z else a)
      end
  end.

(** [a / b] for two integers: the correctly rounded quotient. *)
Definition truediv (a b : Z) : Res float :=
  match a, b with
  | _, Z0 => Raise ZeroDivisionError
  | Z0, Z.pos _ => Ok 0%float
  | Z0, Z.neg _ => Ok (-0)%float
  | Z.pos n, Z.pos d => Ok (float_of_ratio false n d)
  | Z.neg n, Z.neg d => Ok (float_of_ratio false n d)
  | Z.pos n, Z.neg d => Ok (float_of_ratio true n d)
  | Z.neg n, Z.pos d => Ok (float_of_ratio true n d)
  end.

(** *** [float (s)] for a string *)

Definition digit_value (c : ascii) : option Z :=
  let n := Py.code c in
  if (48 <=? n) && (n <=? 57) then Some (Z.of_nat (n - 48)) else None.

(** A digit part: digits, where one underscore may stand between two
    digits. Returns the digits read and the rest of the input; [after]
    tells whether a digit has just been read. *)
Fixpoint digitpart (after : bool) (l : list ascii) : list Z * list ascii :=
  match l with
  | c :: l' =>
      match digit_value c with
      | Some d => let '(ds, rest) := digitpart true l' in (d :: ds, rest)
      | None =>
          if after && Ascii.eqb c "_"
          then match l' with
               | c' :: _ =>
                   match digit_value c' with
                   | Some _ => digitpart false l'
                   | None => ([], l)
                   end
               | [] => ([], l)
               end
          else ([], l)
      end
  | [] => ([], [])
  end.

Definition digits_value (ds : list Z) : Z :=
  fold_left (fun acc d => (10 * acc + d)%Z) ds 0%Z.

Definition sign_of (l : list ascii) : bool * list ascii :=
  match l with
  | c :: l' =>
      if Ascii.eqb c "-" then (true, l')
      else if Ascii.eqb c "+" then (false, l')
      else (false, l)
  | [] => (false, [])
  end.

(** The optional exponent; [None] when what follows is no exponent and
    not the end of the text. *)
Definition exponent (l : list ascii) : option Z :=
  match l with
  | [] => Some 0%Z
  | c :: l' =>
      if Ascii.eqb c "e" || Ascii.eqb c "E" then
        let '(neg, l'') := sign_of l' in
        match digitpart false l'' with
        | (d :: ds, []) =>
            let v := digits_value (d :: ds) in
            Some (if neg then (- v)%Z else v)
        | _ => None
        end
      else None
  end.

(** The double nearest to [m * 10 ^ e] for [m >= 0]. *)
Definition decimal_float (neg : bool) (m e : Z) : float :=
  match m with
  | Z.pos p =>
      if (0 <=? e)%Z
      then SF2Prim (binary_normalize prec emax
                      (if neg then Z.neg p * 10 ^ e else Z.pos p * 10 ^ e)%Z 0 false)
      else float_of_ratio neg p (Z.to_pos (10 ^ (- e)))
  | _ => if neg then (-0)%float else 0%float
  end.

(** The white space [float] skips at the two ends of a text: TAB, LF, VT,
    FF, CR and the space, and NEL and the no-break space, which it turns
    into spaces first. The separators FS..US, which [str.strip] removes,
    are no white space to it. *)
Definition float_isspace (c : ascii) : bool :=
  let n := Py.code c in
  ((9 <=? n) && (n <=? 13)) || (n =? 32) || (n =? 133) || (n =? 160).

Fixpoint float_lstrip (l : list ascii) : list ascii :=
  match l with
  | c :: l' => if float_isspace c then float_lstrip l' else l
  | [] => []
  end.

Definition float_strip (l : list ascii) : list ascii :=
  rev (float_lstrip (rev (float_lstrip l))).

Definition float_of_str (s : string) : Res float :=
  let invalid :=
    Raise (ValueError ("could not convert string to float: '" +:+ s +:+ "'")) in
  let '(neg, body) := sign_of (float_strip (Py.chars s)) in
  let word := Py.of_chars (map Py.lower_ascii body) in
  if String.eqb word "inf" || String.eqb word "infinity"
  then Ok (if neg then neg_infinity else infinity)
  else if String.eqb word "nan" then Ok nan
  else
    let '(ip, rest) := digitpart false body in
    let '(fp, rest) :=
      match rest with
      | c :: rest' =>
          if Ascii.eqb c "." then digitpart false rest' else ([], rest)
      | [] => ([], [])
      end in
    match ip ++ fp, exponent rest with
    | _ :: _, Some ex =>
        Ok (decimal_float neg (digits_value (ip ++ fp))
              (ex - Z.of_nat (length fp)))
    | _, _ => invalid
    end.

End Num.

(** ** pandas frames *)

Module Pd.

(** A detail sheet read with [header=1]: column labels and rows. A cell
    is [None] when empty (NaN); otherwise it is kept as the text
    [astype (str)] gives for its value. [read_excel] makes the labels
    distinct, but the strip of the labels that follows it can make two of
    them equal. *)
Record DataFrame : Type := {
  columns : list string;
  rows : list (list (option string))
}.

(** [len (df)] *)
Definition len (df : DataFrame) : nat := length (rows df).

Fixpoint index_of (col : string) (labels : list string) : option nat :=
  match labels with
  | [] => None
  | c :: labels' =>
      if String.eqb c col then Some 0 else S <$> index_of col labels'
  end.

(** [df[col]] on a frame with distinct labels: the column, or a
    [KeyError] when no column has the label; [col] is [None] when the
    caller's dictionary holds Python's [None]. When the strip has made two
    labels equal, pandas returns a frame of the columns under that label,
    not a column, and the code fails on it later (an [AttributeError] at
    [.str]); that case lies outside this model, which reads the first of
    the columns there. *)
Definition getitem (df : DataFrame) (col : option string)
  : Res (list (option string)) :=
  match col with
  | None => Raise (KeyError None)
  | Some c =>
      match index_of c (columns df) with
      | Some i => Ok (map (fun row => nth i row None) (rows df))
      | None => Raise (KeyError (Some c))
      end
  end.

(** [series.fillna ('').astype (str)] *)
Definition fillna_str (series : list (option string)) : list string :=
  map (default "") series.

(** [series.str.lower ()] *)
Definition str_lower (series : list string) : list string := map Py.lower series.

(** [series == literal] *)
Definition eq (series : list string) (literal : string) : list bool :=
  map (fun x => String.eqb x literal) series.

(** [series != literal] *)
Definition ne (series : list string) (literal : string) : list bool :=
  map (fun x => negb (String.eqb x literal)) series.

(** [series.isin (values)] *)
Definition isin (series : list string) (values : list string) : list bool :=
  map (fun x => Py.mem x values) series.

(** [series.notna ()] on a series of strings *)
Definition notna (series : list string) : list bool := map (fun _ => true) series.

(** [mask1 & mask2] *)
Fixpoint and (m1 m2 : list bool) : list bool :=
  match m1, m2 with
  | x :: m1', y :: m2' => (x && y) :: and m1' m2'
  | _, _ => []
  end.

Fixpoint select_rows {A} (l : list A) (mask : list bool) : list A :=
  match l, mask with
  | x :: l', keep :: mask' =>
      if keep then x :: select_rows l' mask' else select_rows l' mask'
  | _, _ => []
  end.

(** [df[mask]] *)
Definition select (df : DataFrame) (mask : list bool) : DataFrame :=
  {| columns := columns df; rows := select_rows (rows df) mask |}.

End Pd.

(** ** The summary sheet *)

(** A cell of the summary sheet, read with [header=None]. *)
Inductive SummaryCell : Type :=
| SNaN                       (* empty *)
| SInt (z : Z)               (* a Python int; [True] and [False] are 1 and 0 *)
| SNpInt (z : Z)             (* a numpy integer, which is no [int] *)
| SFloat (f : float)         (* a float *)
| SText (s : string)         (* text *)
| SOther.                    (* any other value, a date for one *)

(** The rows of the sheet. The frame is as wide as its longest row, and
    the cells a row lacks are empty. *)
Abbreviation SummarySheet := (list (list SummaryCell)).

Definition summary_len (summary_df : SummarySheet) : nat := length summary_df.

Definition summary_ncols (summary_df : SummarySheet) : nat :=
  foldr Nat.max 0 (map length summary_df).

Definition summary_iloc (summary_df : SummarySheet) (r c : nat) : SummaryCell :=
  nth c (nth r summary_df []) SNaN.

Import Num.

(** The value kept for a summary cell: 0 for an empty cell, the number
    itself for an [int] or a [float], else [float (cell)], and 0 when that
    raises [ValueError] or [TypeError]. *)
Definition coerce_actual (cell : SummaryCell) : PyNum :=
  match cell with
  | SNaN => PInt 0
  | SFloat f => if is_nan f then PInt 0 else PFloat f
  | SInt z => PInt z
  | SNpInt z => PFloat (nearest_float z)
  | SText s =>
      match float_of_str s with
      | Ok f => PFloat f
      | Raise _ => PInt 0
      end
  | SOther => PInt 0
  end.

(** The block "Get actual value from summary sheet" that every section
    repeats: [None] when the coordinate lies outside the sheet. *)
Definition read_actual (summary_df : SummarySheet) (current_row col_index : nat)
  : option PyNum :=
  if (current_row <? summary_len summary_df)
     && (col_index <? summary_ncols summary_df)
  then Some (coerce_actual (summary_iloc summary_df current_row col_index))
  else None.

(** ** Reconciliation results *)

Record CellResult : Type := {
  calculated : PyNum;
  actual : option PyNum;
  match_ : bool;
  status : string;
  section : string;
  row_type : string;
  report : option string       (* the visit sections do not set this key *)
}.

(** A value of the results dictionary: a cell record, or the text of a
    section error. *)
Inductive Entry : Type :=
| Cell (c : CellResult)
| Message (text : string).

Definition mk_cell (calculated_value : PyNum) (actual_value : option PyNum)
    (is_match : bool) (section_name row_type_name : string)
    (report_name : option string) : Entry :=
  Cell {| calculated := calculated_value;
          actual := actual_value;
          match_ := is_match;
          status := if is_match then "PASS" else "FAIL";
          section := section_name;
          row_type := row_type_name;
          report := report_name |}.

(** [f"{col_letter}{current_row + 1}"] *)
Definition cell_name (col_letter : string) (current_row : nat) : string :=
  col_letter +:+ Py.str_nat (current_row + 1).

(** The dictionary [case_types], in insertion order. *)
Definition case_types : list (string * (string * nat)) :=
  [("B", ("child in care", 1));
   ("C", ("adoption", 2));
   ("D", ("formal customary care", 3));
   ("E", ("kinship service", 4))].

(** [enumerate (l)] *)
Definition enumerate {A} (l : list A) : list (nat * A) :=
  zip (seq 0 (length l)) l.

(** The filter on the case type, with the two spellings of formal
    customary care. *)
Definition case_filter (case_type_data : list string) (case_type : string)
  : list bool :=
  if String.eqb case_type "formal customary care"
  then Pd.isin (Pd.str_lower case_type_data) ["fcc"; "formal customary care"]
  else Pd.eq (Pd.str_lower case_type_data) case_type.

(** [except (ValueError, TypeError): match = False] *)
Definition except_value_error (body : Res bool) : Res bool :=
  match body with
  | Raise (ValueError _) => Ok false
  | other => other
  end.

(** [int (calculated_value) == int (actual_value) if actual_value is not
    None else False] *)
Definition int_match (calculated_value : PyNum) (actual_value : option PyNum)
  : Res bool :=
  match actual_value with
  | Some a =>
      c ← int_of calculated_value;
      a' ← int_of a;
      Ok (c =? a')%Z
  | None => Ok false
  end.

(** The tolerance of the compliance-rate comparison, the double written
    [0.01]. *)
Definition rate_tolerance : float := 0x1.47ae147ae147bp-7%float.

(** [abs (float (calculated_value) - float (actual_value)) < 0.01] *)
Definition rate_match (calculated_value actual_value : PyNum) : Res bool :=
  calculated_float ← float_of calculated_value;
  actual_float ← float_of actual_value;
  Ok (PrimFloat.ltb (PrimFloat.abs (PrimFloat.sub calculated_float actual_float))
                    rate_tolerance).

(** ** Column discovery *)

(** The dictionary [columns_needed]. *)
Record RequiredColumns : Type := {
  compliant_col : option string;
  change_reason_col : option string;
  case_type_col : option string
}.

Definition find_required_columns (df : Pd.DataFrame) (compliant_pattern : string)
  : RequiredColumns :=
  fold_left
    (fun columns_needed col =>
       let col_lower := Py.lower col in
       if Py.contains compliant_pattern col_lower
       then {| compliant_col := Some col;
               change_reason_col := change_reason_col columns_needed;
               case_type_col := case_type_col columns_needed |}
       else if Py.contains "incorrect change reason" col_lower
       then {| compliant_col := compliant_col columns_needed;
               change_reason_col := Some col;
               case_type_col := case_type_col columns_needed |}
       else if Py.contains "case type" col_lower
       then {| compliant_col := compliant_col columns_needed;
               change_reason_col := change_reason_col columns_needed;
               case_type_col := Some col |}
       else columns_needed)
    (Pd.columns df)
    {| compliant_col := None; change_reason_col := None; case_type_col := None |}.

(** [[k for k, v in columns.items () if v is None]] *)
Definition missing_keys (columns : RequiredColumns) : list string :=
  let missing (key : string) (v : option string) : list string :=
    match v with
    | None => [key]
    | Some _ => []
    end in
  missing "compliant_col" (compliant_col columns)
  ++ missing "change_reason_col" (change_reason_col columns)
  ++ missing "case_type_col" (case_type_col columns).

Definition find_exclusion_column (df : Pd.DataFrame) (visit_type : string)
  : option string :=
  List.find
    (fun col =>
       let col_lower := Py.lower col in
       Py.contains "exclusion" col_lower
       && Py.contains "closed prior to due date" col_lower
       && ((String.eqb visit_type "7 day" && Py.contains "7" col_lower)
           || (String.eqb visit_type "30 day" && Py.contains "30" col_lower)
           || (String.eqb visit_type "90 day" && Py.contains "90" col_lower)))
    (Pd.columns df).

Definition find_case_type_column (df : Pd.DataFrame) : option string :=
  List.find (fun col => Py.contains "case type" (Py.lower col)) (Pd.columns df).

Definition find_primary_placement_column (df : Pd.DataFrame) : option string :=
  List.find (fun col => Py.contains "primary in care placement type" (Py.lower col))
            (Pd.columns df).

(** ** The section verifiers *)

Abbreviation Results := (gmap string Entry).

(** [len (df[mask])] as a Python int *)
Definition count_rows (df : Pd.DataFrame) (mask : list bool) : Z :=
  Z.of_nat (Pd.len (Pd.select df mask)).

(** [df[series.str.lower () == 'no']] for the change-reason column *)
Definition filter_change_reason_no (df : Pd.DataFrame) (change_reason_col : option string)
  : Res Pd.DataFrame :=
  series ← Pd.getitem df change_reason_col;
  Ok (Pd.select df (Pd.eq (Pd.str_lower (Pd.fillna_str series)) "no")).

(** *** The visit sections (7-day, 30-day, 90-day) *)

Definition row_types : list string :=
  ["total"; "compliant"; "non_compliant"; "compliance_rate"].

(** The masks on the compliance status. *)
Definition total_filter (section_name : string) (compliant_data : list string)
  : list bool :=
  if String.eqb section_name "90-day"
  then Pd.isin compliant_data ["Compliant"; "Not Compliant"; "Incomplete"]
  else Pd.isin compliant_data ["Compliant"; "Not Compliant"].

Definition non_compliant_filter (section_name : string) (compliant_data : list string)
  : list bool :=
  if String.eqb section_name "90-day"
  then Pd.isin compliant_data ["Not Compliant"; "Incomplete"]
  else Pd.eq compliant_data "Not Compliant".

(** [compliant_count / total_count if total_count > 0 else 0] *)
Definition compliance_rate (compliant_count total_count : Z) : Res PyNum :=
  if (0 <? total_count)%Z
  then rate ← truediv compliant_count total_count; Ok (PFloat rate)
  else Ok (PInt 0).

(** "Calculate expected value based on row type" *)
Definition visit_calculated (filtered_df : Pd.DataFrame) (columns : RequiredColumns)
    (section_name row_type case_type : string) : Res PyNum :=
  case_type_series ← Pd.getitem filtered_df (case_type_col columns);
  compliant_series ← Pd.getitem filtered_df (compliant_col columns);
  let case_type_data := Pd.fillna_str case_type_series in
  let compliant_data := Pd.fillna_str compliant_series in
  let case_mask := case_filter case_type_data case_type in
  if String.eqb row_type "total" then
    Ok (PInt (count_rows filtered_df
                (Pd.and case_mask (total_filter section_name compliant_data))))
  else if String.eqb row_type "compliant" then
    Ok (PInt (count_rows filtered_df
                (Pd.and case_mask (Pd.eq compliant_data "Compliant"))))
  else if String.eqb row_type "non_compliant" then
    Ok (PInt (count_rows filtered_df
                (Pd.and case_mask (non_compliant_filter section_name compliant_data))))
  else
    let total_count :=
      count_rows filtered_df
        (Pd.and case_mask (total_filter section_name compliant_data)) in
    let compliant_count :=
      count_rows filtered_df (Pd.and case_mask (Pd.eq compliant_data "Compliant")) in
    compliance_rate compliant_count total_count.

(** "For compliance rate, compare with tolerance" *)
Definition visit_match (row_type : string) (calculated_value : PyNum)
    (actual_value : option PyNum) : Res bool :=
  match actual_value with
  | Some a =>
      if String.eqb row_type "compliance_rate"
      then except_value_error (rate_match calculated_value a)
      else except_value_error (int_match calculated_value actual_value)
  | None => except_value_error (int_match calculated_value actual_value)
  end.

Definition visit_cell (filtered_df : Pd.DataFrame) (columns : RequiredColumns)
    (summary_df : SummarySheet) (section_name row_type : string)
    (current_row : nat) (case_type : string) (col_index : nat) : Res Entry :=
  calculated_value ← visit_calculated filtered_df columns section_name row_type case_type;
  let actual_value := read_actual summary_df current_row col_index in
  is_match ← visit_match row_type calculated_value actual_value;
  Ok (mk_cell calculated_value actual_value is_match section_name row_type None).

Definition verify_visit_section (df : Pd.DataFrame) (columns : RequiredColumns)
    (summary_df : SummarySheet) (start_row end_row : nat) (section_name : string)
  : Res Results :=
  filtered_df ← filter_change_reason_no df (change_reason_col columns);
  if Pd.len filtered_df =? 0
  then Ok {[ section_name +:+ "_error" :=
               Message "No records found with Incorrect Change Reason = 'No'" ]}
  else
    for_each (enumerate row_types)
      (fun '(row_offset, row_type) results =>
         let current_row := start_row + row_offset in
         for_each case_types
           (fun '(col_letter, (case_type, col_index)) results =>
              entry ← visit_cell filtered_df columns summary_df section_name
                        row_type current_row case_type col_index;
              Ok (<[cell_name col_letter current_row := entry]> results))
           results)
      ∅.

(** *** The sections with one row per report *)

(** The three reports of a section, with the name of their row. *)
Definition three_reports {C} (std1_df std2_df std3_df : Pd.DataFrame) (c1 c2 c3 : C)
  : list (nat * (Pd.DataFrame * C * string)) :=
  enumerate [(std1_df, c1, "7-day"); (std2_df, c2, "30-day"); (std3_df, c3, "90-day")].

(** "For 90-day visits, exclude CIC" *)
Definition excluded_from_90_day (report_name case_type : string) : bool :=
  String.eqb report_name "90-day" && String.eqb case_type "child in care".

(** The end of every turn of these loops: read the summary cell, compare
    as integers, build the record. *)
Definition int_cell (calculated_value : PyNum) (summary_df : SummarySheet)
    (current_row col_index : nat) (section_name row_type_name report_name : string)
  : Res Entry :=
  let actual_value := read_actual summary_df current_row col_index in
  is_match ← int_match calculated_value actual_value;
  Ok (mk_cell calculated_value actual_value is_match section_name row_type_name
        (Some report_name)).

(** Whereabouts Unknown: one turn of the inner loop. The placement values
    of every report are read under [placement_col_std1]. *)
Definition whereabouts_calculated (report_df : Pd.DataFrame) (columns : RequiredColumns)
    (placement_col_std1 report_name case_type : string) : Res PyNum :=
  filtered_df ← filter_change_reason_no report_df (change_reason_col columns);
  case_type_series ← Pd.getitem filtered_df (case_type_col columns);
  placement_series ← Pd.getitem filtered_df (Some placement_col_std1);
  let case_type_data := Pd.fillna_str case_type_series in
  let placement_data := Pd.fillna_str placement_series in
  let case_mask := case_filter case_type_data case_type in
  let whereabouts_filter := Pd.eq (Pd.str_lower placement_data) "whereabouts unknown" in
  if excluded_from_90_day report_name case_type
  then Ok (PInt 0)
  else Ok (PInt (count_rows filtered_df (Pd.and case_mask whereabouts_filter))).

Definition verify_whereabouts_unknown_section (std1_df std2_df std3_df : Pd.DataFrame)
    (columns_std1 columns_std2 columns_std3 : RequiredColumns)
    (summary_df : SummarySheet) (start_row end_row : nat) : Res Results :=
  match find_primary_placement_column std1_df,
        find_primary_placement_column std2_df,
        find_primary_placement_column std3_df with
  | None, _, _ =>
      Ok {[ "whereabouts_error" :=
              Message "Primary Placement Type column not found in Standard 1 Report" ]}
  | Some _, None, _ =>
      Ok {[ "whereabouts_error" :=
              Message "Primary Placement Type column not found in Standard 2 Report" ]}
  | Some _, Some _, None =>
      Ok {[ "whereabouts_error" :=
              Message "Primary Placement Type column not found in Standard 3 Report" ]}
  | Some placement_col_std1, Some placement_col_std2, Some placement_col_std3 =>
      for_each (three_reports std1_df std2_df std3_df
                  columns_std1 columns_std2 columns_std3)
        (fun '(row_offset, (report_df, columns, report_name)) results =>
           let current_row := start_row + row_offset in
           for_each case_types
             (fun '(col_letter, (case_type, col_index)) results =>
                calculated_value ←
                  whereabouts_calculated report_df columns placement_col_std1
                    report_name case_type;
                entry ← int_cell calculated_value summary_df current_row col_index
                          "whereabouts-unknown" report_name report_name;
                Ok (<[cell_name col_letter current_row := entry]> results))
             results)
        ∅
  end.

(** Exclusion - Service Ended *)
Definition service_ended_calculated (report_df : Pd.DataFrame)
    (exclusion_col report_name case_type : string) : Res PyNum :=
  case_type_series ← Pd.getitem report_df (find_case_type_column report_df);
  exclusion_series ← Pd.getitem report_df (Some exclusion_col);
  let case_type_data := Pd.fillna_str case_type_series in
  let exclusion_data := Pd.fillna_str exclusion_series in
  let case_mask := case_filter case_type_data case_type in
  let exclusion_filter := Pd.eq (Pd.str_lower exclusion_data) "yes" in
  if excluded_from_90_day report_name case_type
  then Ok (PInt 0)
  else Ok (PInt (count_rows report_df (Pd.and case_mask exclusion_filter))).

Definition verify_exclusion_service_ended_section
    (std1_df std2_df std3_df : Pd.DataFrame)
    (summary_df : SummarySheet) (start_row end_row : nat) : Res Results :=
  match find_exclusion_column std1_df "7 day",
        find_exclusion_column std2_df "30 day",
        find_exclusion_column std3_df "90 day" with
  | None, _, _ =>
      Ok {[ "exclusion_error" :=
              Message "7 Day Private Visit Exclusion column not found in Standard 1 Report" ]}
  | Some _, None, _ =>
      Ok {[ "exclusion_error" :=
              Message "30 Day Private Visit Exclusion column not found in Standard 2 Report" ]}
  | Some _, Some _, None =>
      Ok {[ "exclusion_error" :=
              Message "90 Day Visit Exclusion column not found in Standard 3 Report" ]}
  | Some exclusion_col_std1, Some exclusion_col_std2, Some exclusion_col_std3 =>
      for_each (three_reports std1_df std2_df std3_df
                  exclusion_col_std1 exclusion_col_std2 exclusion_col_std3)
        (fun '(row_offset, (report_df, exclusion_col, report_name)) results =>
           let current_row := start_row + row_offset in
           for_each case_types
             (fun '(col_letter, (case_type, col_index)) results =>
                calculated_value ←
                  service_ended_calculated report_df exclusion_col report_name case_type;
                entry ← int_cell calculated_value summary_df current_row col_index
                          "exclusion-service-ended" report_name report_name;
                Ok (<[cell_name col_letter current_row := entry]> results))
             results)
        ∅
  end.

(** Exclusion - Data Entry Issue *)
Definition data_entry_calculated (report_df : Pd.DataFrame) (columns : RequiredColumns)
    (report_name case_type : string) : Res PyNum :=
  case_type_series ← Pd.getitem report_df (case_type_col columns);
  change_reason_series ← Pd.getitem report_df (change_reason_col columns);
  compliant_series ← Pd.getitem report_df (compliant_col columns);
  let case_type_data := Pd.fillna_str case_type_series in
  let change_reason_data := Pd.fillna_str change_reason_series in
  let compliant_data := Pd.fillna_str compliant_series in
  let case_mask := case_filter case_type_data case_type in
  let incorrect_reason_filter := Pd.eq (Pd.str_lower change_reason_data) "yes" in
  let compliant_filter := Pd.and (Pd.notna compliant_data) (Pd.ne compliant_data "") in
  if excluded_from_90_day report_name case_type
  then Ok (PInt 0)
  else Ok (PInt (count_rows report_df
                   (Pd.and (Pd.and case_mask incorrect_reason_filter) compliant_filter))).

Definition verify_exclusion_data_entry_section (std1_df std2_df std3_df : Pd.DataFrame)
    (columns_std1 columns_std2 columns_std3 : RequiredColumns)
    (summary_df : SummarySheet) (start_row end_row : nat) : Res Results :=
  for_each (three_reports std1_df std2_df std3_df
              columns_std1 columns_std2 columns_std3)
    (fun '(row_offset, (report_df, columns, report_name)) results =>
       let current_row := start_row + row_offset in
       for_each case_types
         (fun '(col_letter, (case_type, col_index)) results =>
            calculated_value ←
              data_entry_calculated report_df columns report_name case_type;
            entry ← int_cell calculated_value summary_df current_row col_index
                      "exclusion-data-entry" report_name report_name;
            Ok (<[cell_name col_letter current_row := entry]> results))
         results)
    ∅.

(** *** The two single-population sections *)

(** For Information Only: incomplete 90-day visits, formal customary care
    only. *)
Definition information_calculated (std3_df : Pd.DataFrame) (columns_std3 : RequiredColumns)
    (case_type : string) : Res PyNum :=
  case_type_series ← Pd.getitem std3_df (case_type_col columns_std3);
  compliant_series ← Pd.getitem std3_df (compliant_col columns_std3);
  let case_type_data := Pd.fillna_str case_type_series in
  let compliant_data := Pd.fillna_str compliant_series in
  let case_mask := case_filter case_type_data case_type in
  let incomplete_filter := Pd.eq (Pd.str_lower compliant_data) "incomplete" in
  if String.eqb case_type "formal customary care"
  then Ok (PInt (count_rows std3_df (Pd.and case_mask incomplete_filter)))
  else Ok (PInt 0).

Definition verify_information_only_section (std3_df : Pd.DataFrame)
    (columns_std3 : RequiredColumns) (summary_df : SummarySheet) (start_row : nat)
  : Res Results :=
  let current_row := start_row in
  for_each case_types
    (fun '(col_letter, (case_type, col_index)) results =>
       calculated_value ← information_calculated std3_df columns_std3 case_type;
       entry ← int_cell calculated_value summary_df current_row col_index
                 "information-only" "incomplete-90-day-fcc" "90-day";
       Ok (<[cell_name col_letter current_row := entry]> results))
    ∅.

(** Kinship Service Cases: 90-day visits with placement type Other. *)
Definition kinship_calculated (std3_df : Pd.DataFrame) (columns_std3 : RequiredColumns)
    (placement_col case_type : string) : Res PyNum :=
  case_type_series ← Pd.getitem std3_df (case_type_col columns_std3);
  change_reason_series ← Pd.getitem std3_df (change_reason_col columns_std3);
  compliant_series ← Pd.getitem std3_df (compliant_col columns_std3);
  placement_series ← Pd.getitem std3_df (Some placement_col);
  let case_type_data := Pd.fillna_str case_type_series in
  let change_reason_data := Pd.fillna_str change_reason_series in
  let compliant_data := Pd.fillna_str compliant_series in
  let placement_data := Pd.fillna_str placement_series in
  let case_mask := Pd.eq (Pd.str_lower case_type_data) case_type in
  let change_reason_filter := Pd.eq (Pd.str_lower change_reason_data) "no" in
  let compliant_filter := Pd.isin compliant_data ["Compliant"; "Not Compliant"] in
  let placement_filter := Pd.eq (Pd.str_lower placement_data) "other" in
  if String.eqb case_type "kinship service"
  then Ok (PInt (count_rows std3_df
                   (Pd.and (Pd.and (Pd.and case_mask change_reason_filter)
                                   compliant_filter)
                           placement_filter)))
  else Ok (PInt 0).

Definition verify_kinship_service_cases_section (std3_df : Pd.DataFrame)
    (columns_std3 : RequiredColumns) (summary_df : SummarySheet) (start_row : nat)
  : Res Results :=
  match find_primary_placement_column std3_df with
  | None =>
      Ok {[ "kinship_error" :=
              Message "Primary Placement Type column not found in Standard 3 Report" ]}
  | Some placement_col =>
      let current_row := start_row in
      for_each case_types
        (fun '(col_letter, (case_type, col_index)) results =>
           calculated_value ←
             kinship_calculated std3_df columns_std3 placement_col case_type;
           entry ← int_cell calculated_value summary_df current_row col_index
                     "kinship-service-cases" "90-day-placement-other" "90-day";
           Ok (<[cell_name col_letter current_row := entry]> results))
        ∅
  end.

(** ** The whole reconciliation *)

(** The verification workbook as the reconciliation reads it: the detail
    sheets by name, read with [header=1], and the sheet "Summary Total". *)
Record ReportFile : Type := {
  detail_sheets : gmap string Pd.DataFrame;
  summary_total : option SummarySheet
}.

(** [pd.read_excel (path, sheet_name=name, header=1)], then the labels
    stripped. *)
Definition read_detail (file : ReportFile) (sheet_name : string) : Res Pd.DataFrame :=
  match detail_sheets file !! sheet_name with
  | Some df => Ok {| Pd.columns := map Py.strip (Pd.columns df); Pd.rows := Pd.rows df |}
  | None => Raise (WorksheetNotFound sheet_name)
  end.

Definition read_summary (file : ReportFile) : Res SummarySheet :=
  match summary_total file with
  | Some summary_df => Ok summary_df
  | None => Raise (WorksheetNotFound "Summary Total")
  end.

(** [repr] of a list of strings, as an f-string prints it. *)
Definition repr_list (l : list string) : string :=
  "[" +:+ Py.join ", " (map (fun x => "'" +:+ x +:+ "'") l) +:+ "]".

(** The loop "Check if all required columns are found": the error of the
    first report that lacks a column. *)
Fixpoint check_required (reports : list (string * RequiredColumns)) : option Results :=
  match reports with
  | [] => None
  | (report_name, columns) :: reports' =>
      match missing_keys columns with
      | [] => check_required reports'
      | missing =>
          Some {[ "error" :=
                    Message ("Missing columns in " +:+ report_name +:+ ": "
                               +:+ repr_list missing) ]}
      end
  end.

(** [{**d1, **d2, ...}]: a later dictionary wins. *)
Definition merge_results (l : list Results) : Results :=
  fold_left (fun acc d => d ∪ acc) l ∅.

(** The body of the [try] block. *)
Definition verify_summary_total_counts_body (file : ReportFile) : Res Results :=
  std1_df ← read_detail file "Standard 1 Report";
  std2_df ← read_detail file "Standard 2 Report";
  std3_df ← read_detail file "Standard 3 Report";
  let columns_std1 := find_required_columns std1_df "7 day private visit compliant" in
  let columns_std2 := find_required_columns std2_df "30 day private visit compliant" in
  let columns_std3 := find_required_columns std3_df "90 day visit compliant" in
  match check_required [("Standard 1", columns_std1);
                        ("Standard 2", columns_std2);
                        ("Standard 3", columns_std3)] with
  | Some error => Ok error
  | None =>
      summary_df ← read_summary file;
      results_7day ← verify_visit_section std1_df columns_std1 summary_df 2 5 "7-day";
      results_30day ← verify_visit_section std2_df columns_std2 summary_df 7 10 "30-day";
      results_90day ← verify_visit_section std3_df columns_std3 summary_df 12 15 "90-day";
      results_whereabouts ←
        verify_whereabouts_unknown_section std1_df std2_df std3_df
          columns_std1 columns_std2 columns_std3 summary_df 18 20;
      results_exclusion_service ←
        verify_exclusion_service_ended_section std1_df std2_df std3_df summary_df 23 25;
      results_exclusion_data ←
        verify_exclusion_data_entry_section std1_df std2_df std3_df
          columns_std1 columns_std2 columns_std3 summary_df 28 30;
      results_information ←
        verify_information_only_section std3_df columns_std3 summary_df 33;
      results_kinship ←
        verify_kinship_service_cases_section std3_df columns_std3 summary_df 36;
      Ok (merge_results [results_7day; results_30day; results_90day;
                         results_whereabouts; results_exclusion_service;
                         results_exclusion_data; results_information;
                         results_kinship])
  end.

(** [verify_summary_total_counts]: any exception of the body becomes the
    entry ["error"]; the traceback that follows the exception's text in the
    Python message is left out. *)
Definition verify_summary_total_counts (file : ReportFile) : Results :=
  match verify_summary_total_counts_body file with
  | Ok results => results
  | Raise e =>
      {[ "error" :=
           Message ("Error verifying Summary Total counts: " +:+ str_exception e) ]}
  end.

(** ** The summary field comparator *)

Module SummaryReport.

Inductive RowNumber : Type :=
| Row (n : nat)
| NA.

Record Detail : Type := {
  row_number : RowNumber;
  design : string;
  verification : string;
  error_type : string
}.

Record Result : Type := {
  passed : bool;
  message : string;
  details : list Detail;
  mismatches : option (list string)     (* the key is absent when [None] *)
}.

(** The number of columns of a sheet read with [header=None]: the length
    of its longest row. *)
Definition ncols (g : Grid) : nat := foldr Nat.max 0 (map length g).

(** [df.iloc[0:37, 0]]: the cells of column A in the first 37 rows, or
    in all rows when the sheet has fewer; an [IndexError] when the sheet has
    no column. *)
Definition iloc_column_A (g : Grid) : Res (list (option string)) :=
  if ncols g =? 0 then Raise IndexError
  else Ok (map (fun row => nth 0 row None) (take 37 g)).

(** The fields of a sheet: the cells A1 to A37 that are not empty, each
    stripped. *)
Definition read_fields (doc : Document) (sheet_name : string) : Res (list string) :=
  df ← read_excel doc sheet_name;
  series ← iloc_column_A df;
  Ok (labels_of_row series).

(** The text and the record appended for position [i]. *)
Definition field_mismatch (i : nat) (design_field verification_field : string)
  : string * Detail :=
  let error_type := verdict_text (analyze_difference design_field verification_field) in
  ("Row " +:+ Py.str_nat (i + 1) +:+ ": " +:+ error_type
     +:+ " - Design='" +:+ design_field
     +:+ "' vs Verification='" +:+ verification_field +:+ "'",
   {| row_number := Row (i + 1);
      design := design_field;
      verification := verification_field;
      error_type := error_type |}).

Definition count_mismatch (n_design n_verification : nat) : string * Detail :=
  ("Field count mismatch: Design=" +:+ Py.str_nat n_design
     +:+ ", Verification=" +:+ Py.str_nat n_verification,
   {| row_number := NA;
      design := "Total fields: " +:+ Py.str_nat n_design;
      verification := "Total fields: " +:+ Py.str_nat n_verification;
      error_type := "Field count mismatch" |}).

(** One turn of [for i in range (min_length)]; the state is
    [(mismatches, details)]. *)
Definition compare_step (design_fields verification_fields : list string)
    (st : list string * list Detail) (i : nat) : list string * list Detail :=
  let design_field := nth i design_fields "" in
  let verification_field := nth i verification_fields "" in
  if negb (String.eqb design_field verification_field)
  then let '(m, d) := field_mismatch i design_field verification_field in
       (fst st ++ [m], snd st ++ [d])
  else st.

Definition compare_fields (design_fields verification_fields : list string)
  : list string * list Detail :=
  let min_length := Nat.min (length design_fields) (length verification_fields) in
  let st := fold_left (compare_step design_fields verification_fields)
                      (seq 0 min_length) ([], []) in
  if negb (length design_fields =? length verification_fields)
  then let '(m, d) := count_mismatch (length design_fields)
                                     (length verification_fields) in
       (fst st ++ [m], snd st ++ [d])
  else st.

(** The part of [test_summary_report] after the [try] block. *)
Definition compare_result (design_fields verification_fields : list string) : Result :=
  let '(mismatches, details) := compare_fields design_fields verification_fields in
  match mismatches with
  | [] =>
      {| passed := true;
         message := "Summary report fields match perfectly";
         details := [];
         mismatches := None |}
  | _ =>
      {| passed := false;
         message := "Summary report field differences found";
         details := details;
         mismatches := Some mismatches |}
  end.

Definition read_error_result (e : Exception) : Result :=
  {| passed := false;
     message := "Error reading summary reports: " +:+ str_exception e;
     details := [];
     mismatches := None |}.

Definition test_summary_report (design_spec verification : Document) : Res Result :=
  try_except
    (design_fields ← read_fields design_spec "Summary Report";
     verification_fields ← read_fields verification "Summary Total";
     Ok (compare_result design_fields verification_fields))
    (fun e => Ok (read_error_result e)).

End SummaryReport.

(** ** The verdict on the summary sheet *)

(** What a call of [verify_complete_summary_sheet] ends with: the boolean
    it returns, or the [AttributeError] of [result.get] on an entry that is
    a text. What the function prints is left out. *)
Inductive SheetRun : Type :=
| Returns (verdict : bool)
| RaisesAttributeError.

(** ['error' in k] *)
Definition is_error_key (k : string) : bool := Py.contains "error" k.

Definition is_text (e : Entry) : bool :=
  match e with
  | Message _ => true
  | Cell _ => false
  end.

Definition cell_of (e : Entry) : option CellResult :=
  match e with
  | Cell c => Some c
  | Message _ => None
  end.

Definition verify_complete_summary_sheet (file : ReportFile) : SheetRun :=
  let basic_results := verify_summary_total_counts file in
  if bool_decide (is_Some (basic_results !! "error")) then Returns false
  else
    let section_errors :=
      filter (fun kv : string * Entry => is_error_key kv.1 = true) basic_results in
    let basic_results :=
      if size section_errors =? 0 then basic_results
      else filter (fun kv : string * Entry => is_error_key kv.1 = false) basic_results in
    if size basic_results =? 0 then Returns false
    else
      let values := (map_to_list basic_results).*2 in
      (* the grouping loop calls [result.get] on every value *)
      if existsb is_text values then RaisesAttributeError
      else
        let valid_results := omap cell_of values in
        match valid_results with
        | [] => Returns false
        | _ => Returns (forallb match_ valid_results)
        end.

(** ** The developer report: correction guidance *)

(** [d.get (key, default)] for a dictionary of texts written as a literal
    with distinct keys. *)
Fixpoint dict_get (d : list (string * string)) (key default : string) : string :=
  match d with
  | [] => default
  | (k, v) :: d' => if String.eqb k key then v else dict_get d' key default
  end.

Definition get_column_correction (error_type expected actual : string) : string :=
  let corrections :=
    [("Space difference",
      "Trim spaces: change '" +:+ actual +:+ "' to '" +:+ expected +:+ "'");
     ("Case difference",
      "Standardize case: change '" +:+ actual +:+ "' to '" +:+ expected +:+ "'");
     ("Spelling error",
      "Correct spelling: change '" +:+ actual +:+ "' to '" +:+ expected +:+ "'");
     ("Word order difference", "Reorder words to match specification");
     ("Missing words in verification", "Add missing words: '" +:+ expected +:+ "'");
     ("Extra words in verification", "Remove extra words: use '" +:+ expected +:+ "'");
     ("Content difference",
      "Major revision needed. Expected: '" +:+ expected +:+ "', Found: '"
        +:+ actual +:+ "'");
     ("Column count mismatch",
      "Adjust number of columns to match design specification")] in
  dict_get corrections error_type
    ("Review and correct: '" +:+ actual +:+ "' should be '" +:+ expected +:+ "'").

(** The guidance [create_column_comparison_analysis] writes beside a
    recorded discrepancy. *)
Definition column_guidance (detail : Detail) : string :=
  get_column_correction (error_type detail) (design detail) (verification detail).


(** * Specifications *)

(** The predicates the properties are stated with, and the sample
    workbooks they are tried on. *)

(** What a best block of the window [alo, ahi) satisfies: it is still the
    empty block at [alo], or it lies inside the window. *)
Definition in_window (alo ahi : nat) (m : Difflib.Match) : Prop :=
  let '(i, _, k) := m in
  (k = 0 /\ i = alo) \/ (0 < k /\ alo <= i /\ i + k <= ahi).

Definition string_le (s1 s2 : string) : Prop := String.leb s1 s2 = true.

(** The eight outcomes, and the form of the text returned for each. *)
Inductive Outcome : Type :=
| OExact | OSpace | OCase | OSpelling | OWordOrder | OExtra | OMissing | OContent.

Definition outcomes : list Outcome :=
  [OExact; OSpace; OCase; OSpelling; OWordOrder; OExtra; OMissing; OContent].

Definition outcome_of (v : Verdict) : Outcome :=
  match v with
  | ExactMatch => OExact
  | SpaceDifference => OSpace
  | CaseDifference => OCase
  | SpellingError _ => OSpelling
  | WordOrderDifference => OWordOrder
  | ExtraWordsInVerification => OExtra
  | MissingWordsInVerification => OMissing
  | ContentDifference => OContent
  end.

Definition has_form (o : Outcome) (text : string) : Prop :=
  match o with
  | OExact => text = "Exact match"
  | OSpace => text = "Space difference (extra/missing spaces)"
  | OCase => text = "Case difference (upper/lower case)"
  | OSpelling => exists score, text = "Spelling error (similarity: " +:+ score +:+ ")"
  | OWordOrder => text = "Word order difference"
  | OExtra => text = "Extra words in verification"
  | OMissing => text = "Missing words in verification"
  | OContent => text = "Content difference"
  end.

Definition is_spelling_error (v : Verdict) : bool :=
  match v with
  | SpellingError _ => true
  | _ => false
  end.

(** The first three rules do not fire. *)
Definition past_rule_3 (x y : string) : Prop :=
  x <> y
  /\ Py.join " " (Py.split x) <> Py.join " " (Py.split y)
  /\ Py.lower x <> Py.lower y.

(** The first five rules do not fire. *)
Definition past_rule_5 (x y : string) : Prop :=
  past_rule_3 x y
  /\ PrimFloat.ltb spelling_threshold (Difflib.ratio (Py.lower x) (Py.lower y)) = false
  /\ ¬ (Py.split (Py.lower x) ≡ₚ Py.split (Py.lower y)).

(** The discrepancy of position [i], when the two labels differ there. *)
Definition positional (design_columns verification_columns : list string) (i : nat)
  : option (string * Detail) :=
  let design_col := nth i design_columns "" in
  let verification_col := nth i verification_columns "" in
  if String.eqb design_col verification_col then None
  else Some (column_mismatch i design_col verification_col).

(** The discrepancies of the positions below the shorter length, in
    order. *)
Definition positional_discrepancies (dc vc : list string) : list (string * Detail) :=
  omap (positional dc vc) (seq 0 (Nat.min (length dc) (length vc))).

(** The discrepancy of the lengths, if they differ. *)
Definition count_discrepancy (dc vc : list string) : list (string * Detail) :=
  if length dc =? length vc then []
  else [count_mismatch (length dc) (length vc)].

Definition is_count_mismatch (d : Detail) : bool :=
  match column_number d with
  | NA => true
  | Col _ => false
  end.

(** Row [row] of sheet [sheet_name] cannot be read: the file cannot be
    opened, it has no such sheet, or the sheet stops before the row. *)
Definition cannot_extract (doc : Document) (sheet_name : string) (row : nat) : Prop :=
  match doc_sheets doc with
  | None => True
  | Some sheets =>
      match sheets !! sheet_name with
      | None => True
      | Some g => length g <= row
      end
  end.

(** The two comparisons behind the flag. *)
Definition ints_agree (c a : PyNum) : Prop :=
  exists z, int_of c = Ok z /\ int_of a = Ok z.

Definition rates_agree (c a : PyNum) : Prop :=
  exists cf af,
    float_of c = Ok cf /\ float_of a = Ok af
    /\ PrimFloat.ltb (PrimFloat.abs (PrimFloat.sub cf af)) rate_tolerance = true.

(** The flag is set exactly when the summary cell exists and agrees with
    the calculated value: within the tolerance on a compliance-rate row, as
    truncated integers on every other row. *)
Definition match_rule (c : CellResult) : Prop :=
  match_ c = true <->
  exists a, actual c = Some a
            /\ if String.eqb (row_type c) "compliance_rate"
               then rates_agree (calculated c) a
               else ints_agree (calculated c) a.

(** The record under key [k] holds the value read at the coordinate the
    key names. *)
Definition reads_summary (summary_df : SummarySheet) (k : string) (c : CellResult)
  : Prop :=
  exists col_letter case_type col_index current_row,
    (col_letter, (case_type, col_index)) ∈ case_types
    /\ k = cell_name col_letter current_row
    /\ actual c = read_actual summary_df current_row col_index.

Definition cell_invariant (summary_df : SummarySheet) (k : string) (e : Entry) : Prop :=
  match e with
  | Cell c => reads_summary summary_df k c /\ match_rule c
  | Message _ => True
  end.

(** A summary cell with no number in it. *)
Definition empty_or_non_numeric (cell : SummaryCell) : Prop :=
  match cell with
  | SNaN | SOther => True
  | SFloat f => is_nan f = true
  | SText s => raises (float_of_str s)
  | SInt _ | SNpInt _ => False
  end.

(** A detail sheet with the five columns the sections look for; a row
    gives the case type, the incorrect-change-reason flag, the compliance
    status, the placement type and the exclusion flag. *)
Definition sample_frame (visit : string) (data : list (list string)) : Pd.DataFrame :=
  {| Pd.columns := ["Case Type"; "Incorrect Change Reason"; visit +:+ " Compliant";
                    "Primary In Care Placement Type";
                    visit +:+ " Exclusion - Closed Prior to Due Date"];
     Pd.rows := map (map Some) data |}.

Definition sample_std1 : Pd.DataFrame :=
  sample_frame "7 Day Private Visit"
    [["Child in Care"; "No"; "Compliant"; "Foster Home"; "No"];
     ["Adoption"; "No"; "Not Compliant"; "Whereabouts Unknown"; "Yes"]].

Definition sample_std2 : Pd.DataFrame :=
  sample_frame "30 Day Private Visit"
    [["FCC"; "No"; "Compliant"; "Foster Home"; "No"]].

(** Five child-in-care rows of the 90-day report, each compliant, with
    placement "Whereabouts Unknown" and the exclusion flag set. *)
Definition sample_std3 : Pd.DataFrame :=
  sample_frame "90 Day Visit"
    (repeat ["Child in Care"; "No"; "Compliant"; "Whereabouts Unknown"; "Yes"] 5).

Definition sample_columns (df : Pd.DataFrame) (pattern : string) : RequiredColumns :=
  find_required_columns df pattern.

(** A summary sheet whose only cells are A24, empty, and B24, the number
    0.5. *)
Definition sample_summary : SummarySheet :=
  repeat [] 23 ++ [[SNaN; SFloat 0.5]].

(** The entry a section returns under a key, if it returns. *)
Definition lookup_result (run : Res Results) (k : string) : option Entry :=
  match run with
  | Ok results => results !! k
  | Raise _ => None
  end.

(** Python's [x == y] on two numbers: the exact values are compared. *)
Definition py_eq (x y : PyNum) : bool :=
  let int_float (a : Z) (f : float) : bool :=
    match Prim2SF f with
    | S754_zero _ => (a =? 0)%Z
    | S754_finite s m e =>
        let v := if s then Z.neg m else Z.pos m in
        if (0 <=? e)%Z then (a =? v * 2 ^ e)%Z else (a * 2 ^ (- e) =? v)%Z
    | _ => false
    end in
  match x, y with
  | PInt a, PInt b => (a =? b)%Z
  | PFloat f, PFloat g => PrimFloat.eqb f g
  | PInt a, PFloat f => int_float a f
  | PFloat f, PInt a => int_float a f
  end.

(** In column B of a 90-day row the calculated value is 0. *)
Definition child_in_care_90_day_zero (k : string) (e : Entry) : Prop :=
  match e with
  | Cell c =>
      row_type c = "90-day" -> String.prefix "B" k = true -> calculated c = PInt 0
  | Message _ => True
  end.

(** The text of a row under a column label, as the filters see it. *)
Definition row_text (df : Pd.DataFrame) (col : string) (row : list (option string))
  : string :=
  match Pd.index_of col (Pd.columns df) with
  | Some i => default "" (nth i row None)
  | None => ""
  end.

(** No two columns carry the same label, so that [df[col]] is a column. *)
Definition distinct_labels (df : Pd.DataFrame) : Prop := NoDup (Pd.columns df).

Definition has_column (df : Pd.DataFrame) (col : string) : Prop :=
  is_Some (Pd.index_of col (Pd.columns df)).

(** The case-type test on one value. *)
Definition case_matches (value case_type : string) : bool :=
  if String.eqb case_type "formal customary care"
  then Py.mem (Py.lower value) ["fcc"; "formal customary care"]
  else String.eqb (Py.lower value) case_type.


(** The rows left by the filter on the change reason. *)
Definition is_no (df : Pd.DataFrame) (change_reason : string)
    (row : list (option string)) : bool :=
  String.eqb (Py.lower (row_text df change_reason row)) "no".



(** A 30-day report whose only placement column has another label. *)
Definition sample_std2_other_label : Pd.DataFrame :=
  {| Pd.columns := ["Case Type"; "Incorrect Change Reason";
                    "30 Day Private Visit Compliant";
                    "Former Primary In Care Placement Type"];
     Pd.rows := [[Some "FCC"; Some "No"; Some "Compliant";
                  Some "Whereabouts Unknown"]] |}.

(** A dictionary without any cell record. *)
Definition no_cells (results : Results) : Prop :=
  forall k c, results !! k <> Some (Cell c).

(** Every entry of a section's dictionary is a cell record of that
    section, under the key of a cell of columns B to E, or the section's
    error entry. *)
Definition from_section (name error_key : string) (k : string) (e : Entry) : Prop :=
  match e with
  | Cell c =>
      section c = name
      /\ exists col_letter current_row,
           col_letter ∈ ["B"; "C"; "D"; "E"] /\ k = cell_name col_letter current_row
  | Message _ => k = error_key
  end.

(** The key of an error entry is no key of a cell. *)
Definition not_cell_key (key : string) : Prop :=
  forall col_letter current_row,
    col_letter ∈ ["B"; "C"; "D"; "E"] -> key <> cell_name col_letter current_row.

(** The dictionaries of the eight sections, in the order they are merged. *)
Definition section_runs (std1_df std2_df std3_df : Pd.DataFrame)
    (summary_df : SummarySheet) : list (Res Results) :=
  [verify_visit_section std1_df
     (find_required_columns std1_df "7 day private visit compliant")
     summary_df 2 5 "7-day";
   verify_visit_section std2_df
     (find_required_columns std2_df "30 day private visit compliant")
     summary_df 7 10 "30-day";
   verify_visit_section std3_df
     (find_required_columns std3_df "90 day visit compliant")
     summary_df 12 15 "90-day";
   verify_whereabouts_unknown_section std1_df std2_df std3_df
     (find_required_columns std1_df "7 day private visit compliant")
     (find_required_columns std2_df "30 day private visit compliant")
     (find_required_columns std3_df "90 day visit compliant") summary_df 18 20;
   verify_exclusion_service_ended_section std1_df std2_df std3_df summary_df 23 25;
   verify_exclusion_data_entry_section std1_df std2_df std3_df
     (find_required_columns std1_df "7 day private visit compliant")
     (find_required_columns std2_df "30 day private visit compliant")
     (find_required_columns std3_df "90 day visit compliant") summary_df 28 30;
   verify_information_only_section std3_df
     (find_required_columns std3_df "90 day visit compliant") summary_df 33;
   verify_kinship_service_cases_section std3_df
     (find_required_columns std3_df "90 day visit compliant") summary_df 36].

Definition exclusion_reports (std1_df std2_df std3_df : Pd.DataFrame)
  : list (string * string * Pd.DataFrame * string) :=
  [("7 Day Private Visit", "Standard 1", std1_df, "7 day");
   ("30 Day Private Visit", "Standard 2", std2_df, "30 day");
   ("90 Day Visit", "Standard 3", std3_df, "90 day")].

(** The exclusion column of some report cannot be found. *)
Definition exclusion_column_missing (std1_df std2_df std3_df : Pd.DataFrame) : Prop :=
  find_exclusion_column std1_df "7 day" = None
  \/ find_exclusion_column std2_df "30 day" = None
  \/ find_exclusion_column std3_df "90 day" = None.

(** The placement column of some report cannot be found. *)
Definition placement_column_missing (std1_df std2_df std3_df : Pd.DataFrame) : Prop :=
  find_primary_placement_column std1_df = None
  \/ find_primary_placement_column std2_df = None
  \/ find_primary_placement_column std3_df = None.

(** A required column of some report cannot be found. *)
Definition required_column_missing (std1_df std2_df std3_df : Pd.DataFrame) : Prop :=
  Exists (fun r => missing_keys (snd r) <> [])
    [("Standard 1", find_required_columns std1_df "7 day private visit compliant");
     ("Standard 2", find_required_columns std2_df "30 day private visit compliant");
     ("Standard 3", find_required_columns std3_df "90 day visit compliant")].

(** The 7-day report without its exclusion column. *)
Definition sample_std1_no_exclusion : Pd.DataFrame :=
  {| Pd.columns := ["Case Type"; "Incorrect Change Reason";
                    "7 Day Private Visit Compliant";
                    "Primary In Care Placement Type"];
     Pd.rows := [[Some "Child in Care"; Some "No"; Some "Compliant";
                  Some "Foster Home"]] |}.

(** The 30-day report without its compliance column. *)
Definition sample_std2_no_compliant : Pd.DataFrame :=
  {| Pd.columns := ["Case Type"; "Incorrect Change Reason";
                    "Primary In Care Placement Type"];
     Pd.rows := [[Some "FCC"; Some "No"; Some "Foster Home"]] |}.

Definition sample_file (std1_df std2_df std3_df : Pd.DataFrame) : ReportFile :=
  {| detail_sheets := <["Standard 1 Report" := std1_df]>
                        (<["Standard 2 Report" := std2_df]>
                           (<["Standard 3 Report" := std3_df]> ∅));
     summary_total := Some sample_summary |}.

(** The three tests of [find_required_columns] on a label, as the [elif]
    chain orders them: a label that passes an earlier test is not tried
    on a later one. *)
Definition is_compliant_label (compliant_pattern col : string) : bool :=
  Py.contains compliant_pattern (Py.lower col).

Definition is_change_reason_label (compliant_pattern col : string) : bool :=
  negb (Py.contains compliant_pattern (Py.lower col))
  && Py.contains "incorrect change reason" (Py.lower col).

Definition is_case_type_label (compliant_pattern col : string) : bool :=
  negb (Py.contains compliant_pattern (Py.lower col))
  && negb (Py.contains "incorrect change reason" (Py.lower col))
  && Py.contains "case type" (Py.lower col).

(** Outside column [col_letter] the calculated value of a record is 0. *)
Definition zero_outside (col_letter : string) (k : string) (e : Entry) : Prop :=
  match e with
  | Cell c => String.prefix col_letter k = false -> calculated c = PInt 0
  | Message _ => True
  end.

(** The error entry of a visit section. *)
Definition no_records_entry (section_name : string) : Results :=
  {[ section_name +:+ "_error" :=
       Message "No records found with Incorrect Change Reason = 'No'" ]}.

(** Column A of sheet [sheet_name] cannot be read: the file cannot be
    opened, it has no such sheet, or the sheet has no column. *)
Definition cannot_read_fields (doc : Document) (sheet_name : string) : Prop :=
  match doc_sheets doc with
  | None => True
  | Some sheets =>
      match sheets !! sheet_name with
      | None => True
      | Some g => SummaryReport.ncols g = 0
      end
  end.

(** What the keys of a run's dictionary look like: a cell record stands
    under the name of a cell of columns B to E, a text under a key that
    contains "error". *)
Definition run_entry (k : string) (e : Entry) : Prop :=
  match e with
  | Cell c =>
      exists col_letter current_row,
        col_letter ∈ ["B"; "C"; "D"; "E"] /\ k = cell_name col_letter current_row
  | Message _ => is_error_key k = true
  end.

(** A workbook that yields the 7-day section's error entry and cells
    everywhere else: the 7-day report has no row with change reason "No". *)
Definition sample_std1_no_eligible : Pd.DataFrame :=
  sample_frame "7 Day Private Visit"
    [["Child in Care"; "Yes"; "Compliant"; "Foster Home"; "No"]].

(** The names of the cells of columns B to E in one row of the summary
    sheet, and in a block of [n_rows] rows from [start_row] on. *)
Definition row_keys (current_row : nat) : gset string :=
  list_to_set (map (fun t : string * (string * nat) => cell_name t.1 current_row)
                   case_types).

Definition block_keys (start_row n_rows : nat) : gset string :=
  ⋃ map (fun row_offset => row_keys (start_row + row_offset)) (seq 0 n_rows).

(** The cells of the eight blocks of the summary sheet. *)
Definition summary_cells : gset string :=
  block_keys 2 4 ∪ block_keys 7 4 ∪ block_keys 12 4 ∪ block_keys 18 3
  ∪ block_keys 23 3 ∪ block_keys 28 3 ∪ block_keys 33 1 ∪ block_keys 36 1.

(** The guidance that belongs to each outcome of the classifier, read off
    the dictionary of [get_column_correction]; the first four outcomes have
    no key of their own there. *)
Definition guidance_of (o : Outcome) (expected actual : string) : string :=
  match o with
  | OExact | OSpace | OCase | OSpelling =>
      "Review and correct: '" +:+ actual +:+ "' should be '" +:+ expected +:+ "'"
  | OWordOrder => "Reorder words to match specification"
  | OExtra => "Remove extra words: use '" +:+ expected +:+ "'"
  | OMissing => "Add missing words: '" +:+ expected +:+ "'"
  | OContent =>
      "Major revision needed. Expected: '" +:+ expected +:+ "', Found: '"
        +:+ actual +:+ "'"
  end.

(** A word: a non-empty text without white space. *)
Definition is_word (w : string) : Prop :=
  w <> "" /\ Forall (fun c => Py.isspace c = false) (Py.chars w).

(** What follows the first word in [" ".join (w :: ws)]. *)
Definition join_tail (ws : list string) : string :=
  match ws with
  | [] => ""
  | _ => " " +:+ Py.join " " ws
  end.

(** * Properties *)

(** ** The recursion of the matcher *)

Section MatcherFuel.
Variables a b : list ascii.
Variables alo ahi blo bhi : nat.

Lemma new_row_bound (c : ascii) (j2len : list nat) (bound : nat) :
  Forall (fun v => v <= bound) j2len ->
  Forall (fun v => v <= S bound) (Difflib.new_row b c blo bhi j2len).
Proof.
  intros Hrow. unfold Difflib.new_row. apply Forall_forall. intros v Hv.
  apply list_elem_of_fmap in Hv as (j & -> & _).
  destruct (Difflib.in_b2j b c j && (blo <=? j) && (j <? bhi)); [|lia].
  assert (Difflib.j2lenget j2len j <= bound); [|lia].
  unfold Difflib.j2lenget. destruct j as [|j']; [lia|].
  destruct (nth_in_or_default j' j2len 0) as [Hin|Heq]; [|rewrite Heq; lia].
  rewrite Forall_forall in Hrow. apply Hrow. by apply list_elem_of_In.
Qed.

Lemma update_best_window (i : nat) (row : list nat) (best : Difflib.Match) :
  alo <= i -> i < ahi ->
  Forall (fun v => v <= S (i - alo)) row ->
  in_window alo ahi best -> in_window alo ahi (Difflib.update_best b i row best).
Proof.
  intros Hlo Hhi Hrow. unfold Difflib.update_best.
  generalize (seq 0 (length b)). intros js. revert best.
  induction js as [|j js IH]; simpl; intros best Hbest; [done|].
  apply IH. destruct (snd best <? nth j row 0) eqn:Hlt; [|done].
  apply Nat.ltb_lt in Hlt.
  assert (Hk : nth j row 0 <= S (i - alo)).
  { destruct (nth_in_or_default j row 0) as [Hin|Heq]; [|rewrite Heq; lia].
    rewrite Forall_forall in Hrow. apply Hrow. by apply list_elem_of_In. }
  unfold in_window. right. lia.
Qed.

Lemma scan_loop_window (start len : nat) (st : list nat * Difflib.Match) :
  alo <= start -> start + len <= ahi ->
  Forall (fun v => v <= start - alo) (fst st) -> in_window alo ahi (snd st) ->
  in_window alo ahi
    (snd (fold_left
            (fun (st : list nat * Difflib.Match) (i : nat) =>
               match nth_error a i with
               | Some c =>
                   let row := Difflib.new_row b c blo bhi (fst st) in
                   (row, Difflib.update_best b i row (snd st))
               | None => st
               end)
            (seq start len) st)).
Proof.
  revert start st. induction len as [|len IH]; simpl; intros start st Hlo Hhi Hrow Hbest;
    [done|].
  apply IH; [lia|lia|..]; destruct (nth_error a start) as [c|]; simpl.
  - eapply Forall_impl; [by apply new_row_bound|]. simpl. intros v Hv. lia.
  - eapply Forall_impl; [done|]. simpl. intros v Hv. lia.
  - apply update_best_window; [done|lia| |done].
    eapply Forall_impl; [by apply new_row_bound|]. simpl. intros v Hv. lia.
  - done.
Qed.

Lemma scan_window : in_window alo ahi (Difflib.scan a b alo ahi blo bhi).
Proof.
  unfold Difflib.scan. destruct (Nat.le_gt_cases alo ahi) as [Hle|Hgt].
  - apply scan_loop_window; simpl; [lia|lia|constructor|left; done].
  - replace (ahi - alo) with 0 by lia. simpl. by left.
Qed.

Lemma extend_left_S (i j k : nat) :
  Difflib.extend_left a b alo blo (S i) (S j) k
  = if (alo <? S i) && (blo <? S j) && Difflib.same_at a b i j
    then Difflib.extend_left a b alo blo i j (S k)
    else (S i, S j, k).
Proof. reflexivity. Qed.

Lemma extend_left_window (i j k : nat) :
  in_window alo ahi (i, j, k) -> in_window alo ahi (Difflib.extend_left a b alo blo i j k).
Proof.
  revert j k. induction i as [|i IH]; intros j k Hw; [by destruct j|].
  destruct j as [|j]; [done|]. rewrite extend_left_S.
  destruct ((alo <? S i) && (blo <? S j) && Difflib.same_at a b i j) eqn:Hg; [|done].
  apply IH. apply andb_prop in Hg as [Hg _]. apply andb_prop in Hg as [Hg _].
  apply Nat.ltb_lt in Hg. unfold in_window in *. destruct Hw as [[Hk Hi]|Hw]; lia.
Qed.

Lemma extend_right_S (fuel i j k : nat) :
  Difflib.extend_right a b (S fuel) ahi bhi i j k
  = if (i + k <? ahi) && (j + k <? bhi) && Difflib.same_at a b (i + k) (j + k)
    then Difflib.extend_right a b fuel ahi bhi i j (S k)
    else (i, j, k).
Proof. reflexivity. Qed.

Lemma extend_right_window (fuel i j k : nat) :
  alo <= i -> (0 < k -> i + k <= ahi) ->
  let '(i', _, k') := Difflib.extend_right a b fuel ahi bhi i j k in
  i' = i /\ (0 < k' -> i + k' <= ahi).
Proof.
  revert k. induction fuel as [|fuel IH]; intros k Hlo Hk; [done|].
  rewrite extend_right_S.
  destruct ((i + k <? ahi) && (j + k <? bhi) && Difflib.same_at a b (i + k) (j + k))
    eqn:Hg; [|done].
  apply andb_prop in Hg as [Hg _]. apply andb_prop in Hg as [Hg _].
  apply Nat.ltb_lt in Hg. apply IH; [done|lia].
Qed.

(** The second extension loop ends within the fuel it is given. *)
Lemma extend_right_fuel_sufficient (fuel1 fuel2 i j k : nat) :
  ahi - (i + k) <= fuel1 -> ahi - (i + k) <= fuel2 ->
  Difflib.extend_right a b fuel1 ahi bhi i j k
  = Difflib.extend_right a b fuel2 ahi bhi i j k.
Proof.
  revert fuel2 k. induction fuel1 as [|fuel1 IH]; intros fuel2 k H1 H2.
  - destruct fuel2 as [|fuel2]; [done|]. rewrite extend_right_S.
    destruct (Nat.ltb_spec (i + k) ahi); [lia|done].
  - rewrite extend_right_S. destruct fuel2 as [|fuel2].
    + destruct (Nat.ltb_spec (i + k) ahi); [lia|done].
    + rewrite extend_right_S.
      destruct ((i + k <? ahi) && (j + k <? bhi)
                && Difflib.same_at a b (i + k) (j + k)); [|done].
      apply IH; lia.
Qed.

(** A block that is not empty lies inside the window of [a]. *)
Lemma find_longest_match_window (i j k : nat) :
  Difflib.find_longest_match a b alo ahi blo bhi = (i, j, k) ->
  0 < k -> alo <= i /\ i + k <= ahi.
Proof.
  unfold Difflib.find_longest_match.
  pose proof scan_window as Hs.
  destruct (Difflib.scan a b alo ahi blo bhi) as [[i0 j0] k0].
  apply (extend_left_window i0 j0 k0) in Hs.
  destruct (Difflib.extend_left a b alo blo i0 j0 k0) as [[i1 j1] k1].
  assert (Hlo : alo <= i1) by (unfold in_window in Hs; lia).
  assert (Hk : 0 < k1 -> i1 + k1 <= ahi) by (unfold in_window in Hs; lia).
  pose proof (extend_right_window (ahi - (i1 + k1)) i1 j1 k1 Hlo Hk) as Hr.
  destruct (Difflib.extend_right a b (ahi - (i1 + k1)) ahi bhi i1 j1 k1) as [[i2 j2] k2].
  intros [= <- <- <-] Hpos. lia.
Qed.

End MatcherFuel.

(** Any fuel above the length of the window of [a] gives the same total:
    the recursion of [get_matching_blocks] ends within it. *)
Lemma matches_fuel_sufficient (a b : list ascii) (fuel1 fuel2 alo ahi blo bhi : nat) :
  ahi - alo < fuel1 -> ahi - alo < fuel2 ->
  Difflib.matches a b fuel1 alo ahi blo bhi = Difflib.matches a b fuel2 alo ahi blo bhi.
Proof.
  revert fuel2 alo ahi blo bhi.
  induction fuel1 as [|fuel1 IH]; intros fuel2 alo ahi blo bhi H1 H2; [lia|].
  destruct fuel2 as [|fuel2]; [lia|]. simpl.
  destruct (Difflib.find_longest_match a b alo ahi blo bhi) as [[i j] k] eqn:Hm.
  destruct (Nat.eqb_spec k 0) as [Hk|Hk]; [done|].
  destruct (find_longest_match_window a b alo ahi blo bhi i j k Hm) as [Hlo Hhi]; [lia|].
  rewrite (IH fuel2 alo i blo j) by lia.
  rewrite (IH fuel2 (i + k) ahi (j + k) bhi) by lia.
  reflexivity.
Qed.

Lemma total_matches_fuel (a b : list ascii) (fuel : nat) :
  length a < fuel ->
  Difflib.total_matches a b = Difflib.matches a b fuel 0 (length a) 0 (length b).
Proof.
  intros H. unfold Difflib.total_matches. apply matches_fuel_sufficient; lia.
Qed.

(** ** Strings, order and sorting *)

Lemma string_leb_trans (s1 s2 s3 : string) :
  String.leb s1 s2 = true -> String.leb s2 s3 = true -> String.leb s1 s3 = true.
Proof.
  unfold String.leb. revert s2 s3.
  induction s1 as [|a s1 IH]; intros [|b s2] [|c s3]; simpl; try done.
  unfold Ascii.compare.
  destruct (N.compare_spec (N_of_ascii a) (N_of_ascii b)) as [Hab|Hab|Hab];
    destruct (N.compare_spec (N_of_ascii b) (N_of_ascii c)) as [Hbc|Hbc|Hbc];
    try done.
  - rewrite Hab, Hbc, N.compare_refl. apply IH.
  - intros _ _. rewrite Hab. by rewrite (proj2 (N.compare_lt_iff _ _) Hbc).
  - intros _ _. rewrite <- Hbc. by rewrite (proj2 (N.compare_lt_iff _ _) Hab).
  - intros _ _.
    by rewrite (proj2 (N.compare_lt_iff _ _) (N.lt_trans _ _ _ Hab Hbc)).
Qed.

#[local] Instance string_le_trans : Transitive string_le.
Proof. intros x y z. apply string_leb_trans. Qed.

#[local] Instance string_le_antisym : AntiSymm (=) string_le.
Proof. intros x y. apply String.leb_antisym. Qed.

Lemma insert_sorted_perm (x : string) (l : list string) :
  Py.insert_sorted x l ≡ₚ x :: l.
Proof.
  induction l as [|y l IH]; simpl; [done|].
  destruct (String.leb x y); [done|].
  rewrite IH. apply Permutation_swap.
Qed.

Lemma sorted_perm (l : list string) : Py.sorted l ≡ₚ l.
Proof.
  induction l as [|x l IH]; simpl; [done|].
  by rewrite insert_sorted_perm, IH.
Qed.

Lemma insert_sorted_Sorted (x : string) (l : list string) :
  Sorted string_le l -> Sorted string_le (Py.insert_sorted x l).
Proof.
  induction l as [|y l IH]; simpl; intros Hs.
  - by repeat constructor.
  - destruct (String.leb x y) eqn:Hxy.
    + constructor; [done|]. by constructor.
    + assert (Hyx : string_le y x).
      { destruct (String.leb_total x y) as [H|H]; [congruence|done]. }
      inversion Hs as [|? ? Hl Hhd]; subst.
      constructor; [by apply IH|].
      destruct l as [|z l]; simpl.
      * by constructor.
      * destruct (String.leb x z); constructor; [done|].
        by inversion Hhd.
  Qed.

Lemma sorted_Sorted (l : list string) : Sorted string_le (Py.sorted l).
Proof.
  induction l as [|x l IH]; simpl; [constructor|].
  by apply insert_sorted_Sorted.
Qed.

(** Two word lists sort to the same list exactly when one is a
    reordering of the other. *)
Lemma sorted_eq_iff_perm (l1 l2 : list string) :
  Py.sorted l1 = Py.sorted l2 <-> l1 ≡ₚ l2.
Proof.
  split.
  - intros H. rewrite <- (sorted_perm l1), <- (sorted_perm l2). by rewrite H.
  - intros H. apply (Sorted_unique string_le); try apply sorted_Sorted.
    by rewrite !sorted_perm.
Qed.

Lemma mem_In (x : string) (l : list string) : Py.mem x l = true <-> x ∈ l.
Proof.
  unfold Py.mem. rewrite existsb_exists. split.
  - intros (y & Hy & Heq). apply String.eqb_eq in Heq. subst.
    by apply list_elem_of_In.
  - intros H. exists x. split; [by apply list_elem_of_In|apply String.eqb_refl].
Qed.

Lemma all_in_spec (xs ys : list string) :
  all_in xs ys = true <-> (forall w, w ∈ xs -> w ∈ ys).
Proof.
  unfold all_in. rewrite forallb_forall. split.
  - intros H w Hw. apply mem_In, H. by apply list_elem_of_In.
  - intros H w Hw. apply mem_In, H. by apply list_elem_of_In.
Qed.

(** ** The classifier *)

Lemma verdict_text_form (v : Verdict) : has_form (outcome_of v) (verdict_text v).
Proof. destruct v; simpl; eauto. Qed.

Lemma verdict_text_form_unique (v : Verdict) (o : Outcome) :
  has_form o (verdict_text v) -> o = outcome_of v.
Proof.
  destruct v as [| | |sim| | | |]; unfold verdict_text;
    try generalize (Py.format_2f sim); intros;
    destruct o; try reflexivity;
    match goal with
    | H : has_form OSpelling _ |- _ =>
        destruct H as [score H]; simpl in H; discriminate H
    | H : has_form _ _ |- _ => simpl in H; discriminate H
    end.
Qed.

Lemma analyze_difference_refl (x : string) : analyze_difference x x = ExactMatch.
Proof. unfold analyze_difference. by rewrite String.eqb_refl. Qed.

(** C3. For every pair of labels the classifier returns a text of exactly
    one of the eight forms, all of them listed in [outcomes]; and a label
    compared with itself is an exact match. *)
Theorem classifier_one_of_eight (x y : string) :
  (exists! o : Outcome,
      o ∈ outcomes /\ has_form o (verdict_text (analyze_difference x y)))
  /\ length outcomes = 8
  /\ NoDup outcomes
  /\ analyze_difference x x = ExactMatch
  /\ verdict_text (analyze_difference x x) = "Exact match".
Proof.
  split; [|split; [reflexivity|split; [|split]]].
  - exists (outcome_of (analyze_difference x y)). split.
    + split; [|apply verdict_text_form].
      unfold outcomes. apply list_elem_of_In.
      destruct (analyze_difference x y); simpl; tauto.
    + intros o [_ Ho]. symmetry. by apply verdict_text_form_unique.
  - unfold outcomes. apply NoDup_ListNoDup.
    repeat (constructor; [simpl; intuition discriminate|]). constructor.
  - apply analyze_difference_refl.
  - by rewrite analyze_difference_refl.
Qed.

(** The constant is what Python reads for the literal [0.8]. *)
Lemma spelling_threshold_literal :
  float_of_str "0.8" = Ok spelling_threshold
  /\ Py.format_2f spelling_threshold = "0.80".
Proof. split; vm_compute; reflexivity. Qed.

Section Rules.
Variables x y : string.

Let similarity : float := Difflib.ratio (Py.lower x) (Py.lower y).
Let design_words : list string := Py.split (Py.lower x).
Let verification_words : list string := Py.split (Py.lower y).

Lemma analyze_difference_past_rule_3 :
  past_rule_3 x y ->
  analyze_difference x y =
    if PrimFloat.ltb spelling_threshold similarity then SpellingError similarity
    else if list_string_eqb (Py.sorted design_words) (Py.sorted verification_words)
    then WordOrderDifference
    else if all_in design_words verification_words then ExtraWordsInVerification
    else if all_in verification_words design_words then MissingWordsInVerification
    else ContentDifference.
Proof.
  intros (H1 & H2 & H3). unfold analyze_difference.
  apply String.eqb_neq in H1, H2, H3. by rewrite H1, H2, H3.
Qed.

(** C4. Past the first three rules, the verdict is a spelling error
    exactly when the similarity ratio of the lower-cased labels is
    strictly above 0.8, and it then carries that ratio; a ratio of
    exactly 0.8 is no spelling error. *)
Theorem spelling_rule_strict :
  past_rule_3 x y ->
  (is_spelling_error (analyze_difference x y) = true
     <-> PrimFloat.ltb spelling_threshold similarity = true)
  /\ (PrimFloat.ltb spelling_threshold similarity = true ->
      analyze_difference x y = SpellingError similarity)
  /\ (similarity = spelling_threshold ->
      is_spelling_error (analyze_difference x y) = false).
Proof.
  intros Hp. rewrite (analyze_difference_past_rule_3 Hp).
  assert (Hrest : forall v : Verdict,
             (v = WordOrderDifference \/ v = ExtraWordsInVerification
              \/ v = MissingWordsInVerification \/ v = ContentDifference) ->
             is_spelling_error v = false).
  { intros v [->|[->|[->| ->]]]; reflexivity. }
  assert (Hnot : is_spelling_error
                   (if list_string_eqb (Py.sorted design_words)
                                       (Py.sorted verification_words)
                    then WordOrderDifference
                    else if all_in design_words verification_words
                    then ExtraWordsInVerification
                    else if all_in verification_words design_words
                    then MissingWordsInVerification
                    else ContentDifference) = false).
  { apply Hrest. repeat case_match; auto. }
  split; [|split].
  - destruct (PrimFloat.ltb spelling_threshold similarity); simpl; [done|].
    rewrite Hnot. done.
  - intros ->. done.
  - intros Heq. rewrite Heq.
    replace (PrimFloat.ltb spelling_threshold spelling_threshold) with false
      by (vm_compute; reflexivity).
    exact Hnot.
Qed.

(** C5. Past the first five rules: when every word of the expected
    label occurs among the words of the actual label the verdict is
    "extra words"; otherwise, when every word of the actual label occurs
    among those of the expected label, it is "missing words". *)
Theorem containment_rules :
  past_rule_5 x y ->
  ((forall w, w ∈ design_words -> w ∈ verification_words) ->
   analyze_difference x y = ExtraWordsInVerification)
  /\ (¬ (forall w, w ∈ design_words -> w ∈ verification_words) ->
      (forall w, w ∈ verification_words -> w ∈ design_words) ->
      analyze_difference x y = MissingWordsInVerification).
Proof.
  intros (Hp & Hsim & Hperm).
  fold similarity in Hsim. fold design_words verification_words in Hperm.
  rewrite (analyze_difference_past_rule_3 Hp), Hsim.
  assert (Hs : list_string_eqb (Py.sorted design_words)
                               (Py.sorted verification_words) = false).
  { unfold list_string_eqb. apply bool_decide_eq_false.
    by rewrite sorted_eq_iff_perm. }
  rewrite Hs. split.
  - intros H. apply all_in_spec in H. by rewrite H.
  - intros Hn H.
    destruct (all_in design_words verification_words) eqn:He.
    + exfalso. apply Hn. by apply all_in_spec.
    + apply all_in_spec in H. by rewrite H.
Qed.

End Rules.

Lemma spelling_rule_strict_witness :
  past_rule_3 "ab" "abc"
  /\ Difflib.ratio (Py.lower "ab") (Py.lower "abc") = spelling_threshold
  /\ is_spelling_error (analyze_difference "ab" "abc") = false.
Proof.
  assert (Hp : past_rule_3 "ab" "abc").
  { repeat split; vm_compute; discriminate. }
  assert (Hr : Difflib.ratio (Py.lower "ab") (Py.lower "abc") = spelling_threshold).
  { vm_compute. reflexivity. }
  split; [exact Hp|split; [exact Hr|]].
  exact (proj2 (proj2 (spelling_rule_strict "ab" "abc" Hp)) Hr).
Defined.

Lemma containment_rules_witness :
  past_rule_5 "a b" "a b c"
  /\ analyze_difference "a b" "a b c" = ExtraWordsInVerification.
Proof.
  assert (Hp : past_rule_5 "a b" "a b c").
  { split; [repeat split; vm_compute; discriminate|].
    split; [vm_compute; reflexivity|].
    intros H. apply Permutation_length in H. vm_compute in H. discriminate. }
  split; [exact Hp|].
  apply (proj1 (containment_rules "a b" "a b c" Hp)).
  intros w Hw. vm_compute in Hw. vm_compute.
  apply list_elem_of_In in Hw. apply list_elem_of_In.
  simpl in *. tauto.
Defined.

(** ** The structural comparator *)

Lemma compare_loop (dc vc : list string) (idx : list nat) (st : list string * list Detail) :
  fold_left (compare_step dc vc) idx st
  = (fst st ++ map fst (omap (positional dc vc) idx),
     snd st ++ map snd (omap (positional dc vc) idx)).
Proof.
  revert st. induction idx as [|i idx IH]; intros [ms ds]; simpl.
  - by rewrite !app_nil_r.
  - rewrite IH. unfold compare_step, positional. simpl.
    destruct (String.eqb (nth i dc "") (nth i vc "")); simpl; [done|].
    by rewrite <- !app_assoc.
Qed.

Lemma compare_columns_spec (dc vc : list string) :
  compare_columns dc vc
  = (map fst (positional_discrepancies dc vc ++ count_discrepancy dc vc),
     map snd (positional_discrepancies dc vc ++ count_discrepancy dc vc)).
Proof.
  unfold compare_columns, count_discrepancy, positional_discrepancies.
  rewrite compare_loop. simpl.
  destruct (length dc =? length vc); simpl.
  - by rewrite !app_nil_r.
  - by rewrite !map_app.
Qed.

Lemma positional_not_count (dc vc : list string) :
  filter (fun d => is_count_mismatch d = true)
         (map snd (positional_discrepancies dc vc)) = [].
Proof.
  unfold positional_discrepancies.
  induction (seq 0 (Nat.min (length dc) (length vc))) as [|i idx IH]; simpl; [done|].
  unfold positional at 1.
  destruct (String.eqb (nth i dc "") (nth i vc "")); simpl; [done|].
  by rewrite filter_cons_False.
Qed.

Lemma positional_elem (dc vc : list string) (d : Detail) :
  d ∈ map snd (positional_discrepancies dc vc) <->
  exists i, i < Nat.min (length dc) (length vc)
            /\ nth i dc "" <> nth i vc ""
            /\ d = snd (column_mismatch i (nth i dc "") (nth i vc "")).
Proof.
  unfold positional_discrepancies. rewrite list_elem_of_fmap. split.
  - intros ([m d'] & -> & Hin). apply list_elem_of_omap in Hin as (i & Hi & Hp).
    apply elem_of_seq in Hi. exists i. unfold positional in Hp.
    destruct (String.eqb_spec (nth i dc "") (nth i vc "")); [done|].
    simplify_eq. split; [lia|split; [done|by rewrite Hp]].
  - intros (i & Hi & Hne & ->).
    exists (column_mismatch i (nth i dc "") (nth i vc "")). split; [done|].
    apply list_elem_of_omap. exists i. split; [apply elem_of_seq; lia|].
    unfold positional. by destruct (String.eqb_spec (nth i dc "") (nth i vc "")).
Qed.

Lemma compare_result_details (n : nat) (dc vc : list string) :
  details (compare_result n dc vc) = snd (compare_columns dc vc)
  /\ (passed (compare_result n dc vc) = true <-> snd (compare_columns dc vc) = []).
Proof.
  unfold compare_result. rewrite compare_columns_spec. simpl.
  destruct (positional_discrepancies dc vc ++ count_discrepancy dc vc)
    as [|[m d] l]; simpl; split; done.
Qed.

(** C6. The comparison pairs the labels by position below the shorter
    length only; it records one count-mismatch discrepancy, carrying both
    totals, exactly when the lengths differ; ["A","B","C"] against
    ["A","B"] gives that one discrepancy and no positional one; and the
    result passes exactly when no discrepancy was recorded. *)
Theorem structural_comparison (n : nat) (dc vc : list string) :
  let r := compare_result n dc vc in
  let recorded := snd (compare_columns dc vc) in
  (forall d k, d ∈ recorded -> column_number d = Col k ->
     1 <= k <= Nat.min (length dc) (length vc)
     /\ design d = nth (k - 1) dc "" /\ verification d = nth (k - 1) vc ""
     /\ design d <> verification d
     /\ error_type d = verdict_text (analyze_difference (design d) (verification d)))
  /\ (forall i, i < Nat.min (length dc) (length vc) -> nth i dc "" <> nth i vc "" ->
        exists d, d ∈ recorded /\ column_number d = Col (i + 1))
  /\ filter (fun d => is_count_mismatch d = true) recorded
     = (if length dc =? length vc then []
        else [{| column_number := NA;
                 design := "Total columns: " +:+ Py.str_nat (length dc);
                 verification := "Total columns: " +:+ Py.str_nat (length vc);
                 error_type := "Column count mismatch" |}])
  /\ details r = recorded
  /\ (passed r = true <-> recorded = [])
  /\ snd (compare_columns ["A"; "B"; "C"] ["A"; "B"])
     = [{| column_number := NA;
           design := "Total columns: 3";
           verification := "Total columns: 2";
           error_type := "Column count mismatch" |}]
  /\ passed (compare_result n ["A"; "B"; "C"] ["A"; "B"]) = false.
Proof.
  intros r recorded.
  assert (Hrec : recorded = map snd (positional_discrepancies dc vc)
                            ++ map snd (count_discrepancy dc vc)).
  { unfold recorded. rewrite compare_columns_spec. simpl. by rewrite map_app. }
  split; [|split; [|split; [|split; [|split; [|split]]]]].
  - intros d k Hd Hk. rewrite Hrec in Hd. apply elem_of_app in Hd as [Hd|Hd].
    + apply positional_elem in Hd as (i & Hi & Hne & ->).
      simpl in Hk. injection Hk as <-. simpl.
      replace (i + 1 - 1) with i by lia. repeat split; [lia|lia|done].
    + unfold count_discrepancy in Hd.
      destruct (length dc =? length vc); simpl in Hd.
      * by apply elem_of_nil in Hd.
      * apply list_elem_of_singleton in Hd. subst d. simpl in Hk. discriminate.
  - intros i Hi Hne.
    exists (snd (column_mismatch i (nth i dc "") (nth i vc ""))). split; [|done].
    rewrite Hrec. apply elem_of_app. left. apply positional_elem. eauto.
  - rewrite Hrec, filter_app, positional_not_count. simpl.
    unfold count_discrepancy. destruct (length dc =? length vc); simpl; [done|].
    by rewrite filter_cons_True.
  - apply compare_result_details.
  - apply compare_result_details.
  - vm_compute. reflexivity.
  - destruct (compare_result_details n ["A"; "B"; "C"] ["A"; "B"]) as [_ Hp].
    destruct (passed (compare_result n ["A"; "B"; "C"] ["A"; "B"])); [|done].
    destruct Hp as [Hp _]. specialize (Hp eq_refl). vm_compute in Hp. discriminate.
Qed.

(** ** Reading failures of the comparator *)

Lemma cannot_extract_raises (doc : Document) (sheet_name : string) (row : nat) :
  cannot_extract doc sheet_name row ->
  raises (df ← read_excel doc sheet_name; r ← iloc df row; Ok (labels_of_row r)).
Proof.
  unfold cannot_extract, read_excel, raises.
  destruct (doc_sheets doc) as [sheets|]; simpl; [|eauto].
  destruct (sheets !! sheet_name) as [g|]; simpl; [|eauto].
  intros Hlen.
  assert (Hrow : iloc g row = Raise IndexError).
  { unfold iloc. destruct (g !! row) eqn:E; [|done].
    apply lookup_lt_Some in E. lia. }
  rewrite Hrow. simpl. eauto.
Qed.

(** C9. The comparison always returns a result, never an exception; and
    when the header row of either document cannot be read, the result is
    the failed one that carries the text of the read failure, with no
    details. *)
Theorem read_failure_short_circuits (design_spec verification : Document) (n : nat) :
  (exists r, test_standard_report_columns design_spec verification n = Ok r)
  /\ (cannot_extract design_spec ("Standard Report " +:+ Py.str_nat n) 8
      \/ cannot_extract verification ("Standard " +:+ Py.str_nat n +:+ " Report") 1 ->
      exists e,
        test_standard_report_columns design_spec verification n
        = Ok {| passed := false;
                message := "Error reading files for Standard " +:+ Py.str_nat n
                             +:+ ": " +:+ str_exception e;
                details := [];
                mismatches := None |}).
Proof.
  unfold test_standard_report_columns. split.
  - destruct (read_design_columns design_spec n) as [dc|e]; simpl; [|eauto].
    destruct (read_verification_columns verification n) as [vc|e]; simpl; eauto.
  - intros [H|H].
    + apply cannot_extract_raises in H as [e He].
      unfold read_design_columns. rewrite He. simpl. eauto.
    + apply cannot_extract_raises in H as [e He].
      unfold read_verification_columns at 1. rewrite He.
      destruct (read_design_columns design_spec n) as [dc|e']; simpl; eauto.
Qed.

Lemma read_failure_short_circuits_witness :
  let design_spec := {| doc_path := "design.xlsx"; doc_sheets := Some ∅ |} in
  let verification := {| doc_path := "report.xlsx"; doc_sheets := None |} in
  cannot_extract design_spec "Standard Report 1" 8
  /\ exists e,
       test_standard_report_columns design_spec verification 1
       = Ok {| passed := false;
               message := "Error reading files for Standard 1: " +:+ str_exception e;
               details := [];
               mismatches := None |}.
Proof.
  intros design_spec verification.
  assert (Hc : cannot_extract design_spec ("Standard Report " +:+ Py.str_nat 1) 8).
  { exact I. }
  split; [exact Hc|].
  exact (proj2 (read_failure_short_circuits design_spec verification 1) (or_introl Hc)).
Defined.

Example read_failure_message :
  test_standard_report_columns
    {| doc_path := "design.xlsx"; doc_sheets := Some ∅ |}
    {| doc_path := "report.xlsx"; doc_sheets := None |} 1
  = Ok {| passed := false;
          message := "Error reading files for Standard 1: Worksheet named 'Standard Report 1' not found";
          details := [];
          mismatches := None |}.
Proof. vm_compute. reflexivity. Qed.

(** ** Loops and exceptions *)

Lemma bind_Ok {A B} (m : Res A) (k : A -> Res B) (b : B) :
  (x ← m; k x) = Ok b <-> exists a, m = Ok a /\ k a = Ok b.
Proof.
  destruct m as [a|e]; simpl; split.
  - eauto.
  - by intros (a' & [= <-] & H).
  - done.
  - by intros (a' & [=] & _).
Qed.

Lemma bind_Raise {A B} (m : Res A) (k : A -> Res B) (e : Exception) :
  (x ← m; k x) = Raise e <-> m = Raise e \/ exists a, m = Ok a /\ k a = Raise e.
Proof.
  destruct m as [a|e']; simpl; split.
  - eauto.
  - intros [[=]|(a' & [= <-] & H)]; done.
  - intros [= ->]. by left.
  - intros [[= ->]|(a' & [=] & _)]; done.
Qed.

(** An invariant of the loop state holds of the final state. *)
Lemma for_each_invariant {A S} (P : S -> Prop) (l : list A)
    (body : A -> S -> Res S) (s r : S) :
  P s ->
  (forall x s1 s2, x ∈ l -> P s1 -> body x s1 = Ok s2 -> P s2) ->
  for_each l body s = Ok r -> P r.
Proof.
  revert s. induction l as [|x l IH]; simpl; intros s Hs Hbody Hr.
  - by injection Hr as <-.
  - apply bind_Ok in Hr as (s' & Hx & Hr).
    apply (IH s'); [|intros; eapply Hbody; [by right|done..]|done].
    eapply Hbody; [by left|done..].
Qed.

(** A loop raises only what a turn of its body raises. *)
Lemma for_each_raises {A S} (l : list A) (body : A -> S -> Res S) (s : S)
    (e : Exception) :
  for_each l body s = Raise e -> exists x s1, x ∈ l /\ body x s1 = Raise e.
Proof.
  revert s. induction l as [|x l IH]; simpl; intros s Hr; [done|].
  apply bind_Raise in Hr as [Hr|(s' & _ & Hr)].
  - exists x, s. split; [by left|done].
  - destruct (IH s' Hr) as (x' & s1 & Hin & Hx). exists x', s1.
    split; [by right|done].
Qed.

Lemma getitem_raises (df : Pd.DataFrame) (col : option string) (e : Exception) :
  Pd.getitem df col = Raise e -> exists k, e = KeyError k.
Proof.
  unfold Pd.getitem. destruct col as [c|]; [|intros [= <-]; eauto].
  destruct (Pd.index_of c (Pd.columns df)); [done|]. intros [= <-]. eauto.
Qed.

Lemma filter_change_reason_no_raises (df : Pd.DataFrame) (col : option string)
    (e : Exception) :
  filter_change_reason_no df col = Raise e -> exists k, e = KeyError k.
Proof.
  unfold filter_change_reason_no. intros H.
  apply bind_Raise in H as [H|(s & _ & H)]; [by eapply getitem_raises|done].
Qed.

Lemma int_of_raises (x : PyNum) (e : Exception) :
  int_of x = Raise e -> exists m, e = ValueError m \/ e = OverflowError m.
Proof.
  destruct x as [z|f]; simpl; [done|].
  destruct (Prim2SF f); try done; intros [= <-]; eauto.
Qed.

Lemma float_of_raises (x : PyNum) (e : Exception) :
  float_of x = Raise e -> exists m, e = OverflowError m.
Proof.
  destruct x as [z|f]; simpl; [|done].
  destruct (is_infinite (nearest_float z)); [|done]. intros [= <-]. eauto.
Qed.

Lemma int_match_raises (c : PyNum) (a : option PyNum) (e : Exception) :
  int_match c a = Raise e -> exists m, e = ValueError m \/ e = OverflowError m.
Proof.
  unfold int_match. destruct a as [a|]; [|done]. intros H.
  apply bind_Raise in H as [H|(z & _ & H)]; [by eapply int_of_raises|].
  apply bind_Raise in H as [H|(z' & _ & H)]; [by eapply int_of_raises|done].
Qed.

Lemma rate_match_raises (c a : PyNum) (e : Exception) :
  rate_match c a = Raise e -> exists m, e = OverflowError m.
Proof.
  unfold rate_match. intros H.
  apply bind_Raise in H as [H|(z & _ & H)]; [by eapply float_of_raises|].
  apply bind_Raise in H as [H|(z' & _ & H)]; [by eapply float_of_raises|done].
Qed.

Lemma visit_match_raises (row_type : string) (c : PyNum) (a : option PyNum)
    (e : Exception) :
  visit_match row_type c a = Raise e -> exists m, e = OverflowError m.
Proof.
  assert (Hint : except_value_error (int_match c a) = Raise e ->
                 exists m, e = OverflowError m).
  { unfold except_value_error.
    destruct (int_match c a) as [b|e'] eqn:Hm; [done|].
    apply int_match_raises in Hm as (m & [-> | ->]); [done|].
    intros [= <-]. eauto. }
  unfold visit_match. destruct a as [a|]; [|exact Hint].
  destruct (String.eqb row_type "compliance_rate"); [|exact Hint].
  unfold except_value_error.
  destruct (rate_match c a) as [b|e'] eqn:Hm; [done|].
  apply rate_match_raises in Hm as (m & ->). intros [= <-]. eauto.
Qed.

(** ** The compliance rate *)

Lemma truediv_nonzero (a b : Z) : b <> 0%Z -> exists f, truediv a b = Ok f.
Proof. destruct a, b; simpl; intros H; try done; eauto. Qed.

Lemma compliance_rate_spec (compliant_count total_count : Z) :
  (0 <= total_count)%Z ->
  (total_count = 0%Z -> compliance_rate compliant_count total_count = Ok (PInt 0))
  /\ (total_count <> 0%Z ->
      exists f, truediv compliant_count total_count = Ok f
                /\ compliance_rate compliant_count total_count = Ok (PFloat f)).
Proof.
  intros Hpos. unfold compliance_rate. split.
  - intros ->. reflexivity.
  - intros Hne. destruct (truediv_nonzero compliant_count total_count Hne) as [f Hf].
    exists f. split; [done|].
    destruct (Z.ltb_spec 0 total_count); [|lia]. by rewrite Hf.
Qed.

Lemma compliance_rate_no_zero_division (compliant_count total_count : Z) :
  compliance_rate compliant_count total_count <> Raise ZeroDivisionError.
Proof.
  unfold compliance_rate. destruct (Z.ltb_spec 0 total_count) as [Hlt|Hge]; [|done].
  destruct (truediv_nonzero compliant_count total_count) as [f ->]; [lia|done].
Qed.

Lemma visit_calculated_no_zero_division (filtered_df : Pd.DataFrame)
    (columns : RequiredColumns) (section_name row_type case_type : string) :
  visit_calculated filtered_df columns section_name row_type case_type
  <> Raise ZeroDivisionError.
Proof.
  unfold visit_calculated. intros H.
  apply bind_Raise in H as [H|(cts & _ & H)]; [by apply getitem_raises in H as [k ?]|].
  apply bind_Raise in H as [H|(cs & _ & H)]; [by apply getitem_raises in H as [k ?]|].
  repeat case_match; try done.
  by apply compliance_rate_no_zero_division in H.
Qed.

(** C7. The compliance-rate row returns compliant-count / total-count,
    and 0 when the total count is 0; neither the row nor the section that
    computes it ever raises a division by zero. *)
Theorem compliance_rate_zero_safe (columns : RequiredColumns) (section_name : string) :
  (forall filtered_df case_type case_type_series compliant_series,
      Pd.getitem filtered_df (case_type_col columns) = Ok case_type_series ->
      Pd.getitem filtered_df (compliant_col columns) = Ok compliant_series ->
      let case_mask := case_filter (Pd.fillna_str case_type_series) case_type in
      let compliant_data := Pd.fillna_str compliant_series in
      let total_count :=
        count_rows filtered_df (Pd.and case_mask (total_filter section_name compliant_data)) in
      let compliant_count :=
        count_rows filtered_df (Pd.and case_mask (Pd.eq compliant_data "Compliant")) in
      let calculated_value :=
        visit_calculated filtered_df columns section_name "compliance_rate" case_type in
      (total_count = 0%Z -> calculated_value = Ok (PInt 0))
      /\ (total_count <> 0%Z ->
          exists rate, truediv compliant_count total_count = Ok rate
                       /\ calculated_value = Ok (PFloat rate)))
  /\ (forall filtered_df row_type case_type,
        visit_calculated filtered_df columns section_name row_type case_type
        <> Raise ZeroDivisionError)
  /\ (forall df summary_df start_row end_row,
        verify_visit_section df columns summary_df start_row end_row section_name
        <> Raise ZeroDivisionError).
Proof.
  split; [|split].
  - intros filtered_df case_type cts cs Hct Hc. simpl.
    unfold visit_calculated. rewrite Hct, Hc. simpl.
    apply compliance_rate_spec. unfold count_rows. lia.
  - intros. apply visit_calculated_no_zero_division.
  - intros df summary_df start_row end_row H. unfold verify_visit_section in H.
    apply bind_Raise in H as [H|(filtered_df & _ & H)].
    { by apply filter_change_reason_no_raises in H as [k ?]. }
    destruct (Pd.len filtered_df =? 0); [done|].
    apply for_each_raises in H as ([row_offset row_type] & r1 & _ & H).
    apply for_each_raises in H as ([col_letter [case_type col_index]] & r2 & _ & H).
    apply bind_Raise in H as [H|(entry & _ & H)]; [|done].
    unfold visit_cell in H.
    apply bind_Raise in H as [H|(c & _ & H)].
    { by apply visit_calculated_no_zero_division in H. }
    apply bind_Raise in H as [H|(b & _ & H)]; [|done].
    by apply visit_match_raises in H as [m ?].
Qed.

Lemma compliance_rate_zero_safe_witness :
  let df := {| Pd.columns := ["Case Type"; "7 Day Private Visit Compliant"];
               Pd.rows := [[Some "Adoption"; Some "Incomplete"]] |} in
  let columns := {| compliant_col := Some "7 Day Private Visit Compliant";
                    change_reason_col := None;
                    case_type_col := Some "Case Type" |} in
  visit_calculated df columns "7-day" "compliance_rate" "adoption" = Ok (PInt 0).
Proof.
  intros df columns.
  apply (proj1 (proj1 (compliance_rate_zero_safe columns "7-day")
                  df "adoption" [Some "Adoption"] [Some "Incomplete"]
                  eq_refl eq_refl)).
  vm_compute. reflexivity.
Defined.

(** ** The match flag *)

Lemma coerce_actual_zero (cell : SummaryCell) :
  empty_or_non_numeric cell -> coerce_actual cell = PInt 0.
Proof.
  destruct cell as [| | |f|s|]; simpl; try done.
  - by intros ->.
  - by intros [e ->].
Qed.

Lemma coerce_actual_zero_inv (cell : SummaryCell) :
  coerce_actual cell = PInt 0 -> empty_or_non_numeric cell \/ cell = SInt 0.
Proof.
  destruct cell as [|z|z|f|s|]; simpl; try (by left); try done.
  - intros [= ->]. by right.
  - destruct (is_nan f); [by left|done].
  - destruct (float_of_str s) as [f|e]; [done|]. intros _. left. by exists e.
Qed.

Lemma int_match_spec (c : PyNum) (a : option PyNum) (b : bool) :
  except_value_error (int_match c a) = Ok b ->
  (b = true <-> exists a', a = Some a' /\ ints_agree c a').
Proof.
  unfold int_match, ints_agree. destruct a as [a|]; simpl.
  2:{ intros [= <-]. split; [done|]. by intros (a' & [=] & _). }
  destruct (int_of c) as [zc|ec] eqn:Hc; simpl.
  - destruct (int_of a) as [za|ea] eqn:Ha; simpl.
    + intros [= <-]. rewrite Z.eqb_eq. split.
      * intros ->. eauto.
      * intros (a' & [= <-] & z & [= ->] & Hz). congruence.
    + destruct ea; try done. intros [= <-]. split; [done|].
      intros (a' & [= <-] & z & _ & Hz). congruence.
  - destruct ec; try done. intros [= <-]. split; [done|].
    by intros (a' & _ & z & [=] & _).
Qed.

Lemma int_match_spec_strict (c : PyNum) (a : option PyNum) (b : bool) :
  int_match c a = Ok b ->
  (b = true <-> exists a', a = Some a' /\ ints_agree c a').
Proof. intros H. apply int_match_spec. by rewrite H. Qed.

Lemma rate_match_spec (c a : PyNum) (b : bool) :
  except_value_error (rate_match c a) = Ok b ->
  (b = true <-> rates_agree c a).
Proof.
  unfold rate_match, rates_agree.
  destruct (float_of c) as [cf|ec] eqn:Hc; simpl.
  - destruct (float_of a) as [af|ea] eqn:Ha; simpl.
    + intros [= <-]. split.
      * intros H. eauto.
      * by intros (cf' & af' & [= <-] & [= <-] & H).
    + destruct ea; try done. intros [= <-]. split; [done|].
      by intros (cf' & af' & _ & [=] & _).
  - destruct ec; try done. intros [= <-]. split; [done|].
    by intros (cf' & af' & [=] & _).
Qed.

Lemma visit_match_spec (row_type : string) (c : PyNum) (a : option PyNum) (b : bool) :
  visit_match row_type c a = Ok b ->
  (b = true <->
   exists a', a = Some a'
              /\ if String.eqb row_type "compliance_rate"
                 then rates_agree c a' else ints_agree c a').
Proof.
  unfold visit_match. destruct a as [a|].
  - destruct (String.eqb row_type "compliance_rate").
    + intros H. apply rate_match_spec in H. rewrite H. split; [eauto|].
      by intros (a' & [= <-] & H').
    + apply int_match_spec.
  - intros H. apply int_match_spec in H. rewrite H. split.
    + by intros (a' & [=] & _).
    + by intros (a' & [=] & _).
Qed.

Lemma visit_cell_invariant (filtered_df : Pd.DataFrame) (columns : RequiredColumns)
    (summary_df : SummarySheet) (section_name row_type : string) (current_row : nat)
    (col_letter case_type : string) (col_index : nat) (entry : Entry) :
  (col_letter, (case_type, col_index)) ∈ case_types ->
  visit_cell filtered_df columns summary_df section_name row_type current_row
    case_type col_index = Ok entry ->
  cell_invariant summary_df (cell_name col_letter current_row) entry.
Proof.
  intros Hin H. unfold visit_cell in H.
  apply bind_Ok in H as (c & _ & H). apply bind_Ok in H as (b & Hb & [= <-]).
  split.
  - exists col_letter, case_type, col_index, current_row. done.
  - unfold match_rule. simpl. by apply visit_match_spec.
Qed.

Lemma int_cell_invariant (calculated_value : PyNum) (summary_df : SummarySheet)
    (current_row col_index : nat) (section_name row_type_name report_name : string)
    (col_letter case_type : string) (entry : Entry) :
  (col_letter, (case_type, col_index)) ∈ case_types ->
  String.eqb row_type_name "compliance_rate" = false ->
  int_cell calculated_value summary_df current_row col_index section_name
    row_type_name report_name = Ok entry ->
  cell_invariant summary_df (cell_name col_letter current_row) entry.
Proof.
  intros Hin Hrow H. unfold int_cell in H.
  apply bind_Ok in H as (b & Hb & [= <-]). split.
  - exists col_letter, case_type, col_index, current_row. done.
  - unfold match_rule. simpl. rewrite Hrow. by apply int_match_spec_strict.
Qed.

Lemma three_reports_elem {C} (d1 d2 d3 : Pd.DataFrame) (c1 c2 c3 : C)
    (row_offset : nat) (report_df : Pd.DataFrame) (c : C) (report_name : string) :
  (row_offset, (report_df, c, report_name)) ∈ three_reports d1 d2 d3 c1 c2 c3 ->
  (row_offset = 0 /\ report_df = d1 /\ c = c1 /\ report_name = "7-day")
  \/ (row_offset = 1 /\ report_df = d2 /\ c = c2 /\ report_name = "30-day")
  \/ (row_offset = 2 /\ report_df = d3 /\ c = c3 /\ report_name = "90-day").
Proof.
  unfold three_reports, enumerate. simpl.
  rewrite !elem_of_cons, elem_of_nil.
  intros [H|[H|[H|[]]]]; injection H as -> -> -> ->; auto 10.
Qed.

Lemma report_name_not_rate {C} (d1 d2 d3 : Pd.DataFrame) (c1 c2 c3 : C)
    (row_offset : nat) (report_df : Pd.DataFrame) (c : C) (report_name : string) :
  (row_offset, (report_df, c, report_name)) ∈ three_reports d1 d2 d3 c1 c2 c3 ->
  String.eqb report_name "compliance_rate" = false.
Proof.
  intros H. apply three_reports_elem in H as [(_ & _ & _ & ->)|[(_ & _ & _ & ->)|(_ & _ & _ & ->)]];
    reflexivity.
Qed.

(** One turn of an inner loop keeps an invariant of the entries. *)
Lemma insert_turn (Q : string -> Entry -> Prop) (cell : Res Entry) (key : string)
    (results results' : Results) :
  map_Forall Q results ->
  (forall entry, cell = Ok entry -> Q key entry) ->
  (entry ← cell; Ok (<[key := entry]> results)) = Ok results' ->
  map_Forall Q results'.
Proof.
  intros HQ Hcell H. apply bind_Ok in H as (entry & He & [= <-]).
  apply map_Forall_insert_2; auto.
Qed.

Lemma singleton_message (Q : string -> Entry -> Prop) (key text : string) :
  (forall k t, Q k (Message t)) ->
  map_Forall Q ({[ key := Message text ]} : Results).
Proof. intros H. apply map_Forall_singleton. apply H. Qed.

Section Invariant.
Variable summary_df : SummarySheet.

Let Q := cell_invariant summary_df.

Lemma verify_visit_section_invariant (df : Pd.DataFrame) (columns : RequiredColumns)
    (start_row end_row : nat) (section_name : string) (results : Results) :
  verify_visit_section df columns summary_df start_row end_row section_name = Ok results ->
  map_Forall Q results.
Proof.
  unfold verify_visit_section. intros H.
  apply bind_Ok in H as (filtered_df & _ & H).
  destruct (Pd.len filtered_df =? 0).
  { injection H as <-. by apply singleton_message. }
  revert H. apply for_each_invariant; [apply map_Forall_empty|].
  intros [row_offset row_type] r1 r2 _ Hr1.
  apply for_each_invariant; [done|].
  intros [col_letter [case_type col_index]] r3 r4 Hin Hr3.
  apply insert_turn; [done|]. intros entry. by apply visit_cell_invariant.
Qed.

Lemma verify_whereabouts_unknown_section_invariant
    (std1_df std2_df std3_df : Pd.DataFrame) (c1 c2 c3 : RequiredColumns)
    (start_row end_row : nat) (results : Results) :
  verify_whereabouts_unknown_section std1_df std2_df std3_df c1 c2 c3
    summary_df start_row end_row = Ok results ->
  map_Forall Q results.
Proof.
  unfold verify_whereabouts_unknown_section.
  destruct (find_primary_placement_column std1_df) as [p1|];
    [|intros [= <-]; by apply singleton_message].
  destruct (find_primary_placement_column std2_df) as [p2|];
    [|intros [= <-]; by apply singleton_message].
  destruct (find_primary_placement_column std3_df) as [p3|];
    [|intros [= <-]; by apply singleton_message].
  apply for_each_invariant; [apply map_Forall_empty|].
  intros [row_offset [[report_df columns] report_name]] r1 r2 Hrep Hr1.
  apply for_each_invariant; [done|].
  intros [col_letter [case_type col_index]] r3 r4 Hin Hr3 H.
  apply bind_Ok in H as (calculated_value & _ & H). revert H.
  apply insert_turn; [done|]. intros entry.
  apply int_cell_invariant with (case_type := case_type); [done|].
  by eapply report_name_not_rate.
Qed.

Lemma verify_exclusion_service_ended_section_invariant
    (std1_df std2_df std3_df : Pd.DataFrame)
    (start_row end_row : nat) (results : Results) :
  verify_exclusion_service_ended_section std1_df std2_df std3_df
    summary_df start_row end_row = Ok results ->
  map_Forall Q results.
Proof.
  unfold verify_exclusion_service_ended_section.
  destruct (find_exclusion_column std1_df "7 day") as [p1|];
    [|intros [= <-]; by apply singleton_message].
  destruct (find_exclusion_column std2_df "30 day") as [p2|];
    [|intros [= <-]; by apply singleton_message].
  destruct (find_exclusion_column std3_df "90 day") as [p3|];
    [|intros [= <-]; by apply singleton_message].
  apply for_each_invariant; [apply map_Forall_empty|].
  intros [row_offset [[report_df columns] report_name]] r1 r2 Hrep Hr1.
  apply for_each_invariant; [done|].
  intros [col_letter [case_type col_index]] r3 r4 Hin Hr3 H.
  apply bind_Ok in H as (calculated_value & _ & H). revert H.
  apply insert_turn; [done|]. intros entry.
  apply int_cell_invariant with (case_type := case_type); [done|].
  by eapply report_name_not_rate.
Qed.

Lemma verify_exclusion_data_entry_section_invariant
    (std1_df std2_df std3_df : Pd.DataFrame) (c1 c2 c3 : RequiredColumns)
    (start_row end_row : nat) (results : Results) :
  verify_exclusion_data_entry_section std1_df std2_df std3_df c1 c2 c3
    summary_df start_row end_row = Ok results ->
  map_Forall Q results.
Proof.
  unfold verify_exclusion_data_entry_section.
  apply for_each_invariant; [apply map_Forall_empty|].
  intros [row_offset [[report_df columns] report_name]] r1 r2 Hrep Hr1.
  apply for_each_invariant; [done|].
  intros [col_letter [case_type col_index]] r3 r4 Hin Hr3 H.
  apply bind_Ok in H as (calculated_value & _ & H). revert H.
  apply insert_turn; [done|]. intros entry.
  apply int_cell_invariant with (case_type := case_type); [done|].
  by eapply report_name_not_rate.
Qed.

Lemma verify_information_only_section_invariant
    (std3_df : Pd.DataFrame) (c3 : RequiredColumns)
    (start_row : nat) (results : Results) :
  verify_information_only_section std3_df c3 summary_df start_row = Ok results ->
  map_Forall Q results.
Proof.
  unfold verify_information_only_section.
  apply for_each_invariant; [apply map_Forall_empty|].
  intros [col_letter [case_type col_index]] r3 r4 Hin Hr3 H.
  apply bind_Ok in H as (calculated_value & _ & H). revert H.
  apply insert_turn; [done|]. intros entry.
  by apply int_cell_invariant with (case_type := case_type).
Qed.

Lemma verify_kinship_service_cases_section_invariant
    (std3_df : Pd.DataFrame) (c3 : RequiredColumns)
    (start_row : nat) (results : Results) :
  verify_kinship_service_cases_section std3_df c3 summary_df start_row = Ok results ->
  map_Forall Q results.
Proof.
  unfold verify_kinship_service_cases_section.
  destruct (find_primary_placement_column std3_df) as [p|];
    [|intros [= <-]; by apply singleton_message].
  apply for_each_invariant; [apply map_Forall_empty|].
  intros [col_letter [case_type col_index]] r3 r4 Hin Hr3 H.
  apply bind_Ok in H as (calculated_value & _ & H). revert H.
  apply insert_turn; [done|]. intros entry.
  by apply int_cell_invariant with (case_type := case_type).
Qed.

End Invariant.

(** ** Sample workbooks *)

(** C1, as stated, fails: in the Exclusion - Service Ended section no
    child-in-care row of the 7-day report is excluded, so the calculated
    value is 0; the summary cell B24 holds 0.5; the values differ, yet the
    flag is set, because both are truncated to integers first. *)
Lemma match_flag_truncates :
  lookup_result
    (verify_exclusion_service_ended_section sample_std1 sample_std2 sample_std3
       sample_summary 23 25) "B24"
  = Some (Cell {| calculated := PInt 0;
                  actual := Some (PFloat 0.5);
                  match_ := true;
                  status := "PASS";
                  section := "exclusion-service-ended";
                  row_type := "7-day";
                  report := Some "7-day" |})
  /\ py_eq (PInt 0) (PFloat 0.5) = false.
Proof. split; vm_compute; reflexivity. Qed.

(** C1, amended. In every record a section returns, the flag is set
    exactly when the summary cell lies inside the sheet and agrees with the
    calculated value: as integers, both truncated towards zero, on every
    row but the compliance-rate row, and there with a difference strictly
    below 0.01. The value read is 0 for a cell that is empty or holds no
    number, and is absent outside the sheet. *)
Theorem match_flag_rule (summary_df : SummarySheet) :
  (forall df columns start_row end_row section_name results,
      verify_visit_section df columns summary_df start_row end_row section_name
      = Ok results ->
      map_Forall (cell_invariant summary_df) results)
  /\ (forall std1_df std2_df std3_df start_row end_row results,
        verify_exclusion_service_ended_section std1_df std2_df std3_df
          summary_df start_row end_row = Ok results ->
        map_Forall (cell_invariant summary_df) results)
  /\ (forall std1_df std2_df std3_df c1 c2 c3 start_row end_row results,
        verify_whereabouts_unknown_section std1_df std2_df std3_df c1 c2 c3
          summary_df start_row end_row = Ok results ->
        map_Forall (cell_invariant summary_df) results)
  /\ (forall std1_df std2_df std3_df c1 c2 c3 start_row end_row results,
        verify_exclusion_data_entry_section std1_df std2_df std3_df c1 c2 c3
          summary_df start_row end_row = Ok results ->
        map_Forall (cell_invariant summary_df) results)
  /\ (forall std3_df c3 start_row results,
        verify_information_only_section std3_df c3 summary_df start_row = Ok results ->
        map_Forall (cell_invariant summary_df) results)
  /\ (forall std3_df c3 start_row results,
        verify_kinship_service_cases_section std3_df c3 summary_df start_row
        = Ok results ->
        map_Forall (cell_invariant summary_df) results)
  /\ (forall current_row col_index,
        read_actual summary_df current_row col_index
        = if (current_row <? summary_len summary_df)
             && (col_index <? summary_ncols summary_df)
          then Some (coerce_actual (summary_iloc summary_df current_row col_index))
          else None)
  /\ (forall cell, empty_or_non_numeric cell -> coerce_actual cell = PInt 0)
  /\ (forall cell, coerce_actual cell = PInt 0 ->
                   empty_or_non_numeric cell \/ cell = SInt 0)
  /\ coerce_actual (SText "n/a") = PInt 0
  /\ coerce_actual (SText (String (ascii_of_nat 28) "1")) = PInt 0
  /\ coerce_actual (SText " 1 ") = PFloat 1.
Proof.
  split; [|split; [|split; [|split; [|split; [|split; [|split; [|split; [|split]]]]]]]].
  - intros. by eapply verify_visit_section_invariant.
  - intros. by eapply verify_exclusion_service_ended_section_invariant.
  - intros. by eapply verify_whereabouts_unknown_section_invariant.
  - intros. by eapply verify_exclusion_data_entry_section_invariant.
  - intros. by eapply verify_information_only_section_invariant.
  - intros. by eapply verify_kinship_service_cases_section_invariant.
  - done.
  - apply coerce_actual_zero.
  - apply coerce_actual_zero_inv.
  - split; [|split]; vm_compute; reflexivity.
Qed.

Lemma match_flag_rule_witness :
  cell_invariant sample_summary "B24"
    (Cell {| calculated := PInt 0;
             actual := Some (PFloat 0.5);
             match_ := true;
             status := "PASS";
             section := "exclusion-service-ended";
             row_type := "7-day";
             report := Some "7-day" |}).
Proof.
  remember (verify_exclusion_service_ended_section sample_std1 sample_std2
              sample_std3 sample_summary 23 25) as run eqn:Hrun.
  assert (Hk : lookup_result run "B24"
               = Some (Cell {| calculated := PInt 0;
                               actual := Some (PFloat 0.5);
                               match_ := true;
                               status := "PASS";
                               section := "exclusion-service-ended";
                               row_type := "7-day";
                               report := Some "7-day" |})).
  { subst run. vm_compute. reflexivity. }
  destruct run as [results|e]; [|discriminate Hk].
  exact (proj1 (proj2 (match_flag_rule sample_summary))
           sample_std1 sample_std2 sample_std3 23 25 results (eq_sym Hrun)
           "B24" _ Hk).
Defined.

(** ** Child in care in the 90-day rows *)

(** C2, as stated, fails: the 90-day visits section counts the five
    child-in-care rows of the detail sheet. *)
Lemma visit_section_counts_child_in_care :
  lookup_result
    (verify_visit_section sample_std3
       (sample_columns sample_std3 "90 day visit compliant")
       sample_summary 12 15 "90-day") "B13"
  = Some (Cell {| calculated := PInt 5;
                  actual := Some (PInt 0);
                  match_ := false;
                  status := "FAIL";
                  section := "90-day";
                  row_type := "total";
                  report := None |}).
Proof. vm_compute. reflexivity. Qed.

Lemma whereabouts_calculated_excluded (report_df : Pd.DataFrame)
    (columns : RequiredColumns) (placement_col : string) (v : PyNum) :
  whereabouts_calculated report_df columns placement_col "90-day" "child in care" = Ok v ->
  v = PInt 0.
Proof.
  unfold whereabouts_calculated. intros H.
  apply bind_Ok in H as (filtered_df & _ & H).
  apply bind_Ok in H as (s1 & _ & H). apply bind_Ok in H as (s2 & _ & H).
  change (excluded_from_90_day "90-day" "child in care") with true in H.
  by injection H as <-.
Qed.

Lemma service_ended_calculated_excluded (report_df : Pd.DataFrame)
    (exclusion_col : string) (v : PyNum) :
  service_ended_calculated report_df exclusion_col "90-day" "child in care" = Ok v ->
  v = PInt 0.
Proof.
  unfold service_ended_calculated. intros H.
  apply bind_Ok in H as (s1 & _ & H). apply bind_Ok in H as (s2 & _ & H).
  change (excluded_from_90_day "90-day" "child in care") with true in H.
  by injection H as <-.
Qed.

Lemma data_entry_calculated_excluded (report_df : Pd.DataFrame)
    (columns : RequiredColumns) (v : PyNum) :
  data_entry_calculated report_df columns "90-day" "child in care" = Ok v ->
  v = PInt 0.
Proof.
  unfold data_entry_calculated. intros H.
  apply bind_Ok in H as (s1 & _ & H). apply bind_Ok in H as (s2 & _ & H).
  apply bind_Ok in H as (s3 & _ & H).
  change (excluded_from_90_day "90-day" "child in care") with true in H.
  by injection H as <-.
Qed.

(** The key of column B belongs to the case type "child in care". *)
Lemma column_B_case_type (col_letter case_type : string) (col_index current_row : nat) :
  (col_letter, (case_type, col_index)) ∈ case_types ->
  String.prefix "B" (cell_name col_letter current_row) = true ->
  case_type = "child in care".
Proof.
  unfold case_types. rewrite !elem_of_cons, elem_of_nil.
  intros [H|[H|[H|[H|[]]]]]; injection H as -> -> ->; [done|..];
    unfold cell_name; simpl; discriminate.
Qed.

Lemma excluded_turn (calculated_value : PyNum) (summary_df : SummarySheet)
    (current_row col_index : nat) (section_name report_name : string)
    (col_letter case_type : string) (entry : Entry) :
  (col_letter, (case_type, col_index)) ∈ case_types ->
  (report_name = "90-day" -> case_type = "child in care" -> calculated_value = PInt 0) ->
  int_cell calculated_value summary_df current_row col_index section_name
    report_name report_name = Ok entry ->
  child_in_care_90_day_zero (cell_name col_letter current_row) entry.
Proof.
  intros Hin Hzero H. unfold int_cell in H.
  apply bind_Ok in H as (b & _ & [= <-]). simpl.
  intros Hrow HB. apply Hzero; [done|]. by eapply column_B_case_type.
Qed.

(** C2, amended. In the Whereabouts Unknown, Exclusion - Service Ended and
    Exclusion - Data Entry Issue sections, the record of column B (child in
    care) in the 90-day row has calculated value 0, whatever rows the
    detail sheets hold. *)
Theorem child_in_care_excluded_in_90_day_rows (summary_df : SummarySheet) :
  (forall std1_df std2_df std3_df c1 c2 c3 start_row end_row results,
      verify_whereabouts_unknown_section std1_df std2_df std3_df c1 c2 c3
        summary_df start_row end_row = Ok results ->
      map_Forall child_in_care_90_day_zero results)
  /\ (forall std1_df std2_df std3_df start_row end_row results,
        verify_exclusion_service_ended_section std1_df std2_df std3_df
          summary_df start_row end_row = Ok results ->
        map_Forall child_in_care_90_day_zero results)
  /\ (forall std1_df std2_df std3_df c1 c2 c3 start_row end_row results,
        verify_exclusion_data_entry_section std1_df std2_df std3_df c1 c2 c3
          summary_df start_row end_row = Ok results ->
        map_Forall child_in_care_90_day_zero results).
Proof.
  split; [|split].
  - intros std1_df std2_df std3_df c1 c2 c3 start_row end_row results.
    unfold verify_whereabouts_unknown_section.
    destruct (find_primary_placement_column std1_df) as [p1|];
      [|intros [= <-]; by apply singleton_message].
    destruct (find_primary_placement_column std2_df) as [p2|];
      [|intros [= <-]; by apply singleton_message].
    destruct (find_primary_placement_column std3_df) as [p3|];
      [|intros [= <-]; by apply singleton_message].
    apply for_each_invariant; [apply map_Forall_empty|].
    intros [row_offset [[report_df columns] report_name]] r1 r2 Hrep Hr1.
    apply for_each_invariant; [done|].
    intros [col_letter [case_type col_index]] r3 r4 Hin Hr3 H.
    apply bind_Ok in H as (calculated_value & Hcalc & H). revert H.
    apply insert_turn; [done|]. intros entry.
    apply excluded_turn with (case_type := case_type); [done|].
    intros -> ->. by eapply whereabouts_calculated_excluded.
  - intros std1_df std2_df std3_df start_row end_row results.
    unfold verify_exclusion_service_ended_section.
    destruct (find_exclusion_column std1_df "7 day") as [p1|];
      [|intros [= <-]; by apply singleton_message].
    destruct (find_exclusion_column std2_df "30 day") as [p2|];
      [|intros [= <-]; by apply singleton_message].
    destruct (find_exclusion_column std3_df "90 day") as [p3|];
      [|intros [= <-]; by apply singleton_message].
    apply for_each_invariant; [apply map_Forall_empty|].
    intros [row_offset [[report_df exclusion_col] report_name]] r1 r2 Hrep Hr1.
    apply for_each_invariant; [done|].
    intros [col_letter [case_type col_index]] r3 r4 Hin Hr3 H.
    apply bind_Ok in H as (calculated_value & Hcalc & H). revert H.
    apply insert_turn; [done|]. intros entry.
    apply excluded_turn with (case_type := case_type); [done|].
    intros -> ->. by eapply service_ended_calculated_excluded.
  - intros std1_df std2_df std3_df c1 c2 c3 start_row end_row results.
    unfold verify_exclusion_data_entry_section.
    apply for_each_invariant; [apply map_Forall_empty|].
    intros [row_offset [[report_df columns] report_name]] r1 r2 Hrep Hr1.
    apply for_each_invariant; [done|].
    intros [col_letter [case_type col_index]] r3 r4 Hin Hr3 H.
    apply bind_Ok in H as (calculated_value & Hcalc & H). revert H.
    apply insert_turn; [done|]. intros entry.
    apply excluded_turn with (case_type := case_type); [done|].
    intros -> ->. by eapply data_entry_calculated_excluded.
Qed.

(** In the sample, the five child-in-care rows of the 90-day report all
    have placement "Whereabouts Unknown"; the record of B21 still has
    calculated value 0. *)
Lemma child_in_care_excluded_in_90_day_rows_witness :
  exists c,
    lookup_result
      (verify_whereabouts_unknown_section sample_std1 sample_std2 sample_std3
         (sample_columns sample_std1 "7 day private visit compliant")
         (sample_columns sample_std2 "30 day private visit compliant")
         (sample_columns sample_std3 "90 day visit compliant")
         sample_summary 18 20) "B21" = Some (Cell c)
    /\ row_type c = "90-day"
    /\ calculated c = PInt 0.
Proof.
  remember (verify_whereabouts_unknown_section sample_std1 sample_std2 sample_std3
              (sample_columns sample_std1 "7 day private visit compliant")
              (sample_columns sample_std2 "30 day private visit compliant")
              (sample_columns sample_std3 "90 day visit compliant")
              sample_summary 18 20) as run eqn:Hrun.
  assert (Hk : exists c, lookup_result run "B21" = Some (Cell c)
                         /\ row_type c = "90-day").
  { subst run. vm_compute. eauto. }
  destruct Hk as (c & Hk & Hrow). exists c. split; [done|split; [done|]].
  destruct run as [results|e]; [|discriminate Hk].
  exact (proj1 (child_in_care_excluded_in_90_day_rows sample_summary)
           _ _ _ _ _ _ _ _ results (eq_sym Hrun) "B21" (Cell c) Hk Hrow eq_refl).
Defined.

(** ** The placement column of the Whereabouts Unknown section *)

Lemma getitem_series (df : Pd.DataFrame) (col : string) :
  has_column df col ->
  exists series,
    Pd.getitem df (Some col) = Ok series
    /\ Pd.fillna_str series = map (row_text df col) (Pd.rows df).
Proof.
  intros [i Hi]. unfold Pd.getitem, row_text. rewrite Hi.
  eexists. split; [reflexivity|]. unfold Pd.fillna_str. by rewrite map_map.
Qed.


Lemma select_rows_map {A} (f : A -> bool) (l : list A) :
  Pd.select_rows l (map f l) = List.filter f l.
Proof.
  induction l as [|x l IH]; simpl; [done|]. destruct (f x); by rewrite IH.
Qed.

Lemma and_map {A} (f g : A -> bool) (l : list A) :
  Pd.and (map f l) (map g l) = map (fun x => f x && g x) l.
Proof. induction l as [|x l IH]; simpl; [done|]. by rewrite IH. Qed.


Lemma case_filter_map {A} (t : A -> string) (case_type : string) (l : list A) :
  case_filter (map t l) case_type = map (fun x => case_matches (t x) case_type) l.
Proof.
  unfold case_filter, case_matches, Pd.isin, Pd.eq, Pd.str_lower.
  destruct (String.eqb case_type "formal customary care"); by rewrite !map_map.
Qed.

Lemma row_text_select (df : Pd.DataFrame) (mask : list bool) (col : string) :
  row_text (Pd.select df mask) col = row_text df col.
Proof. reflexivity. Qed.

Lemma res_bind_ok {A B} (a : A) (k : A -> Res B) : (x ← Ok a; k x) = k a.
Proof. reflexivity. Qed.

Lemma filter_change_reason_no_rows (df : Pd.DataFrame) (change_reason : string) :
  has_column df change_reason ->
  filter_change_reason_no df (Some change_reason)
  = Ok (Pd.select df (map (is_no df change_reason) (Pd.rows df))).
Proof.
  intros H. unfold filter_change_reason_no.
  destruct (getitem_series df change_reason H) as (s & -> & Hs).
  rewrite res_bind_ok, Hs. unfold Pd.str_lower, Pd.eq. by rewrite !map_map.
Qed.




Section Whereabouts.
Variables std1_df std2_df std3_df : Pd.DataFrame.
Variables columns_std1 columns_std2 columns_std3 : RequiredColumns.
Variable summary_df : SummarySheet.
Variables start_row end_row : nat.
Variables placement_col_std1 placement_col_std2 placement_col_std3 : string.

Hypothesis found_std1 : find_primary_placement_column std1_df = Some placement_col_std1.
Hypothesis found_std2 : find_primary_placement_column std2_df = Some placement_col_std2.
Hypothesis found_std3 : find_primary_placement_column std3_df = Some placement_col_std3.


Let reports : list (Pd.DataFrame * RequiredColumns * string) :=
  [(std1_df, columns_std1, "7-day"); (std2_df, columns_std2, "30-day");
   (std3_df, columns_std3, "90-day")].





End Whereabouts.


(** With the other label only, the section raises the [KeyError] of
    Standard 1's label on the 30-day report. *)
Example whereabouts_other_label_raises :
  find_primary_placement_column sample_std2_other_label
  = Some "Former Primary In Care Placement Type"
  /\ verify_whereabouts_unknown_section
       sample_std1 sample_std2_other_label sample_std3
       (sample_columns sample_std1 "7 day private visit compliant")
       (sample_columns sample_std2_other_label "30 day private visit compliant")
       (sample_columns sample_std3 "90 day visit compliant")
       sample_summary 18 20
     = Raise (KeyError (Some "Primary In Care Placement Type")).
Proof. split; vm_compute; reflexivity. Qed.

(** ** Missing columns *)

Lemma singleton_no_cells (key text : string) :
  no_cells ({[ key := Message text ]} : Results).
Proof.
  intros k c H. apply lookup_singleton_Some in H as [_ H]. discriminate.
Qed.

Lemma missing_keys_elem (columns : RequiredColumns) (key : string) :
  key ∈ missing_keys columns <->
  (key = "compliant_col" /\ compliant_col columns = None)
  \/ (key = "change_reason_col" /\ change_reason_col columns = None)
  \/ (key = "case_type_col" /\ case_type_col columns = None).
Proof.
  unfold missing_keys.
  destruct (compliant_col columns), (change_reason_col columns),
    (case_type_col columns); simpl;
    rewrite ?elem_of_cons, elem_of_nil; intuition congruence.
Qed.

Lemma check_required_Some (reports : list (string * RequiredColumns)) :
  Exists (fun r => missing_keys (snd r) <> []) reports ->
  exists report_name columns,
    (report_name, columns) ∈ reports
    /\ missing_keys columns <> []
    /\ check_required reports
       = Some {[ "error" :=
                   Message ("Missing columns in " +:+ report_name +:+ ": "
                              +:+ repr_list (missing_keys columns)) ]}.
Proof.
  induction reports as [|[report_name columns] reports IH]; intros H.
  - by apply Exists_nil in H.
  - simpl. destruct (missing_keys columns) as [|key l] eqn:Hm.
    + apply Exists_cons in H as [H|H]; [simpl in H; congruence|].
      destruct (IH H) as (n & c & Hin & Hne & Heq).
      exists n, c. split; [by right|done].
    + exists report_name, columns. rewrite Hm. split; [by left|done].
Qed.

Lemma case_types_letter (col_letter case_type : string) (col_index : nat) :
  (col_letter, (case_type, col_index)) ∈ case_types ->
  col_letter ∈ ["B"; "C"; "D"; "E"].
Proof.
  unfold case_types. rewrite !elem_of_cons, !elem_of_nil.
  intros [H|[H|[H|[H|[]]]]]; injection H as -> _ _; auto.
Qed.

Lemma int_cell_from_section (calculated_value : PyNum) (summary_df : SummarySheet)
    (current_row col_index : nat) (name row_type_name report_name error_key : string)
    (col_letter case_type : string) (entry : Entry) :
  (col_letter, (case_type, col_index)) ∈ case_types ->
  int_cell calculated_value summary_df current_row col_index name
    row_type_name report_name = Ok entry ->
  from_section name error_key (cell_name col_letter current_row) entry.
Proof.
  intros Hin H. unfold int_cell in H. apply bind_Ok in H as (b & _ & [= <-]).
  split; [done|]. exists col_letter, current_row.
  split; [by eapply case_types_letter|done].
Qed.

Lemma singleton_from_section (name error_key text : string) :
  map_Forall (from_section name error_key) ({[ error_key := Message text ]} : Results).
Proof. by apply map_Forall_singleton. Qed.

Section FromSection.
Variable summary_df : SummarySheet.

Lemma verify_visit_section_from (df : Pd.DataFrame) (columns : RequiredColumns)
    (start_row end_row : nat) (section_name : string) (results : Results) :
  verify_visit_section df columns summary_df start_row end_row section_name = Ok results ->
  map_Forall (from_section section_name (section_name +:+ "_error")) results.
Proof.
  unfold verify_visit_section. intros H.
  apply bind_Ok in H as (filtered_df & _ & H).
  destruct (Pd.len filtered_df =? 0).
  { injection H as <-. apply singleton_from_section. }
  revert H. apply for_each_invariant; [apply map_Forall_empty|].
  intros [row_offset row_type] r1 r2 _ Hr1.
  apply for_each_invariant; [done|].
  intros [col_letter [case_type col_index]] r3 r4 Hin Hr3.
  apply insert_turn; [done|]. intros entry He. unfold visit_cell in He.
  apply bind_Ok in He as (c & _ & He). apply bind_Ok in He as (b & _ & [= <-]).
  split; [done|]. exists col_letter, (start_row + row_offset).
  split; [by eapply case_types_letter|done].
Qed.

Lemma verify_whereabouts_unknown_section_from
    (std1_df std2_df std3_df : Pd.DataFrame) (c1 c2 c3 : RequiredColumns)
    (start_row end_row : nat) (results : Results) :
  verify_whereabouts_unknown_section std1_df std2_df std3_df c1 c2 c3
    summary_df start_row end_row = Ok results ->
  map_Forall (from_section "whereabouts-unknown" "whereabouts_error") results.
Proof.
  unfold verify_whereabouts_unknown_section.
  destruct (find_primary_placement_column std1_df) as [p1|];
    [|intros [= <-]; apply singleton_from_section].
  destruct (find_primary_placement_column std2_df) as [p2|];
    [|intros [= <-]; apply singleton_from_section].
  destruct (find_primary_placement_column std3_df) as [p3|];
    [|intros [= <-]; apply singleton_from_section].
  apply for_each_invariant; [apply map_Forall_empty|].
  intros [row_offset [[report_df columns] report_name]] r1 r2 Hrep Hr1.
  apply for_each_invariant; [done|].
  intros [col_letter [case_type col_index]] r3 r4 Hin Hr3 H.
  apply bind_Ok in H as (calculated_value & _ & H). revert H.
  apply insert_turn; [done|]. intros entry.
  by apply int_cell_from_section with (case_type := case_type).
Qed.

Lemma verify_exclusion_service_ended_section_from
    (std1_df std2_df std3_df : Pd.DataFrame)
    (start_row end_row : nat) (results : Results) :
  verify_exclusion_service_ended_section std1_df std2_df std3_df
    summary_df start_row end_row = Ok results ->
  map_Forall (from_section "exclusion-service-ended" "exclusion_error") results.
Proof.
  unfold verify_exclusion_service_ended_section.
  destruct (find_exclusion_column std1_df "7 day") as [p1|];
    [|intros [= <-]; apply singleton_from_section].
  destruct (find_exclusion_column std2_df "30 day") as [p2|];
    [|intros [= <-]; apply singleton_from_section].
  destruct (find_exclusion_column std3_df "90 day") as [p3|];
    [|intros [= <-]; apply singleton_from_section].
  apply for_each_invariant; [apply map_Forall_empty|].
  intros [row_offset [[report_df columns] report_name]] r1 r2 Hrep Hr1.
  apply for_each_invariant; [done|].
  intros [col_letter [case_type col_index]] r3 r4 Hin Hr3 H.
  apply bind_Ok in H as (calculated_value & _ & H). revert H.
  apply insert_turn; [done|]. intros entry.
  by apply int_cell_from_section with (case_type := case_type).
Qed.

Lemma verify_exclusion_data_entry_section_from
    (std1_df std2_df std3_df : Pd.DataFrame) (c1 c2 c3 : RequiredColumns)
    (start_row end_row : nat) (error_key : string) (results : Results) :
  verify_exclusion_data_entry_section std1_df std2_df std3_df c1 c2 c3
    summary_df start_row end_row = Ok results ->
  map_Forall (from_section "exclusion-data-entry" error_key) results.
Proof.
  unfold verify_exclusion_data_entry_section.
  apply for_each_invariant; [apply map_Forall_empty|].
  intros [row_offset [[report_df columns] report_name]] r1 r2 Hrep Hr1.
  apply for_each_invariant; [done|].
  intros [col_letter [case_type col_index]] r3 r4 Hin Hr3 H.
  apply bind_Ok in H as (calculated_value & _ & H). revert H.
  apply insert_turn; [done|]. intros entry.
  by apply int_cell_from_section with (case_type := case_type).
Qed.

Lemma verify_information_only_section_from
    (std3_df : Pd.DataFrame) (c3 : RequiredColumns)
    (start_row : nat) (error_key : string) (results : Results) :
  verify_information_only_section std3_df c3 summary_df start_row = Ok results ->
  map_Forall (from_section "information-only" error_key) results.
Proof.
  unfold verify_information_only_section.
  apply for_each_invariant; [apply map_Forall_empty|].
  intros [col_letter [case_type col_index]] r3 r4 Hin Hr3 H.
  apply bind_Ok in H as (calculated_value & _ & H). revert H.
  apply insert_turn; [done|]. intros entry.
  by apply int_cell_from_section with (case_type := case_type).
Qed.

Lemma verify_kinship_service_cases_section_from
    (std3_df : Pd.DataFrame) (c3 : RequiredColumns)
    (start_row : nat) (results : Results) :
  verify_kinship_service_cases_section std3_df c3 summary_df start_row = Ok results ->
  map_Forall (from_section "kinship-service-cases" "kinship_error") results.
Proof.
  unfold verify_kinship_service_cases_section.
  destruct (find_primary_placement_column std3_df) as [p|];
    [|intros [= <-]; apply singleton_from_section].
  apply for_each_invariant; [apply map_Forall_empty|].
  intros [col_letter [case_type col_index]] r3 r4 Hin Hr3 H.
  apply bind_Ok in H as (calculated_value & _ & H). revert H.
  apply insert_turn; [done|]. intros entry.
  by apply int_cell_from_section with (case_type := case_type).
Qed.

End FromSection.

(** *** The merged dictionary *)

Lemma merge_fold_lookup (l : list Results) (acc : Results) (k : string) (e : Entry) :
  fold_left (fun acc d => d ∪ acc) l acc !! k = Some e ->
  acc !! k = Some e \/ exists d, d ∈ l /\ d !! k = Some e.
Proof.
  revert acc. induction l as [|d l IH]; simpl; intros acc H; [by left|].
  apply IH in H as [H|(d' & Hin & H)].
  - apply lookup_union_Some_raw in H as [H|[_ H]].
    + right. exists d. split; [by left|done].
    + by left.
  - right. exists d'. split; [by right|done].
Qed.

Lemma merge_results_lookup (l : list Results) (k : string) (e : Entry) :
  merge_results l !! k = Some e -> exists d, d ∈ l /\ d !! k = Some e.
Proof.
  intros H. apply merge_fold_lookup in H as [H|H]; [|done].
  by rewrite lookup_empty in H.
Qed.

Lemma merge_fold_keep (l : list Results) (acc : Results) (k : string) (e : Entry) :
  acc !! k = Some e ->
  Forall (fun d : Results => d !! k = None) l ->
  fold_left (fun acc d => d ∪ acc) l acc !! k = Some e.
Proof.
  revert acc. induction l as [|d l IH]; simpl; intros acc Hacc Hl; [done|].
  apply Forall_cons in Hl as [Hd Hl]. apply IH; [|done].
  by rewrite lookup_union_r.
Qed.

(** An entry stays in the merged dictionary when no later dictionary has
    its key. *)
Lemma merge_results_keep (before after : list Results) (d : Results)
    (k : string) (e : Entry) :
  d !! k = Some e ->
  Forall (fun d' : Results => d' !! k = None) after ->
  merge_results (before ++ d :: after) !! k = Some e.
Proof.
  intros Hd Hafter. unfold merge_results. rewrite fold_left_app. simpl.
  apply merge_fold_keep; [|done]. by rewrite lookup_union_l'; [|eauto].
Qed.

Lemma lower_case_key_not_cell (c : ascii) (rest : string) :
  (97 <=? Py.code c) = true -> not_cell_key (String c rest).
Proof.
  intros Hc col_letter current_row Hin Heq.
  rewrite !elem_of_cons, elem_of_nil in Hin. unfold cell_name in Heq.
  destruct Hin as [->|[->|[->|[->|[]]]]]; simpl in Heq;
    injection Heq as -> _; vm_compute in Hc; discriminate.
Qed.

Lemma from_section_no_key (name error_key key : string) (d : Results) :
  map_Forall (from_section name error_key) d ->
  key <> error_key ->
  not_cell_key key ->
  d !! key = None.
Proof.
  intros Hd Hne Hkey. destruct (d !! key) as [e|] eqn:Hk; [|done].
  apply Hd in Hk. destruct e as [c|text]; simpl in Hk.
  - destruct Hk as (_ & col_letter & current_row & Hin & Heq).
    by apply Hkey in Heq.
  - done.
Qed.

(** *** The run *)

Lemma check_required_cases (reports : list (string * RequiredColumns)) :
  check_required reports = None
  \/ exists report_name missing,
       check_required reports
       = Some {[ "error" :=
                   Message ("Missing columns in " +:+ report_name +:+ ": "
                              +:+ repr_list missing) ]}.
Proof.
  induction reports as [|[report_name columns] reports IH]; simpl; [by left|].
  destruct (missing_keys columns) as [|key l]; [done|]. right. eauto.
Qed.

Lemma verify_summary_total_counts_raise (file : ReportFile) (e : Exception) :
  verify_summary_total_counts_body file = Raise e ->
  no_cells (verify_summary_total_counts file).
Proof.
  intros H. unfold verify_summary_total_counts. rewrite H. apply singleton_no_cells.
Qed.

Section Run.
Variable file : ReportFile.
Variables std1_df std2_df std3_df : Pd.DataFrame.

Hypothesis read_std1 : read_detail file "Standard 1 Report" = Ok std1_df.
Hypothesis read_std2 : read_detail file "Standard 2 Report" = Ok std2_df.
Hypothesis read_std3 : read_detail file "Standard 3 Report" = Ok std3_df.

Let columns_std1 := find_required_columns std1_df "7 day private visit compliant".
Let columns_std2 := find_required_columns std2_df "30 day private visit compliant".
Let columns_std3 := find_required_columns std3_df "90 day visit compliant".

Let required : list (string * RequiredColumns) :=
  [("Standard 1", columns_std1); ("Standard 2", columns_std2);
   ("Standard 3", columns_std3)].

Lemma body_unfold :
  verify_summary_total_counts_body file
  = match check_required required with
    | Some error => Ok error
    | None =>
        summary_df ← read_summary file;
        r7 ← verify_visit_section std1_df columns_std1 summary_df 2 5 "7-day";
        r30 ← verify_visit_section std2_df columns_std2 summary_df 7 10 "30-day";
        r90 ← verify_visit_section std3_df columns_std3 summary_df 12 15 "90-day";
        rw ← verify_whereabouts_unknown_section std1_df std2_df std3_df
               columns_std1 columns_std2 columns_std3 summary_df 18 20;
        rs ← verify_exclusion_service_ended_section std1_df std2_df std3_df
               summary_df 23 25;
        rd ← verify_exclusion_data_entry_section std1_df std2_df std3_df
               columns_std1 columns_std2 columns_std3 summary_df 28 30;
        ri ← verify_information_only_section std3_df columns_std3 summary_df 33;
        rk ← verify_kinship_service_cases_section std3_df columns_std3 summary_df 36;
        Ok (merge_results [r7; r30; r90; rw; rs; rd; ri; rk])
    end.
Proof using read_std1 read_std2 read_std3.
  unfold verify_summary_total_counts_body.
  by rewrite read_std1, read_std2, read_std3.
Qed.

(** A run that ends without exception and past the check of the
    required columns merges the eight dictionaries. *)
Lemma body_merges (results : Results) :
  check_required required = None ->
  verify_summary_total_counts_body file = Ok results ->
  exists summary_df r7 r30 r90 rw rs rd ri rk,
    section_runs std1_df std2_df std3_df summary_df
    = [Ok r7; Ok r30; Ok r90; Ok rw; Ok rs; Ok rd; Ok ri; Ok rk]
    /\ results = merge_results [r7; r30; r90; rw; rs; rd; ri; rk].
Proof using read_std1 read_std2 read_std3.
  intros Hreq. rewrite body_unfold, Hreq. intros H.
  apply bind_Ok in H as (summary_df & _ & H).
  apply bind_Ok in H as (r7 & H7 & H). apply bind_Ok in H as (r30 & H30 & H).
  apply bind_Ok in H as (r90 & H90 & H). apply bind_Ok in H as (rw & Hw & H).
  apply bind_Ok in H as (rs & Hs & H). apply bind_Ok in H as (rd & Hd & H).
  apply bind_Ok in H as (ri & Hi & H). apply bind_Ok in H as (rk & Hk & [= <-]).
  exists summary_df, r7, r30, r90, rw, rs, rd, ri, rk. split; [|done].
  unfold section_runs. fold columns_std1 columns_std2 columns_std3.
  by rewrite H7, H30, H90, Hw, Hs, Hd, Hi, Hk.
Qed.

(** The cells of the merged dictionary keep the name of their section. *)
Lemma merged_cell_section (summary_df : SummarySheet)
    (r7 r30 r90 rw rs rd ri rk : Results) (k : string) (c : CellResult) :
  section_runs std1_df std2_df std3_df summary_df
  = [Ok r7; Ok r30; Ok r90; Ok rw; Ok rs; Ok rd; Ok ri; Ok rk] ->
  merge_results [r7; r30; r90; rw; rs; rd; ri; rk] !! k = Some (Cell c) ->
  (section c = "7-day" /\ r7 !! k = Some (Cell c))
  \/ (section c = "30-day" /\ r30 !! k = Some (Cell c))
  \/ (section c = "90-day" /\ r90 !! k = Some (Cell c))
  \/ (section c = "whereabouts-unknown" /\ rw !! k = Some (Cell c))
  \/ (section c = "exclusion-service-ended" /\ rs !! k = Some (Cell c))
  \/ (section c = "exclusion-data-entry" /\ rd !! k = Some (Cell c))
  \/ (section c = "information-only" /\ ri !! k = Some (Cell c))
  \/ (section c = "kinship-service-cases" /\ rk !! k = Some (Cell c)).
Proof.
  unfold section_runs. intros [= H7 H30 H90 Hw Hs Hd Hi Hk] H.
  apply verify_visit_section_from in H7, H30, H90.
  apply verify_whereabouts_unknown_section_from in Hw.
  apply verify_exclusion_service_ended_section_from in Hs.
  apply (verify_exclusion_data_entry_section_from _ _ _ _ _ _ _ _ _ "") in Hd.
  apply (verify_information_only_section_from _ _ _ _ "") in Hi.
  apply verify_kinship_service_cases_section_from in Hk.
  apply merge_results_lookup in H as (d & Hin & Hd').
  rewrite !elem_of_cons, elem_of_nil in Hin.
  destruct Hin as [->|[->|[->|[->|[->|[->|[->|[->|[]]]]]]]]];
    [pose proof (H7 _ _ Hd') as [Hsec _]|pose proof (H30 _ _ Hd') as [Hsec _]
    |pose proof (H90 _ _ Hd') as [Hsec _]|pose proof (Hw _ _ Hd') as [Hsec _]
    |pose proof (Hs _ _ Hd') as [Hsec _]|pose proof (Hd _ _ Hd') as [Hsec _]
    |pose proof (Hi _ _ Hd') as [Hsec _]|pose proof (Hk _ _ Hd') as [Hsec _]];
    auto 10.
Qed.

(** The run holds a cell only past the check of the required columns and
    without exception; the cell then lies in the merged dictionary. *)
Lemma run_cell (k : string) (c : CellResult) :
  verify_summary_total_counts file !! k = Some (Cell c) ->
  exists summary_df r7 r30 r90 rw rs rd ri rk,
    section_runs std1_df std2_df std3_df summary_df
    = [Ok r7; Ok r30; Ok r90; Ok rw; Ok rs; Ok rd; Ok ri; Ok rk]
    /\ merge_results [r7; r30; r90; rw; rs; rd; ri; rk] !! k = Some (Cell c).
Proof using read_std1 read_std2 read_std3.
  unfold verify_summary_total_counts. intros Hk.
  destruct (verify_summary_total_counts_body file) as [results|e] eqn:Hbody.
  2:{ by apply singleton_no_cells in Hk. }
  destruct (check_required_cases required) as [Hreq|(n & m & Hreq)].
  - destruct (body_merges results Hreq Hbody)
      as (summary_df & r7 & r30 & r90 & rw & rs & rd & ri & rk & Hruns & ->).
    by exists summary_df, r7, r30, r90, rw, rs, rd, ri, rk.
  - rewrite body_unfold, Hreq in Hbody. injection Hbody as <-.
    by apply singleton_no_cells in Hk.
Qed.

End Run.

(** *** Sections that lack their column *)

Lemma service_ended_aborts (std1_df std2_df std3_df : Pd.DataFrame)
    (summary_df : SummarySheet) (start_row end_row : nat) :
  exclusion_column_missing std1_df std2_df std3_df ->
  exists label report_name df visit_type,
    (label, report_name, df, visit_type) ∈ exclusion_reports std1_df std2_df std3_df
    /\ find_exclusion_column df visit_type = None
    /\ verify_exclusion_service_ended_section std1_df std2_df std3_df
         summary_df start_row end_row
       = Ok {[ "exclusion_error" :=
                 Message (label +:+ " Exclusion column not found in "
                            +:+ report_name +:+ " Report") ]}.
Proof.
  intros Hmiss. unfold verify_exclusion_service_ended_section, exclusion_reports.
  destruct (find_exclusion_column std1_df "7 day") as [p1|] eqn:H1.
  2:{ exists "7 Day Private Visit", "Standard 1", std1_df, "7 day".
      split; [by left|done]. }
  destruct (find_exclusion_column std2_df "30 day") as [p2|] eqn:H2.
  2:{ exists "30 Day Private Visit", "Standard 2", std2_df, "30 day".
      split; [by right; left|done]. }
  destruct (find_exclusion_column std3_df "90 day") as [p3|] eqn:H3.
  2:{ exists "90 Day Visit", "Standard 3", std3_df, "90 day".
      split; [by right; right; left|done]. }
  destruct Hmiss as [?|[?|?]]; congruence.
Qed.

Lemma whereabouts_aborts (std1_df std2_df std3_df : Pd.DataFrame)
    (c1 c2 c3 : RequiredColumns) (summary_df : SummarySheet) (start_row end_row : nat) :
  placement_column_missing std1_df std2_df std3_df ->
  exists report_name df,
    (report_name, df) ∈ [("Standard 1", std1_df); ("Standard 2", std2_df);
                         ("Standard 3", std3_df)]
    /\ find_primary_placement_column df = None
    /\ verify_whereabouts_unknown_section std1_df std2_df std3_df c1 c2 c3
         summary_df start_row end_row
       = Ok {[ "whereabouts_error" :=
                 Message ("Primary Placement Type column not found in "
                            +:+ report_name +:+ " Report") ]}.
Proof.
  intros Hmiss. unfold verify_whereabouts_unknown_section.
  destruct (find_primary_placement_column std1_df) as [p1|] eqn:H1.
  2:{ exists "Standard 1", std1_df. split; [by left|done]. }
  destruct (find_primary_placement_column std2_df) as [p2|] eqn:H2.
  2:{ exists "Standard 2", std2_df. split; [by right; left|done]. }
  destruct (find_primary_placement_column std3_df) as [p3|] eqn:H3.
  2:{ exists "Standard 3", std3_df. split; [by right; right; left|done]. }
  destruct Hmiss as [?|[?|?]]; congruence.
Qed.

Lemma kinship_aborts (std3_df : Pd.DataFrame) (c3 : RequiredColumns)
    (summary_df : SummarySheet) (start_row : nat) :
  find_primary_placement_column std3_df = None ->
  verify_kinship_service_cases_section std3_df c3 summary_df start_row
  = Ok {[ "kinship_error" :=
            Message "Primary Placement Type column not found in Standard 3 Report" ]}.
Proof. intros H. unfold verify_kinship_service_cases_section. by rewrite H. Qed.

Section Abort.
Variable file : ReportFile.
Variables std1_df std2_df std3_df : Pd.DataFrame.

Hypothesis read_std1 : read_detail file "Standard 1 Report" = Ok std1_df.
Hypothesis read_std2 : read_detail file "Standard 2 Report" = Ok std2_df.
Hypothesis read_std3 : read_detail file "Standard 3 Report" = Ok std3_df.

Let columns_std1 := find_required_columns std1_df "7 day private visit compliant".
Let columns_std2 := find_required_columns std2_df "30 day private visit compliant".
Let columns_std3 := find_required_columns std3_df "90 day visit compliant".

Let required : list (string * RequiredColumns) :=
  [("Standard 1", columns_std1); ("Standard 2", columns_std2);
   ("Standard 3", columns_std3)].

Lemma required_missing_aborts :
  required_column_missing std1_df std2_df std3_df ->
  exists report_name columns,
    (report_name, columns) ∈ required
    /\ missing_keys columns <> []
    /\ verify_summary_total_counts file
       = {[ "error" :=
              Message ("Missing columns in " +:+ report_name +:+ ": "
                         +:+ repr_list (missing_keys columns)) ]}.
Proof using read_std1 read_std2 read_std3.
  intros H. apply check_required_Some in H as (n & c & Hin & Hne & Heq).
  exists n, c. split; [done|split; [done|]].
  unfold verify_summary_total_counts.
  rewrite (body_unfold file std1_df std2_df std3_df read_std1 read_std2 read_std3).
  by rewrite Heq.
Qed.

Lemma run_no_service_ended_cell (k : string) (c : CellResult) :
  exclusion_column_missing std1_df std2_df std3_df ->
  verify_summary_total_counts file !! k = Some (Cell c) ->
  section c <> "exclusion-service-ended".
Proof using read_std1 read_std2 read_std3.
  intros Hmiss Hk Hname.
  apply (run_cell file std1_df std2_df std3_df read_std1 read_std2 read_std3) in Hk
    as (summary_df & r7 & r30 & r90 & rw & rs & rd & ri & rk & Hruns & Hk).
  pose proof Hruns as [= _ _ _ _ Hs _ _ _].
  destruct (service_ended_aborts _ _ _ summary_df 23 25 Hmiss)
    as (l & n & df & v & _ & _ & Heq).
  rewrite Heq in Hs. injection Hs as <-.
  apply (merged_cell_section _ _ _ _ _ _ _ _ _ _ _ _ _ _ Hruns) in Hk.
  destruct Hk as [[H _]|[[H _]|[[H _]|[[H _]|[[_ H]|[[H _]|[[H _]|[H _]]]]]]]];
    try congruence.
  by apply singleton_no_cells in H.
Qed.

Lemma run_no_whereabouts_cell (k : string) (c : CellResult) :
  placement_column_missing std1_df std2_df std3_df ->
  verify_summary_total_counts file !! k = Some (Cell c) ->
  section c <> "whereabouts-unknown".
Proof using read_std1 read_std2 read_std3.
  intros Hmiss Hk Hname.
  apply (run_cell file std1_df std2_df std3_df read_std1 read_std2 read_std3) in Hk
    as (summary_df & r7 & r30 & r90 & rw & rs & rd & ri & rk & Hruns & Hk).
  pose proof Hruns as [= _ _ _ Hw _ _ _ _].
  destruct (whereabouts_aborts _ _ _ columns_std1 columns_std2 columns_std3
              summary_df 18 20 Hmiss) as (n & df & _ & _ & Heq).
  unfold columns_std1, columns_std2, columns_std3 in Heq.
  rewrite Heq in Hw. injection Hw as <-.
  apply (merged_cell_section _ _ _ _ _ _ _ _ _ _ _ _ _ _ Hruns) in Hk.
  destruct Hk as [[H _]|[[H _]|[[H _]|[[_ H]|[[H _]|[[H _]|[[H _]|[H _]]]]]]]];
    try congruence.
  by apply singleton_no_cells in H.
Qed.

Lemma run_no_kinship_cell (k : string) (c : CellResult) :
  find_primary_placement_column std3_df = None ->
  verify_summary_total_counts file !! k = Some (Cell c) ->
  section c <> "kinship-service-cases".
Proof using read_std1 read_std2 read_std3.
  intros Hmiss Hk Hname.
  apply (run_cell file std1_df std2_df std3_df read_std1 read_std2 read_std3) in Hk
    as (summary_df & r7 & r30 & r90 & rw & rs & rd & ri & rk & Hruns & Hk).
  pose proof Hruns as [= _ _ _ _ _ _ _ Hkin].
  rewrite (kinship_aborts _ _ summary_df 36 Hmiss) in Hkin.
  injection Hkin as <-.
  apply (merged_cell_section _ _ _ _ _ _ _ _ _ _ _ _ _ _ Hruns) in Hk.
  destruct Hk as [[H _]|[[H _]|[[H _]|[[H _]|[[H _]|[[H _]|[[H _]|[_ H]]]]]]]];
    try congruence.
  by apply singleton_no_cells in H.
Qed.

(** The error entry of a section is in the dictionary of a run that
    reaches the merge. *)
Lemma run_keeps_section_errors (results : Results) :
  check_required required = None ->
  verify_summary_total_counts_body file = Ok results ->
  (exclusion_column_missing std1_df std2_df std3_df ->
   exists text, results !! "exclusion_error" = Some (Message text))
  /\ (placement_column_missing std1_df std2_df std3_df ->
      exists text, results !! "whereabouts_error" = Some (Message text))
  /\ (find_primary_placement_column std3_df = None ->
      exists text, results !! "kinship_error" = Some (Message text)).
Proof using read_std1 read_std2 read_std3.
  intros Hreq Hbody.
  destruct (body_merges file std1_df std2_df std3_df read_std1 read_std2 read_std3
              results Hreq Hbody)
    as (summary_df & r7 & r30 & r90 & rw & rs & rd & ri & rk & Hruns & ->).
  pose proof Hruns as [= H7 H30 H90 Hw Hs Hd Hi Hk].
  pose proof (verify_exclusion_service_ended_section_from _ _ _ _ _ _ _ Hs) as Fs.
  pose proof (verify_exclusion_data_entry_section_from _ _ _ _ _ _ _ _ _ "" _ Hd) as Fd.
  pose proof (verify_information_only_section_from _ _ _ _ "" _ Hi) as Fi.
  pose proof (verify_kinship_service_cases_section_from _ _ _ _ _ Hk) as Fk.
  split; [|split].
  - intros Hmiss.
    destruct (service_ended_aborts _ _ _ summary_df 23 25 Hmiss)
      as (l & n & df & v & _ & _ & Heq).
    rewrite Heq in Hs. injection Hs as <-. eexists.
    apply (merge_results_keep [r7; r30; r90; rw] [rd; ri; rk]).
    + apply lookup_singleton_eq.
    + repeat constructor;
        (eapply from_section_no_key; [done|done|by apply lower_case_key_not_cell]).
  - intros Hmiss.
    destruct (whereabouts_aborts _ _ _ columns_std1 columns_std2 columns_std3
                summary_df 18 20 Hmiss) as (n & df & _ & _ & Heq).
    unfold columns_std1, columns_std2, columns_std3 in Heq.
  rewrite Heq in Hw. injection Hw as <-. eexists.
    apply (merge_results_keep [r7; r30; r90] [rs; rd; ri; rk]).
    + apply lookup_singleton_eq.
    + repeat constructor;
        (eapply from_section_no_key; [done|done|by apply lower_case_key_not_cell]).
  - intros Hmiss.
    rewrite (kinship_aborts _ _ summary_df 36 Hmiss) in Hk.
    injection Hk as <-. eexists.
    apply (merge_results_keep [r7; r30; r90; rw; rs; rd; ri] []).
    + apply lookup_singleton_eq.
    + constructor.
Qed.

End Abort.

(** C8. When a column a section needs cannot be found in a detail sheet,
    the section is aborted with an error entry that names what is missing,
    and the run holds no cell record of the section. For the three columns
    every section needs, the run stops at the check and returns the single
    entry ["error"], which names the report and the missing keys. For the
    exclusion column and the placement column, the section returns its
    error entry alone; the entry is in the dictionary of a run that reaches
    the merge, and no run holds a cell of that section. *)
Theorem missing_columns_abort (file : ReportFile) (std1_df std2_df std3_df : Pd.DataFrame) :
  read_detail file "Standard 1 Report" = Ok std1_df ->
  read_detail file "Standard 2 Report" = Ok std2_df ->
  read_detail file "Standard 3 Report" = Ok std3_df ->
  let required :=
    [("Standard 1", find_required_columns std1_df "7 day private visit compliant");
     ("Standard 2", find_required_columns std2_df "30 day private visit compliant");
     ("Standard 3", find_required_columns std3_df "90 day visit compliant")] in
  (required_column_missing std1_df std2_df std3_df ->
   exists report_name columns,
     (report_name, columns) ∈ required
     /\ missing_keys columns <> []
     /\ verify_summary_total_counts file
        = {[ "error" :=
               Message ("Missing columns in " +:+ report_name +:+ ": "
                          +:+ repr_list (missing_keys columns)) ]}
     /\ no_cells (verify_summary_total_counts file))
  /\ (exclusion_column_missing std1_df std2_df std3_df ->
      (forall summary_df start_row end_row,
          exists label report_name df visit_type,
            (label, report_name, df, visit_type)
            ∈ exclusion_reports std1_df std2_df std3_df
            /\ find_exclusion_column df visit_type = None
            /\ verify_exclusion_service_ended_section std1_df std2_df std3_df
                 summary_df start_row end_row
               = Ok {[ "exclusion_error" :=
                         Message (label +:+ " Exclusion column not found in "
                                    +:+ report_name +:+ " Report") ]})
      /\ (forall k c, verify_summary_total_counts file !! k = Some (Cell c) ->
                      section c <> "exclusion-service-ended")
      /\ (forall results,
             check_required required = None ->
             verify_summary_total_counts_body file = Ok results ->
             exists text, results !! "exclusion_error" = Some (Message text)))
  /\ (placement_column_missing std1_df std2_df std3_df ->
      (forall c1 c2 c3 summary_df start_row end_row,
          exists report_name df,
            (report_name, df) ∈ [("Standard 1", std1_df); ("Standard 2", std2_df);
                                 ("Standard 3", std3_df)]
            /\ find_primary_placement_column df = None
            /\ verify_whereabouts_unknown_section std1_df std2_df std3_df c1 c2 c3
                 summary_df start_row end_row
               = Ok {[ "whereabouts_error" :=
                         Message ("Primary Placement Type column not found in "
                                    +:+ report_name +:+ " Report") ]})
      /\ (forall k c, verify_summary_total_counts file !! k = Some (Cell c) ->
                      section c <> "whereabouts-unknown")
      /\ (forall results,
             check_required required = None ->
             verify_summary_total_counts_body file = Ok results ->
             exists text, results !! "whereabouts_error" = Some (Message text)))
  /\ (find_primary_placement_column std3_df = None ->
      (forall c3 summary_df start_row,
          verify_kinship_service_cases_section std3_df c3 summary_df start_row
          = Ok {[ "kinship_error" :=
                    Message "Primary Placement Type column not found in Standard 3 Report" ]})
      /\ (forall k c, verify_summary_total_counts file !! k = Some (Cell c) ->
                      section c <> "kinship-service-cases")
      /\ (forall results,
             check_required required = None ->
             verify_summary_total_counts_body file = Ok results ->
             exists text, results !! "kinship_error" = Some (Message text))).
Proof.
  intros R1 R2 R3 required.
  split; [|split; [|split]].
  - intros H.
    destruct (required_missing_aborts file _ _ _ R1 R2 R3 H) as (n & c & Hin & Hne & Heq).
    exists n, c. split; [done|split; [done|split; [done|]]].
    rewrite Heq. apply singleton_no_cells.
  - intros H. split; [|split].
    + intros. by apply service_ended_aborts.
    + intros k c. by apply (run_no_service_ended_cell file _ _ _ R1 R2 R3).
    + intros results Hreq Hbody.
      by apply (run_keeps_section_errors file _ _ _ R1 R2 R3 results Hreq Hbody).
  - intros H. split; [|split].
    + intros. by apply whereabouts_aborts.
    + intros k c. by apply (run_no_whereabouts_cell file _ _ _ R1 R2 R3).
    + intros results Hreq Hbody.
      by apply (run_keeps_section_errors file _ _ _ R1 R2 R3 results Hreq Hbody).
  - intros H. split; [|split].
    + intros. by apply kinship_aborts.
    + intros k c. by apply (run_no_kinship_cell file _ _ _ R1 R2 R3).
    + intros results Hreq Hbody.
      by apply (run_keeps_section_errors file _ _ _ R1 R2 R3 results Hreq Hbody).
Qed.

Lemma missing_columns_abort_witness :
  exclusion_column_missing sample_std1_no_exclusion sample_std2 sample_std3
  /\ forall k c,
       verify_summary_total_counts
         (sample_file sample_std1_no_exclusion sample_std2 sample_std3) !! k
       = Some (Cell c) ->
       section c <> "exclusion-service-ended".
Proof.
  assert (Hm : exclusion_column_missing sample_std1_no_exclusion sample_std2 sample_std3).
  { left. vm_compute. reflexivity. }
  split; [exact Hm|].
  refine (proj1 (proj2 (proj1 (proj2
            (missing_columns_abort
               (sample_file sample_std1_no_exclusion sample_std2 sample_std3)
               sample_std1_no_exclusion sample_std2 sample_std3 _ _ _)) Hm)));
    vm_compute; reflexivity.
Defined.

(** The entries the two sample runs return. *)
Example exclusion_error_entry :
  verify_summary_total_counts
    (sample_file sample_std1_no_exclusion sample_std2 sample_std3) !! "exclusion_error"
  = Some (Message "7 Day Private Visit Exclusion column not found in Standard 1 Report").
Proof. vm_compute. reflexivity. Qed.

Example missing_columns_entry :
  map_to_list (verify_summary_total_counts
                 (sample_file sample_std1 sample_std2_no_compliant sample_std3))
  = [("error", Message "Missing columns in Standard 2: ['compliant_col']")].
Proof. vm_compute. reflexivity. Qed.

(** ** The classifier on sample labels *)

Example classify_word_order :
  analyze_difference "a b" "b a" = WordOrderDifference.
Proof. vm_compute. reflexivity. Qed.

Example classify_extra_words :
  analyze_difference "a b" "a b c" = ExtraWordsInVerification
  /\ analyze_difference "a b c" "a b" = MissingWordsInVerification.
Proof. split; vm_compute; reflexivity. Qed.

Example classify_whitespace :
  analyze_difference " Case  Owner First Name" "Case Owner First Name"
  = SpaceDifference.
Proof. vm_compute. reflexivity. Qed.

Example classify_spelling :
  verdict_text (analyze_difference "Submsission" "Submission")
  = "Spelling error (similarity: 0.95)".
Proof. vm_compute. reflexivity. Qed.

Example compare_whitespace_columns :
  details (compare_result 1 ["Case Owner  First Name"; "Status"]
                            ["Case Owner First Name"; "Status"])
  = [{| column_number := Col 1;
        design := "Case Owner  First Name";
        verification := "Case Owner First Name";
        error_type := "Space difference (extra/missing spaces)" |}].
Proof. vm_compute. reflexivity. Qed.

(** * Further properties *)

(** ** The comparator passes exactly on equal label lists *)

Lemma omap_nil_iff {A B} (f : A -> option B) (l : list A) :
  omap f l = [] <-> forall x, x ∈ l -> f x = None.
Proof.
  induction l as [|a l IH]; simpl.
  - split; [|done]. intros _ x Hx. by apply elem_of_nil in Hx.
  - destruct (f a) eqn:Ha.
    + split; [done|]. intros H. specialize (H a (list_elem_of_here _ _)). congruence.
    + rewrite IH. split.
      * intros H x Hx. apply elem_of_cons in Hx as [->|Hx]; auto.
      * intros H x Hx. apply H. by apply list_elem_of_further.
Qed.

Lemma positional_None (dc vc : list string) (i : nat) :
  positional dc vc i = None <-> nth i dc "" = nth i vc "".
Proof.
  unfold positional.
  destruct (String.eqb (nth i dc "") (nth i vc "")) eqn:E.
  - apply String.eqb_eq in E. by split.
  - apply String.eqb_neq in E. split; [done|]. intros; contradiction.
Qed.

Lemma no_discrepancy_iff_equal (dc vc : list string) :
  positional_discrepancies dc vc ++ count_discrepancy dc vc = [] <-> dc = vc.
Proof.
  unfold positional_discrepancies, count_discrepancy. split.
  - intros H. apply app_eq_nil in H as [Hp Hc].
    destruct (length dc =? length vc) eqn:El; [|done].
    apply Nat.eqb_eq in El.
    apply (nth_ext _ _ "" ""); [done|].
    intros i Hi. apply positional_None.
    apply (proj1 (omap_nil_iff _ _) Hp).
    apply list_elem_of_In, in_seq. lia.
  - intros ->. rewrite Nat.eqb_refl, app_nil_r.
    apply omap_nil_iff. intros i _. by apply positional_None.
Qed.

Lemma compare_result_passed_iff (n : nat) (dc vc : list string) :
  passed (compare_result n dc vc) = true <-> dc = vc.
Proof.
  rewrite (proj2 (compare_result_details n dc vc)), compare_columns_spec. simpl.
  rewrite <- no_discrepancy_iff_equal.
  split.
  - intros H. by apply map_eq_nil in H.
  - by intros ->.
Qed.

(** X1. The column comparison of a standard report passes exactly when
    row 9 of the design sheet and row 2 of the verification sheet can both
    be read and hold the same labels in the same order (empty cells left
    out, each label stripped). *)
Theorem columns_pass_iff_same_labels (design_spec verification : Document) (n : nat) :
  (exists r, test_standard_report_columns design_spec verification n = Ok r
             /\ passed r = true)
  <-> (exists labels,
          read_design_columns design_spec n = Ok labels
          /\ read_verification_columns verification n = Ok labels).
Proof.
  unfold test_standard_report_columns.
  destruct (read_design_columns design_spec n) as [dc|e] eqn:Hd; simpl.
  - destruct (read_verification_columns verification n) as [vc|e] eqn:Hv; simpl.
    + split.
      * intros (r & [= <-] & Hp). apply compare_result_passed_iff in Hp as ->. by exists vc.
      * intros (labels & [= ->] & [= ->]).
        eexists. split; [done|]. by apply compare_result_passed_iff.
    + split.
      * by intros (r & [= <-] & Hp).
      * by intros (labels & _ & ?).
  - split.
    + by intros (r & [= <-] & Hp).
    + by intros (labels & ? & _).
Qed.

(** X2. A failing comparison carries the key [mismatches] with one text
    per recorded discrepancy, at least one; a passing comparison has no
    such key and no recorded discrepancy. *)
Theorem comparison_messages_align (n : nat) (dc vc : list string) :
  match mismatches (compare_result n dc vc) with
  | Some texts =>
      passed (compare_result n dc vc) = false
      /\ texts <> []
      /\ length texts = length (details (compare_result n dc vc))
  | None =>
      passed (compare_result n dc vc) = true
      /\ details (compare_result n dc vc) = []
  end.
Proof.
  unfold compare_result. rewrite compare_columns_spec.
  destruct (positional_discrepancies dc vc ++ count_discrepancy dc vc) as [|p l]; simpl.
  - done.
  - split; [done|]. split; [done|]. by rewrite !length_map.
Qed.

(** ** Column discovery *)

Lemma find_required_columns_snoc (cols : list string) (col pattern : string)
    (rows : list (list (option string))) :
  find_required_columns {| Pd.columns := cols ++ [col]; Pd.rows := rows |} pattern
  = let before := find_required_columns {| Pd.columns := cols; Pd.rows := rows |} pattern in
    if is_compliant_label pattern col
    then {| compliant_col := Some col;
            change_reason_col := change_reason_col before;
            case_type_col := case_type_col before |}
    else if Py.contains "incorrect change reason" (Py.lower col)
    then {| compliant_col := compliant_col before;
            change_reason_col := Some col;
            case_type_col := case_type_col before |}
    else if Py.contains "case type" (Py.lower col)
    then {| compliant_col := compliant_col before;
            change_reason_col := change_reason_col before;
            case_type_col := Some col |}
    else before.
Proof. unfold find_required_columns. simpl. by rewrite fold_left_app. Qed.

Lemma last_filter_snoc {A} (p : A -> bool) (l : list A) (x : A) :
  last (List.filter p (l ++ [x]))
  = if p x then Some x else last (List.filter p l).
Proof.
  rewrite List.filter_app. simpl. destruct (p x).
  - by rewrite last_snoc.
  - by rewrite app_nil_r.
Qed.

Lemma find_required_columns_last (df : Pd.DataFrame) (pattern : string) :
  compliant_col (find_required_columns df pattern)
  = last (List.filter (is_compliant_label pattern) (Pd.columns df))
  /\ change_reason_col (find_required_columns df pattern)
     = last (List.filter (is_change_reason_label pattern) (Pd.columns df))
  /\ case_type_col (find_required_columns df pattern)
     = last (List.filter (is_case_type_label pattern) (Pd.columns df)).
Proof.
  destruct df as [cols rows]. simpl.
  induction cols as [|col cols IH] using rev_ind.
  - done.
  - rewrite find_required_columns_snoc, !last_filter_snoc.
    destruct IH as (IH1 & IH2 & IH3).
    unfold is_change_reason_label, is_case_type_label, is_compliant_label in *.
    simpl.
    destruct (Py.contains pattern (Py.lower col)); simpl; [done|].
    destruct (Py.contains "incorrect change reason" (Py.lower col)); simpl; [done|].
    by destruct (Py.contains "case type" (Py.lower col)); simpl.
Qed.

(** X3. Each key of [find_required_columns] holds the last label that
    passes its test, if any: the compliance test first, then the
    change-reason test on the labels that fail it, then the case-type test
    on the labels that fail both. *)
Theorem find_required_columns_last_match (df : Pd.DataFrame) (pattern : string) :
  compliant_col (find_required_columns df pattern)
  = last (List.filter (is_compliant_label pattern) (Pd.columns df))
  /\ change_reason_col (find_required_columns df pattern)
     = last (List.filter (is_change_reason_label pattern) (Pd.columns df))
  /\ case_type_col (find_required_columns df pattern)
     = last (List.filter (is_case_type_label pattern) (Pd.columns df)).
Proof. apply find_required_columns_last. Qed.

Lemma last_filter_elem {A} (p : A -> bool) (l : list A) (x : A) :
  last (List.filter p l) = Some x -> x ∈ l /\ p x = true.
Proof.
  intros H. apply last_Some in H as [l' H].
  assert (Hin : In x (List.filter p l)).
  { rewrite H. apply in_or_app. right. by left. }
  apply filter_In in Hin as [Hin Hp]. split; [by apply list_elem_of_In|done].
Qed.

Lemma index_of_elem (col : string) (labels : list string) :
  col ∈ labels -> is_Some (Pd.index_of col labels).
Proof.
  induction labels as [|c labels IH]; intros Hin.
  - by apply elem_of_nil in Hin.
  - simpl. destruct (String.eqb c col) eqn:E; [by eexists|].
    apply String.eqb_neq in E.
    apply elem_of_cons in Hin as [->|Hin]; [done|].
    destruct (IH Hin) as [i ->]. by eexists.
Qed.

(** The columns that were found are columns of the frame. *)
Lemma find_required_columns_has_column (df : Pd.DataFrame) (pattern : string) :
  let columns := find_required_columns df pattern in
  (forall c, compliant_col columns = Some c -> has_column df c)
  /\ (forall c, change_reason_col columns = Some c -> has_column df c)
  /\ (forall c, case_type_col columns = Some c -> has_column df c).
Proof.
  destruct (find_required_columns_last df pattern) as (H1 & H2 & H3).
  simpl. rewrite H1, H2, H3.
  split; [|split]; intros c Hc; apply last_filter_elem in Hc as [Hc _];
    by apply index_of_elem.
Qed.

Lemma has_column_select (df : Pd.DataFrame) (mask : list bool) (col : string) :
  has_column df col -> has_column (Pd.select df mask) col.
Proof. done. Qed.

Lemma getitem_Ok (df : Pd.DataFrame) (col : string) :
  has_column df col ->
  Pd.getitem df (Some col)
  = Ok (map (fun row => nth (default 0 (Pd.index_of col (Pd.columns df))) row None)
            (Pd.rows df)).
Proof. intros [i Hi]. unfold Pd.getitem. by rewrite Hi. Qed.

Lemma compliance_rate_Ok (compliant_count total_count : Z) :
  exists v, compliance_rate compliant_count total_count = Ok v.
Proof.
  unfold compliance_rate. destruct (0 <? total_count)%Z eqn:E; [|by eexists].
  apply Z.ltb_lt in E.
  destruct (truediv_nonzero compliant_count total_count) as [f ->]; [lia|].
  by eexists.
Qed.

Lemma visit_calculated_Ok (filtered_df : Pd.DataFrame) (columns : RequiredColumns)
    (section_name row_type case_type c1 c3 : string) :
  compliant_col columns = Some c1 -> case_type_col columns = Some c3 ->
  has_column filtered_df c1 -> has_column filtered_df c3 ->
  exists v, visit_calculated filtered_df columns section_name row_type case_type = Ok v.
Proof.
  intros E1 E3 H1 H3. unfold visit_calculated.
  rewrite E1, E3, (getitem_Ok _ _ H1), (getitem_Ok _ _ H3), !res_bind_ok.
  destruct (String.eqb row_type "total"); [by eexists|].
  destruct (String.eqb row_type "compliant"); [by eexists|].
  destruct (String.eqb row_type "non_compliant"); [by eexists|].
  apply compliance_rate_Ok.
Qed.

Lemma missing_keys_nil (columns : RequiredColumns) :
  missing_keys columns = [] ->
  exists c1 c2 c3,
    compliant_col columns = Some c1 /\ change_reason_col columns = Some c2
    /\ case_type_col columns = Some c3.
Proof.
  unfold missing_keys.
  destruct (compliant_col columns), (change_reason_col columns),
    (case_type_col columns); try done.
  intros _. by eexists _, _, _.
Qed.

(** X4. On a report whose labels are distinct, once its three required
    columns have been found, the visit section never fails on a column: it
    returns, or it raises the [OverflowError] of a number that is too large
    to convert, which the [except (ValueError, TypeError)] of the
    comparison does not catch. *)
Theorem visit_section_found_columns (df : Pd.DataFrame) (pattern : string)
    (summary_df : SummarySheet) (start_row end_row : nat) (section_name : string) :
  distinct_labels df ->
  missing_keys (find_required_columns df pattern) = [] ->
  (exists results,
      verify_visit_section df (find_required_columns df pattern)
        summary_df start_row end_row section_name = Ok results)
  \/ (exists text,
         verify_visit_section df (find_required_columns df pattern)
           summary_df start_row end_row section_name = Raise (OverflowError text)).
Proof.
  intros _ Hm.
  destruct (missing_keys_nil _ Hm) as (c1 & c2 & c3 & E1 & E2 & E3).
  destruct (find_required_columns_has_column df pattern) as (H1 & H2 & H3).
  specialize (H1 _ E1). specialize (H2 _ E2). specialize (H3 _ E3).
  destruct (verify_visit_section _ _ _ _ _ _) as [r|e] eqn:Hrun; [left; by eexists|].
  right. revert Hrun. unfold verify_visit_section.
  rewrite E2, (filter_change_reason_no_rows _ _ H2), res_bind_ok.
  set (filtered_df := Pd.select df _).
  destruct (Pd.len filtered_df =? 0); [done|].
  intros Hrun.
  apply for_each_raises in Hrun as ([off rt] & s1 & _ & Hrun).
  apply for_each_raises in Hrun as ([letter [ct idx]] & s2 & _ & Hrun).
  apply bind_Raise in Hrun as [Hrun|(entry & _ & Hrun)]; [|done].
  unfold visit_cell in Hrun.
  destruct (visit_calculated_Ok filtered_df (find_required_columns df pattern)
              section_name rt ct c1 c3 E1 E3) as [v Hv].
  { by apply has_column_select. }
  { by apply has_column_select. }
  rewrite Hv, res_bind_ok in Hrun.
  apply bind_Raise in Hrun as [Hrun|(b & _ & Hrun)]; [|done].
  apply visit_match_raises in Hrun as [m ->]. by exists m.
Qed.

Lemma visit_section_found_columns_witness :
  distinct_labels sample_std1
  /\ missing_keys (find_required_columns sample_std1 "7 day private visit compliant") = []
  /\ ((exists results,
         verify_visit_section sample_std1
           (find_required_columns sample_std1 "7 day private visit compliant")
           sample_summary 2 5 "7-day" = Ok results)
      \/ (exists text,
            verify_visit_section sample_std1
              (find_required_columns sample_std1 "7 day private visit compliant")
              sample_summary 2 5 "7-day" = Raise (OverflowError text))).
Proof.
  assert (Hd : distinct_labels sample_std1).
  { unfold distinct_labels. apply (bool_decide_unpack _). vm_compute. exact I. }
  split; [exact Hd|]. split; [vm_compute; reflexivity|].
  apply visit_section_found_columns; [exact Hd|]. vm_compute. reflexivity.
Defined.

(** The visit section of a report whose summary block holds the text
    ["inf"] raises. *)
Example visit_section_infinite_cell :
  verify_visit_section sample_std1
    (find_required_columns sample_std1 "7 day private visit compliant")
    [[]; []; [SNaN; SText "inf"]] 2 5 "7-day"
  = Raise (OverflowError "cannot convert float infinity to integer").
Proof. vm_compute. reflexivity. Qed.

(** ** The visit sections *)

Lemma getitem_inv (df : Pd.DataFrame) (col : option string)
    (series : list (option string)) :
  Pd.getitem df col = Ok series ->
  exists c i, col = Some c /\ Pd.index_of c (Pd.columns df) = Some i
              /\ series = map (fun row => nth i row None) (Pd.rows df).
Proof.
  unfold Pd.getitem. destruct col as [c|]; [|done].
  destruct (Pd.index_of c (Pd.columns df)) as [i|] eqn:Hi; [|done].
  intros [= <-]. by exists c, i.
Qed.

Lemma for_each_snoc {A S} (l : list A) (x : A) (body : A -> S -> Res S) (s : S) :
  for_each (l ++ [x]) body s = (s' ← for_each l body s; body x s').
Proof.
  revert s. induction l as [|y l IH]; intros s; simpl.
  - by destruct (body x s).
  - destruct (body y s) as [s'|e]; simpl; [apply IH|done].
Qed.

Lemma visit_cell_is_cell (filtered_df : Pd.DataFrame) (columns : RequiredColumns)
    (summary_df : SummarySheet) (section_name row_type : string)
    (current_row : nat) (case_type : string) (col_index : nat) (entry : Entry) :
  visit_cell filtered_df columns summary_df section_name row_type current_row
    case_type col_index = Ok entry ->
  exists c, entry = Cell c.
Proof.
  unfold visit_cell. intros H.
  apply bind_Ok in H as (v & _ & H). apply bind_Ok in H as (b & _ & [= <-]).
  by eexists.
Qed.

(** The loops of a visit section end with the record of column E. *)
Lemma visit_loops_last (filtered_df : Pd.DataFrame) (columns : RequiredColumns)
    (summary_df : SummarySheet) (start_row : nat) (section_name : string)
    (results : Results) :
  for_each (enumerate row_types)
    (fun '(row_offset, row_type) results =>
       let current_row := start_row + row_offset in
       for_each case_types
         (fun '(col_letter, (case_type, col_index)) results =>
            entry ← visit_cell filtered_df columns summary_df section_name
                      row_type current_row case_type col_index;
            Ok (<[cell_name col_letter current_row := entry]> results))
         results)
    ∅ = Ok results ->
  exists c, results !! cell_name "E" (start_row + 3) = Some (Cell c).
Proof.
  change (enumerate row_types)
    with ([(0, "total"); (1, "compliant"); (2, "non_compliant")]
            ++ [(3, "compliance_rate")]).
  rewrite for_each_snoc. intros H.
  apply bind_Ok in H as (s1 & _ & H).
  change case_types
    with ([("B", ("child in care", 1)); ("C", ("adoption", 2));
           ("D", ("formal customary care", 3))] ++ [("E", ("kinship service", 4))]) in H.
  rewrite for_each_snoc in H.
  apply bind_Ok in H as (s2 & _ & H).
  apply bind_Ok in H as (entry & Hcell & [= <-]).
  apply visit_cell_is_cell in Hcell as [c ->].
  exists c. by rewrite lookup_insert_eq.
Qed.

Lemma select_rows_length {A} (p : A -> bool) (l : list A) :
  length (Pd.select_rows l (map p l)) = length (List.filter p l).
Proof. by rewrite select_rows_map. Qed.

Lemma filter_nil_iff {A} (p : A -> bool) (l : list A) :
  List.filter p l = [] <-> forall x, x ∈ l -> p x = false.
Proof.
  induction l as [|a l IH]; simpl.
  - split; [|done]. intros _ x Hx. by apply elem_of_nil in Hx.
  - destruct (p a) eqn:Ha.
    + split; [done|]. intros H. specialize (H a (list_elem_of_here _ _)). congruence.
    + rewrite IH. split.
      * intros H x Hx. apply elem_of_cons in Hx as [->|Hx]; auto.
      * intros H x Hx. apply H. by apply list_elem_of_further.
Qed.

(** X5. On a report whose labels are distinct, a visit section returns
    its error entry, and nothing else, exactly when no row of the report
    has the change reason "no" (in any letter case; an empty cell counts as
    the empty text). *)
Theorem visit_section_no_eligible_rows (df : Pd.DataFrame) (columns : RequiredColumns)
    (summary_df : SummarySheet) (start_row end_row : nat) (section_name : string)
    (series : list (option string)) :
  distinct_labels df ->
  Pd.getitem df (change_reason_col columns) = Ok series ->
  (verify_visit_section df columns summary_df start_row end_row section_name
   = Ok (no_records_entry section_name)
   <-> forall v, v ∈ series -> Py.lower (default "" v) <> "no").
Proof.
  intros _ Hget. unfold verify_visit_section, filter_change_reason_no.
  rewrite Hget, !res_bind_ok.
  apply getitem_inv in Hget as (c & i & _ & _ & ->).
  unfold Pd.len, Pd.select, Pd.eq, Pd.str_lower, Pd.fillna_str. simpl.
  rewrite !map_map, select_rows_length.
  set (p := fun row : list (option string) => String.eqb _ _).
  assert (Hnil : List.filter p (Pd.rows df) = []
                 <-> forall v, v ∈ map (fun row => nth i row None) (Pd.rows df) ->
                               Py.lower (default "" v) <> "no").
  { rewrite filter_nil_iff. split.
    - intros H v Hv. apply list_elem_of_fmap in Hv as (row & -> & Hrow).
      specialize (H row Hrow). unfold p in H. by apply String.eqb_neq in H.
    - intros H row Hrow. unfold p. apply String.eqb_neq. apply H.
      apply list_elem_of_fmap. by exists row. }
  rewrite <- Hnil.
  destruct (List.filter p (Pd.rows df)) as [|row rest] eqn:Hf; simpl.
  - done.
  - split; [|done]. intros H.
    apply visit_loops_last in H as (cell & H).
    unfold no_records_entry in H.
    apply lookup_singleton_Some in H as [_ H]. done.
Qed.

Lemma visit_section_no_eligible_rows_witness :
  let df := {| Pd.columns := ["Case Type"; "Incorrect Change Reason";
                              "7 Day Private Visit Compliant"];
               Pd.rows := [[Some "Adoption"; Some "Yes"; Some "Compliant"];
                           [Some "Adoption"; None; Some "Compliant"]] |} in
  let columns := find_required_columns df "7 day private visit compliant" in
  distinct_labels df
  /\ Pd.getitem df (change_reason_col columns) = Ok [Some "Yes"; None]
  /\ verify_visit_section df columns sample_summary 2 5 "7-day"
     = Ok (no_records_entry "7-day").
Proof.
  intros df columns.
  assert (Hd : distinct_labels df).
  { unfold distinct_labels. apply (bool_decide_unpack _). vm_compute. exact I. }
  split; [exact Hd|]. split; [vm_compute; reflexivity|].
  refine (proj2 (visit_section_no_eligible_rows _ _ _ _ _ _ [Some "Yes"; None] Hd _) _).
  - vm_compute. reflexivity.
  - intros v Hv. apply elem_of_cons in Hv as [->|Hv].
    + vm_compute. discriminate.
    + apply list_elem_of_singleton in Hv as ->. vm_compute. discriminate.
Defined.

(** *** The counts of a case type add up *)

Lemma length_filter_split {A} (p q r : A -> bool) (l : list A) :
  (forall x, p x = q x || r x) -> (forall x, q x && r x = false) ->
  length (List.filter p l) = length (List.filter q l) + length (List.filter r l).
Proof.
  intros Hp Hqr. induction l as [|x l IH]; simpl; [done|].
  specialize (Hqr x). rewrite (Hp x).
  destruct (q x), (r x); simpl in *; try done; lia.
Qed.

Lemma count_rows_map (df : Pd.DataFrame) (p : list (option string) -> bool) :
  count_rows df (map p (Pd.rows df)) = Z.of_nat (length (List.filter p (Pd.rows df))).
Proof. unfold count_rows, Pd.len, Pd.select. simpl. by rewrite select_rows_map. Qed.

Lemma status_exclusive (x a b : string) :
  a <> b -> String.eqb x a && String.eqb x b = false.
Proof.
  intros Hab. destruct (String.eqb_spec x a) as [->|]; [|done].
  simpl. by apply String.eqb_neq.
Qed.

Lemma visit_counts (filtered_df : Pd.DataFrame) (section_name : string)
    (case_mask : list (option string) -> bool) (status : list (option string) -> string) :
  let rows := Pd.rows filtered_df in
  let mask := fun f => Pd.and (map case_mask rows) (f (map status rows)) in
  count_rows filtered_df (mask (total_filter section_name))
  = (count_rows filtered_df (mask (fun data => Pd.eq data "Compliant"))
     + count_rows filtered_df (mask (non_compliant_filter section_name)))%Z.
Proof.
  simpl. unfold total_filter, non_compliant_filter, Pd.isin, Pd.eq.
  destruct (String.eqb section_name "90-day");
    rewrite !map_map, !and_map, !count_rows_map, <- Nat2Z.inj_add; f_equal;
    apply length_filter_split; intros row; unfold Py.mem; simpl;
    destruct (case_mask row); simpl; try done.
  - rewrite !orb_false_r, andb_orb_distrib_r.
    by rewrite !status_exclusive by done.
  - by rewrite !orb_false_r.
  - by rewrite status_exclusive by done.
Qed.

(** X6. For every case type of a visit section, the calculated total is
    the sum of the calculated compliant and non-compliant counts, in the
    90-day section (where "Incomplete" counts as non-compliant) as in the
    other two. *)
Theorem visit_counts_add_up (filtered_df : Pd.DataFrame) (columns : RequiredColumns)
    (section_name case_type : string) (total compliant non_compliant : PyNum) :
  visit_calculated filtered_df columns section_name "total" case_type = Ok total ->
  visit_calculated filtered_df columns section_name "compliant" case_type
  = Ok compliant ->
  visit_calculated filtered_df columns section_name "non_compliant" case_type
  = Ok non_compliant ->
  exists t c n : Z,
    total = PInt t /\ compliant = PInt c /\ non_compliant = PInt n
    /\ t = (c + n)%Z /\ (0 <= c)%Z /\ (0 <= n)%Z.
Proof.
  unfold visit_calculated. intros Ht Hc Hn.
  apply bind_Ok in Ht as (s3 & H3 & Ht). apply bind_Ok in Ht as (s1 & H1 & Ht).
  rewrite H3, H1, !res_bind_ok in Hc, Hn.
  simpl in Ht, Hc, Hn.
  injection Ht as <-. injection Hc as <-. injection Hn as <-.
  apply getitem_inv in H3 as (c3 & i3 & _ & _ & ->).
  apply getitem_inv in H1 as (c1 & i1 & _ & _ & ->).
  eexists _, _, _. split; [done|]. split; [done|]. split; [done|].
  unfold Pd.fillna_str. rewrite !map_map, case_filter_map.
  split; [|split].
  - apply (visit_counts filtered_df section_name
             (fun row => case_matches (default "" (nth i3 row None)) case_type)
             (fun row => default "" (nth i1 row None))).
  - unfold count_rows. lia.
  - unfold count_rows. lia.
Qed.

Lemma visit_counts_add_up_witness :
  let df := {| Pd.columns := ["Case Type"; "90 Day Visit Compliant"];
               Pd.rows := [[Some "Adoption"; Some "Compliant"];
                           [Some "Adoption"; Some "Incomplete"];
                           [Some "Adoption"; Some "Not Compliant"];
                           [Some "Adoption"; Some "Pending"]] |} in
  let columns := {| compliant_col := Some "90 Day Visit Compliant";
                    change_reason_col := None;
                    case_type_col := Some "Case Type" |} in
  visit_calculated df columns "90-day" "total" "adoption" = Ok (PInt 3)
  /\ exists t c n : Z,
       PInt 3 = PInt t /\ PInt 1 = PInt c /\ PInt 2 = PInt n
       /\ t = (c + n)%Z /\ (0 <= c)%Z /\ (0 <= n)%Z.
Proof.
  intros df columns. split; [vm_compute; reflexivity|].
  apply (visit_counts_add_up df columns "90-day" "adoption"); vm_compute; reflexivity.
Defined.

(** ** The two single-population sections *)

Lemma prefix_own_letter (c : ascii) (rest : string) :
  String.prefix (String c "") (String c rest) = true.
Proof. simpl. destruct (ascii_dec c c); [|done]. by destruct rest. Qed.

Lemma zero_outside_turn (own own_type : string) (own_index : nat)
    (calculated_value : PyNum) (summary_df : SummarySheet)
    (current_row col_index : nat) (section_name row_type_name report_name : string)
    (col_letter case_type : string) (entry : Entry) :
  (own, (own_type, own_index)) ∈ case_types ->
  (col_letter, (case_type, col_index)) ∈ case_types ->
  (case_type <> own_type -> calculated_value = PInt 0) ->
  int_cell calculated_value summary_df current_row col_index section_name
    row_type_name report_name = Ok entry ->
  zero_outside own (cell_name col_letter current_row) entry.
Proof.
  intros Hown Hin Hzero H. unfold int_cell in H.
  apply bind_Ok in H as (b & _ & [= <-]). simpl.
  intros Hp. apply Hzero. revert Hp. clear Hzero.
  unfold case_types in *. rewrite !elem_of_cons, !elem_of_nil in Hown, Hin.
  destruct Hown as [H|[H|[H|[H|[]]]]], Hin as [H'|[H'|[H'|[H'|[]]]]];
    injection H as -> -> ->; injection H' as -> -> ->;
    unfold cell_name; try done;
    (intros Hp; exfalso; revert Hp; apply not_false_iff_true, prefix_own_letter).
Qed.

Lemma information_calculated_other (std3_df : Pd.DataFrame) (columns_std3 : RequiredColumns)
    (case_type : string) (v : PyNum) :
  information_calculated std3_df columns_std3 case_type = Ok v ->
  case_type <> "formal customary care" -> v = PInt 0.
Proof.
  unfold information_calculated. intros H Hne.
  apply bind_Ok in H as (s3 & _ & H). apply bind_Ok in H as (s1 & _ & H).
  apply String.eqb_neq in Hne. rewrite Hne in H. by injection H as <-.
Qed.

Lemma kinship_calculated_other (std3_df : Pd.DataFrame) (columns_std3 : RequiredColumns)
    (placement_col case_type : string) (v : PyNum) :
  kinship_calculated std3_df columns_std3 placement_col case_type = Ok v ->
  case_type <> "kinship service" -> v = PInt 0.
Proof.
  unfold kinship_calculated. intros H Hne.
  apply bind_Ok in H as (s3 & _ & H). apply bind_Ok in H as (s2 & _ & H).
  apply bind_Ok in H as (s1 & _ & H). apply bind_Ok in H as (s4 & _ & H).
  apply String.eqb_neq in Hne. rewrite Hne in H. by injection H as <-.
Qed.

(** X7. The two single-population sections count one case type only: in
    the For Information Only section every record outside column D (formal
    customary care) has calculated value 0, and in the Kinship Service
    Cases section every record outside column E (kinship service) has,
    whatever rows the 90-day report holds. *)
Theorem single_population_sections (summary_df : SummarySheet) :
  (forall std3_df columns_std3 start_row results,
      verify_information_only_section std3_df columns_std3 summary_df start_row
      = Ok results ->
      map_Forall (zero_outside "D") results)
  /\ (forall std3_df columns_std3 start_row results,
        verify_kinship_service_cases_section std3_df columns_std3 summary_df start_row
        = Ok results ->
        map_Forall (zero_outside "E") results).
Proof.
  split.
  - intros std3_df c3 start_row results. unfold verify_information_only_section.
    apply for_each_invariant; [apply map_Forall_empty|].
    intros [col_letter [case_type col_index]] r3 r4 Hin Hr3 H.
    apply bind_Ok in H as (calculated_value & Hv & H). revert H.
    apply insert_turn; [done|]. intros entry.
    apply zero_outside_turn
      with (own_type := "formal customary care") (own_index := 3) (case_type := case_type);
      [|done|].
    + unfold case_types. apply list_elem_of_In. simpl. tauto.
    + intros Hne. by eapply information_calculated_other.
  - intros std3_df c3 start_row results. unfold verify_kinship_service_cases_section.
    destruct (find_primary_placement_column std3_df) as [p|];
      [|intros [= <-]; by apply singleton_message].
    apply for_each_invariant; [apply map_Forall_empty|].
    intros [col_letter [case_type col_index]] r3 r4 Hin Hr3 H.
    apply bind_Ok in H as (calculated_value & Hv & H). revert H.
    apply insert_turn; [done|]. intros entry.
    apply zero_outside_turn
      with (own_type := "kinship service") (own_index := 4) (case_type := case_type);
      [|done|].
    + unfold case_types. apply list_elem_of_In. simpl. tauto.
    + intros Hne. by eapply kinship_calculated_other.
Qed.

Lemma single_population_sections_witness :
  exists results,
    verify_kinship_service_cases_section sample_std3
      (find_required_columns sample_std3 "90 day visit compliant") sample_summary 36
    = Ok results
    /\ is_Some (results !! "B37")
    /\ map_Forall (zero_outside "E") results.
Proof.
  destruct (verify_kinship_service_cases_section sample_std3
              (find_required_columns sample_std3 "90 day visit compliant")
              sample_summary 36) as [results|e] eqn:H; [|vm_compute in H; discriminate].
  exists results. split; [done|]. split.
  - revert H. vm_compute. intros [= <-]. by eexists.
  - exact (proj2 (single_population_sections sample_summary) _ _ _ _ H).
Defined.

(** ** The summary field comparator *)

Lemma summary_loop_nil (dc vc : list string) (idx : list nat)
    (st : list string * list SummaryReport.Detail) :
  fst (fold_left (SummaryReport.compare_step dc vc) idx st) = []
  <-> fst st = [] /\ forall i, i ∈ idx -> nth i dc "" = nth i vc "".
Proof.
  revert st. induction idx as [|i idx IH]; intros st; simpl.
  - split; [|by intros [? _]]. intros H. split; [done|].
    intros i Hi. by apply elem_of_nil in Hi.
  - rewrite IH. unfold SummaryReport.compare_step.
    destruct (String.eqb (nth i dc "") (nth i vc "")) eqn:E; simpl.
    + apply String.eqb_eq in E. split.
      * intros [Hs H]. split; [done|]. intros j Hj.
        apply elem_of_cons in Hj as [->|Hj]; auto.
      * intros [Hs H]. split; [done|]. intros j Hj. apply H.
        by apply list_elem_of_further.
    + apply String.eqb_neq in E. split.
      * intros [Hs _]. by apply app_eq_nil in Hs as [_ ?].
      * intros [_ H]. exfalso. apply E, H. apply list_elem_of_here.
Qed.

Lemma summary_compare_fields_nil (dc vc : list string) :
  fst (SummaryReport.compare_fields dc vc) = [] <-> dc = vc.
Proof.
  unfold SummaryReport.compare_fields.
  destruct (length dc =? length vc) eqn:El; simpl.
  - apply Nat.eqb_eq in El. rewrite summary_loop_nil. split.
    + intros [_ H]. apply (nth_ext _ _ "" ""); [done|].
      intros i Hi. apply H, list_elem_of_In, in_seq. lia.
    + by intros ->.
  - apply Nat.eqb_neq in El. split.
    + intros H. by apply app_eq_nil in H as [_ ?].
    + intros ->. done.
Qed.

Lemma summary_compare_result_passed (dc vc : list string) :
  SummaryReport.passed (SummaryReport.compare_result dc vc) = true <-> dc = vc.
Proof.
  rewrite <- summary_compare_fields_nil. unfold SummaryReport.compare_result.
  destruct (SummaryReport.compare_fields dc vc) as [[|m ms] ds]; simpl; by split.
Qed.

(** X8. The summary field comparison passes exactly when the fields of
    sheet "Summary Report" of the design spec and of sheet "Summary Total"
    of the verification report can both be read and are the same, in the
    same order. *)
Theorem summary_pass_iff_same_fields (design_spec verification : Document) :
  (exists r, SummaryReport.test_summary_report design_spec verification = Ok r
             /\ SummaryReport.passed r = true)
  <-> (exists fields,
          SummaryReport.read_fields design_spec "Summary Report" = Ok fields
          /\ SummaryReport.read_fields verification "Summary Total" = Ok fields).
Proof.
  unfold SummaryReport.test_summary_report.
  destruct (SummaryReport.read_fields design_spec "Summary Report") as [dc|e]; simpl.
  - destruct (SummaryReport.read_fields verification "Summary Total") as [vc|e]; simpl.
    + split.
      * intros (r & [= <-] & Hp). apply summary_compare_result_passed in Hp as ->.
        by exists vc.
      * intros (labels & [= ->] & [= ->]).
        eexists. split; [done|]. by apply summary_compare_result_passed.
    + split.
      * by intros (r & [= <-] & Hp).
      * by intros (labels & _ & ?).
  - split.
    + by intros (r & [= <-] & Hp).
    + by intros (labels & ? & _).
Qed.

Lemma ncols_app (g more : Grid) :
  SummaryReport.ncols g <> 0 -> SummaryReport.ncols (g ++ more) <> 0.
Proof.
  unfold SummaryReport.ncols. induction g as [|row g IH]; simpl; [done|].
  intros H. destruct (length row); simpl in *; [auto|lia].
Qed.

Lemma iloc_column_A_app (g more : Grid) :
  37 <= length g -> SummaryReport.ncols g <> 0 ->
  SummaryReport.iloc_column_A (g ++ more) = SummaryReport.iloc_column_A g.
Proof.
  intros Hlen Hn. unfold SummaryReport.iloc_column_A.
  pose proof (ncols_app g more Hn) as Hn'.
  apply Nat.eqb_neq in Hn, Hn'. rewrite Hn, Hn'.
  by rewrite take_app_le.
Qed.

Lemma read_fields_insert (path name : string) (sheets : gmap string Grid) (g : Grid) :
  SummaryReport.read_fields
    {| doc_path := path; doc_sheets := Some (<[name := g]> sheets) |} name
  = (series ← SummaryReport.iloc_column_A g; Ok (labels_of_row series)).
Proof.
  unfold SummaryReport.read_fields, read_excel. simpl.
  by rewrite lookup_insert_eq.
Qed.

(** X9. The summary field comparison looks at the first 37 rows only:
    rows added below row 37 of either sheet leave the result unchanged. *)
Theorem summary_compares_first_37_rows
    (design_path verification_path : string)
    (design_sheets verification_sheets : gmap string Grid)
    (design_rows design_more verification_rows verification_more : Grid) :
  37 <= length design_rows -> SummaryReport.ncols design_rows <> 0 ->
  37 <= length verification_rows -> SummaryReport.ncols verification_rows <> 0 ->
  SummaryReport.test_summary_report
    {| doc_path := design_path;
       doc_sheets := Some (<["Summary Report" := design_rows ++ design_more]>
                             design_sheets) |}
    {| doc_path := verification_path;
       doc_sheets := Some (<["Summary Total" := verification_rows ++ verification_more]>
                             verification_sheets) |}
  = SummaryReport.test_summary_report
      {| doc_path := design_path;
         doc_sheets := Some (<["Summary Report" := design_rows]> design_sheets) |}
      {| doc_path := verification_path;
         doc_sheets := Some (<["Summary Total" := verification_rows]>
                               verification_sheets) |}.
Proof.
  intros H1 H2 H3 H4. unfold SummaryReport.test_summary_report.
  rewrite !read_fields_insert.
  by rewrite !iloc_column_A_app.
Qed.

Lemma summary_compares_first_37_rows_witness :
  let rows := repeat [Some "Field"] 37 in
  SummaryReport.test_summary_report
    {| doc_path := "design.xlsx";
       doc_sheets := Some (<["Summary Report" := rows ++ [[Some "Note"]]]> ∅) |}
    {| doc_path := "report.xlsx";
       doc_sheets := Some (<["Summary Total" := rows ++ [[Some "Other"]]]> ∅) |}
  = SummaryReport.test_summary_report
      {| doc_path := "design.xlsx";
         doc_sheets := Some (<["Summary Report" := rows]> ∅) |}
      {| doc_path := "report.xlsx";
         doc_sheets := Some (<["Summary Total" := rows]> ∅) |}.
Proof.
  intros rows.
  apply summary_compares_first_37_rows; unfold rows;
    first [rewrite repeat_length; lia | vm_compute; discriminate].
Defined.

(** The two sheets of the witness pass, whatever stands in row 38. *)
Example summary_row_38_ignored :
  exists r,
    SummaryReport.test_summary_report
      {| doc_path := "design.xlsx";
         doc_sheets :=
           Some (<["Summary Report" := repeat [Some "Field"] 37 ++ [[Some "Note"]]]> ∅) |}
      {| doc_path := "report.xlsx";
         doc_sheets :=
           Some (<["Summary Total" := repeat [Some "Field"] 37 ++ [[Some "Other"]]]> ∅) |}
    = Ok r
    /\ SummaryReport.passed r = true.
Proof. eexists. split; vm_compute; reflexivity. Qed.

Lemma read_fields_raises (doc : Document) (sheet_name : string) :
  raises (SummaryReport.read_fields doc sheet_name) <-> cannot_read_fields doc sheet_name.
Proof.
  unfold SummaryReport.read_fields, read_excel, cannot_read_fields, raises.
  destruct (doc_sheets doc) as [sheets|]; simpl; [|split; [done|by eexists]].
  destruct (sheets !! sheet_name) as [g|]; simpl; [|split; [done|by eexists]].
  unfold SummaryReport.iloc_column_A.
  destruct (SummaryReport.ncols g =? 0) eqn:E; simpl.
  - apply Nat.eqb_eq in E. split; [done|by eexists].
  - apply Nat.eqb_neq in E. split; [by intros [e ?]|done].
Qed.

(** X10. The summary field comparison always returns a result. It
    returns the error result, which passes nothing and records nothing,
    exactly when column A of one of the two sheets cannot be read: the file
    cannot be opened, the sheet is missing, or the sheet has no column. A
    sheet with fewer than 37 rows is no error. *)
Theorem summary_read_failure (design_spec verification : Document) :
  (exists r, SummaryReport.test_summary_report design_spec verification = Ok r)
  /\ ((exists e, SummaryReport.test_summary_report design_spec verification
                 = Ok (SummaryReport.read_error_result e))
      <-> cannot_read_fields design_spec "Summary Report"
          \/ cannot_read_fields verification "Summary Total").
Proof.
  rewrite <- !read_fields_raises. unfold SummaryReport.test_summary_report, raises.
  destruct (SummaryReport.read_fields design_spec "Summary Report") as [dc|e1]; simpl.
  - destruct (SummaryReport.read_fields verification "Summary Total") as [vc|e2]; simpl.
    + split; [by eexists|]. split.
      * intros (e & [= H]). exfalso. revert H.
        unfold SummaryReport.compare_result, SummaryReport.read_error_result.
        destruct (SummaryReport.compare_fields dc vc) as [[|m ms] ds]; simpl;
          discriminate.
      * by intros [[e ?]|[e ?]].
    + split; [by eexists|]. split; [|by eexists]. intros _. right. by eexists.
  - split; [by eexists|]. split; [|by eexists]. intros _. left. by eexists.
Qed.

(** A sheet with three rows is read without error. *)
Example summary_short_sheet :
  SummaryReport.read_fields
    {| doc_path := "design.xlsx";
       doc_sheets := Some {[ "Summary Report" := [[Some " Total "]; []; [Some "Rate"]] ]} |}
    "Summary Report"
  = Ok ["Total"; "Rate"].
Proof. vm_compute. reflexivity. Qed.

(** ** The verdict on the summary sheet *)

Lemma digits_no_error (d : Decimal.uint) :
  Py.contains "error" (NilEmpty.string_of_uint d) = false.
Proof. induction d; simpl; done. Qed.

Lemma str_nat_no_error (n : nat) : Py.contains "error" (Py.str_nat n) = false.
Proof.
  unfold Py.str_nat, NilZero.string_of_uint.
  destruct (Nat.to_uint n) eqn:E; try done; rewrite <- E; apply digits_no_error.
Qed.

Lemma cell_name_not_error (col_letter : string) (current_row : nat) :
  col_letter ∈ ["B"; "C"; "D"; "E"] ->
  is_error_key (cell_name col_letter current_row) = false.
Proof.
  rewrite !elem_of_cons, elem_of_nil. unfold is_error_key, cell_name.
  intros [->|[->|[->|[->|[]]]]]; simpl; apply str_nat_no_error.
Qed.

Lemma from_section_run_entry (name error_key k : string) (e : Entry) :
  is_error_key error_key = true -> from_section name error_key k e -> run_entry k e.
Proof.
  intros Hkey. destruct e as [c|text]; simpl.
  - by intros [_ H].
  - by intros ->.
Qed.

Lemma merge_results_Forall (P : string -> Entry -> Prop) (l : list Results) :
  Forall (map_Forall P) l -> map_Forall P (merge_results l).
Proof.
  intros Hl k e H. apply merge_results_lookup in H as (d & Hin & H).
  rewrite Forall_forall in Hl. by apply (Hl d Hin k e).
Qed.

(** Every entry of a run stands under a key of its kind. *)
Lemma run_entries (file : ReportFile) :
  map_Forall run_entry (verify_summary_total_counts file).
Proof.
  unfold verify_summary_total_counts.
  destruct (verify_summary_total_counts_body file) as [results|e] eqn:Hbody;
    [|by apply map_Forall_singleton].
  revert Hbody. unfold verify_summary_total_counts_body. intros H.
  apply bind_Ok in H as (std1_df & _ & H). apply bind_Ok in H as (std2_df & _ & H).
  apply bind_Ok in H as (std3_df & _ & H).
  destruct (check_required_cases
              [("Standard 1", find_required_columns std1_df "7 day private visit compliant");
               ("Standard 2", find_required_columns std2_df "30 day private visit compliant");
               ("Standard 3", find_required_columns std3_df "90 day visit compliant")])
    as [Hreq|(n & m & Hreq)]; rewrite Hreq in H.
  2:{ injection H as <-. by apply map_Forall_singleton. }
  apply bind_Ok in H as (summary_df & _ & H).
  apply bind_Ok in H as (r7 & H7 & H). apply bind_Ok in H as (r30 & H30 & H).
  apply bind_Ok in H as (r90 & H90 & H). apply bind_Ok in H as (rw & Hw & H).
  apply bind_Ok in H as (rs & Hs & H). apply bind_Ok in H as (rd & Hd & H).
  apply bind_Ok in H as (ri & Hi & H). apply bind_Ok in H as (rk & Hk & [= <-]).
  apply verify_visit_section_from in H7, H30, H90.
  apply verify_whereabouts_unknown_section_from in Hw.
  apply verify_exclusion_service_ended_section_from in Hs.
  apply (verify_exclusion_data_entry_section_from _ _ _ _ _ _ _ _ _ "error") in Hd.
  apply (verify_information_only_section_from _ _ _ _ "error") in Hi.
  apply verify_kinship_service_cases_section_from in Hk.
  assert (Hkey : forall name error_key (d : Results),
             is_error_key error_key = true ->
             map_Forall (from_section name error_key) d -> map_Forall run_entry d).
  { intros name error_key d Hek Hfrom k e He.
    by apply (from_section_run_entry name error_key), Hfrom. }
  apply merge_results_Forall.
  apply Forall_cons; split; [refine (Hkey _ _ _ _ H7); reflexivity|].
  apply Forall_cons; split; [refine (Hkey _ _ _ _ H30); reflexivity|].
  apply Forall_cons; split; [refine (Hkey _ _ _ _ H90); reflexivity|].
  apply Forall_cons; split; [refine (Hkey _ _ _ _ Hw); reflexivity|].
  apply Forall_cons; split; [refine (Hkey _ _ _ _ Hs); reflexivity|].
  apply Forall_cons; split; [refine (Hkey _ _ _ _ Hd); reflexivity|].
  apply Forall_cons; split; [refine (Hkey _ _ _ _ Hi); reflexivity|].
  apply Forall_cons; split; [refine (Hkey _ _ _ _ Hk); reflexivity|].
  by apply Forall_nil.
Qed.

Lemma filter_error_keys_lookup (results : Results) (k : string) (e : Entry) :
  (if size (filter (fun kv : string * Entry => is_error_key kv.1 = true) results) =? 0
   then results
   else filter (fun kv : string * Entry => is_error_key kv.1 = false) results) !! k
  = Some e
  <-> results !! k = Some e /\ is_error_key k = false.
Proof.
  destruct (size _ =? 0) eqn:E.
  - apply Nat.eqb_eq, map_size_empty_iff in E. split; [|by intros [? _]].
    intros H. split; [done|].
    destruct (is_error_key k) eqn:Hk; [|done].
    assert (Hin : filter (fun kv : string * Entry => is_error_key kv.1 = true) results !! k
                  = Some e) by by apply map_lookup_filter_Some.
    by rewrite E, lookup_empty in Hin.
  - by rewrite map_lookup_filter_Some.
Qed.

Lemma valid_results_elem (results : Results) (c : CellResult) :
  c ∈ omap cell_of (map_to_list results).*2 <-> exists k, results !! k = Some (Cell c).
Proof.
  rewrite list_elem_of_omap. split.
  - intros (e & He & Hc). apply list_elem_of_fmap in He as ([k e'] & -> & He).
    apply elem_of_map_to_list in He. destruct e' as [c'|]; [|done].
    injection Hc as ->. by exists k.
  - intros (k & Hk). exists (Cell c). split; [|done].
    apply list_elem_of_fmap. exists (k, Cell c). split; [done|].
    by apply elem_of_map_to_list.
Qed.

Lemma sheet_verdict_cases (file : ReportFile) :
  let results := verify_summary_total_counts file in
  verify_complete_summary_sheet file <> RaisesAttributeError
  /\ (verify_complete_summary_sheet file = Returns true
      <-> results !! "error" = None
          /\ (exists k c, results !! k = Some (Cell c))
          /\ (forall k c, results !! k = Some (Cell c) -> match_ c = true)).
Proof.
  intros results. unfold verify_complete_summary_sheet. fold results.
  pose proof (run_entries file) as Hrun. fold results in Hrun.
  destruct (bool_decide (is_Some (results !! "error"))) eqn:Herr.
  { apply bool_decide_eq_true in Herr as [e He].
    split; [done|]. split; [done|]. intros [Hnone _]. congruence. }
  apply bool_decide_eq_false in Herr.
  assert (Hnone : results !! "error" = None).
  { destruct (results !! "error") eqn:E; [|done]. exfalso. apply Herr. by eexists. }
  pose proof (filter_error_keys_lookup results) as Hlook.
  set (filtered := if size _ =? 0 then results else _) in *.
  assert (Hcell : forall k c, results !! k = Some (Cell c) <-> filtered !! k = Some (Cell c)).
  { intros k c. rewrite Hlook. split; [|by intros [? _]].
    intros H. split; [done|].
    destruct (Hrun _ _ H) as (letter & row & Hin & ->).
    by apply cell_name_not_error. }
  assert (Hall : forall k e, filtered !! k = Some e -> is_text e = false).
  { intros k e H. apply Hlook in H as [H Hk]. destruct e as [c|text]; [done|].
    apply Hrun in H. simpl in H. congruence. }
  destruct (size filtered =? 0) eqn:Esize.
  { apply Nat.eqb_eq, map_size_empty_iff in Esize.
    split; [done|]. split; [done|]. intros (_ & (k & c & H) & _).
    apply Hcell in H. by rewrite Esize, lookup_empty in H. }
  assert (Htext : existsb is_text (map_to_list filtered).*2 = false).
  { destruct (existsb is_text (map_to_list filtered).*2) eqn:E; [|done].
    apply existsb_exists in E as (e & He & Ht).
    apply list_elem_of_In, list_elem_of_fmap in He as ([k e'] & -> & He).
    apply elem_of_map_to_list in He. apply Hall in He. simpl in *. congruence. }
  rewrite Htext.
  pose proof (valid_results_elem filtered) as Hvalid.
  destruct (omap cell_of (map_to_list filtered).*2) as [|c0 cells] eqn:Ecells.
  { split; [done|]. split; [done|]. intros (_ & (k & c & H) & _).
    apply Hcell in H. assert (Hc : c ∈ @nil CellResult) by (apply Hvalid; eauto).
    by apply elem_of_nil in Hc. }
  split; [done|]. split.
  - intros [= Hf]. change (forallb match_ (c0 :: cells) = true) in Hf.
    split; [done|]. split.
    + destruct (proj1 (Hvalid c0) (list_elem_of_here _ _)) as [k Hk].
      exists k, c0. by apply Hcell.
    + intros k c H. apply Hcell in H.
      rewrite forallb_forall in Hf. apply Hf, list_elem_of_In, Hvalid. eauto.
  - intros (_ & _ & Hm). f_equal. apply forallb_forall.
    intros c Hc. apply list_elem_of_In, Hvalid in Hc as [k Hk].
    apply (Hm k). by apply Hcell.
Qed.

(** X11. [verify_complete_summary_sheet] never fails on an entry of the
    run: once the keys that contain "error" are dropped, every entry left
    is a cell record. It returns True exactly when the run has no entry
    ["error"], has at least one cell record, and every cell record has its
    match flag set; the error entry of a single section does not make it
    return False. *)
Theorem sheet_verdict (file : ReportFile) :
  verify_complete_summary_sheet file <> RaisesAttributeError
  /\ (verify_complete_summary_sheet file = Returns true
      <-> verify_summary_total_counts file !! "error" = None
          /\ (exists k c, verify_summary_total_counts file !! k = Some (Cell c))
          /\ (forall k c, verify_summary_total_counts file !! k = Some (Cell c) ->
                          match_ c = true)).
Proof. apply sheet_verdict_cases. Qed.


(** ** The cells of a run *)

Lemma for_each_dom {A} (K : A -> gset string) (l : list A)
    (body : A -> Results -> Res Results) (s r : Results) :
  (forall x s1 s2, x ∈ l -> body x s1 = Ok s2 -> dom s2 = K x ∪ dom s1) ->
  for_each l body s = Ok r -> dom r = ⋃ map K l ∪ dom s.
Proof.
  revert s. induction l as [|x l IH]; intros s Hbody; simpl.
  - intros [= <-]. by rewrite (left_id_L ∅ (∪)).
  - intros H. apply bind_Ok in H as (s' & Hx & H).
    apply IH in H.
    + rewrite H, (Hbody x s s'); [|apply list_elem_of_here|done].
      by rewrite (assoc_L (∪)), (comm_L (∪) (⋃ map K l) (K x)).
    + intros y s1 s2 Hy. apply Hbody. by apply list_elem_of_further.
Qed.

Lemma insert_turn_dom (cell : Res Entry) (key : string) (results results' : Results) :
  (entry ← cell; Ok (<[key := entry]> results)) = Ok results' ->
  dom results' = {[ key ]} ∪ dom results.
Proof.
  intros H. apply bind_Ok in H as (entry & _ & [= <-]). by rewrite dom_insert_L.
Qed.

(** One row of a section: the inner loop over the case types. *)
Lemma row_loop_dom (body : string * (string * nat) -> Results -> Res Results)
    (current_row : nat) (s r : Results) :
  (forall t s1 s2, body t s1 = Ok s2 ->
                   dom s2 = {[ cell_name t.1 current_row ]} ∪ dom s1) ->
  for_each case_types body s = Ok r ->
  dom r = row_keys current_row ∪ dom s.
Proof.
  intros Hbody H.
  apply (for_each_dom (fun t => {[ cell_name t.1 current_row ]})) in H.
  - by rewrite H.
  - intros t s1 s2 _. apply Hbody.
Qed.

Lemma visit_section_dom (df : Pd.DataFrame) (columns : RequiredColumns)
    (summary_df : SummarySheet) (start_row end_row : nat) (section_name : string)
    (results : Results) :
  verify_visit_section df columns summary_df start_row end_row section_name
  = Ok results ->
  results = no_records_entry section_name \/ dom results = block_keys start_row 4.
Proof.
  unfold verify_visit_section. intros H.
  apply bind_Ok in H as (filtered_df & _ & H).
  destruct (Pd.len filtered_df =? 0); [left; by injection H|right].
  apply (for_each_dom (fun t => row_keys (start_row + t.1))) in H.
  - rewrite H, dom_empty_L. apply (right_id_L ∅ (∪)).
  - intros [off rt] s1 s2 _ Hrow.
    apply (row_loop_dom _ (start_row + off)) in Hrow; [done|].
    intros [letter [ct idx]] s3 s4. apply insert_turn_dom.
Qed.

Lemma calculated_turn_dom (calculated_value : Res PyNum) (cell : PyNum -> Res Entry)
    (key : string) (results results' : Results) :
  (v ← calculated_value; entry ← cell v; Ok (<[key := entry]> results)) = Ok results' ->
  dom results' = {[ key ]} ∪ dom results.
Proof.
  intros H. apply bind_Ok in H as (v & _ & H). by apply insert_turn_dom in H.
Qed.

Lemma whereabouts_section_dom (std1_df std2_df std3_df : Pd.DataFrame)
    (c1 c2 c3 : RequiredColumns) (summary_df : SummarySheet) (start_row end_row : nat)
    (results : Results) :
  verify_whereabouts_unknown_section std1_df std2_df std3_df c1 c2 c3
    summary_df start_row end_row = Ok results ->
  (exists text, results = {[ "whereabouts_error" := Message text ]})
  \/ dom results = block_keys start_row 3.
Proof.
  unfold verify_whereabouts_unknown_section.
  destruct (find_primary_placement_column std1_df) as [p1|];
    [|intros [= <-]; left; by eexists].
  destruct (find_primary_placement_column std2_df) as [p2|];
    [|intros [= <-]; left; by eexists].
  destruct (find_primary_placement_column std3_df) as [p3|];
    [|intros [= <-]; left; by eexists].
  intros H. right.
  apply (for_each_dom (fun t => row_keys (start_row + t.1))) in H.
  - rewrite H, dom_empty_L. apply (right_id_L ∅ (∪)).
  - intros [off [[report_df columns] report_name]] s1 s2 _ Hrow.
    apply (row_loop_dom _ (start_row + off)) in Hrow; [done|].
    intros [letter [ct idx]] s3 s4. apply calculated_turn_dom.
Qed.

Lemma service_ended_section_dom (std1_df std2_df std3_df : Pd.DataFrame)
    (summary_df : SummarySheet) (start_row end_row : nat) (results : Results) :
  verify_exclusion_service_ended_section std1_df std2_df std3_df
    summary_df start_row end_row = Ok results ->
  (exists text, results = {[ "exclusion_error" := Message text ]})
  \/ dom results = block_keys start_row 3.
Proof.
  unfold verify_exclusion_service_ended_section.
  destruct (find_exclusion_column std1_df "7 day") as [p1|];
    [|intros [= <-]; left; by eexists].
  destruct (find_exclusion_column std2_df "30 day") as [p2|];
    [|intros [= <-]; left; by eexists].
  destruct (find_exclusion_column std3_df "90 day") as [p3|];
    [|intros [= <-]; left; by eexists].
  intros H. right.
  apply (for_each_dom (fun t => row_keys (start_row + t.1))) in H.
  - rewrite H, dom_empty_L. apply (right_id_L ∅ (∪)).
  - intros [off [[report_df exclusion_col] report_name]] s1 s2 _ Hrow.
    apply (row_loop_dom _ (start_row + off)) in Hrow; [done|].
    intros [letter [ct idx]] s3 s4. apply calculated_turn_dom.
Qed.

Lemma data_entry_section_dom (std1_df std2_df std3_df : Pd.DataFrame)
    (c1 c2 c3 : RequiredColumns) (summary_df : SummarySheet) (start_row end_row : nat)
    (results : Results) :
  verify_exclusion_data_entry_section std1_df std2_df std3_df c1 c2 c3
    summary_df start_row end_row = Ok results ->
  dom results = block_keys start_row 3.
Proof.
  unfold verify_exclusion_data_entry_section. intros H.
  apply (for_each_dom (fun t => row_keys (start_row + t.1))) in H.
  - rewrite H, dom_empty_L. apply (right_id_L ∅ (∪)).
  - intros [off [[report_df columns] report_name]] s1 s2 _ Hrow.
    apply (row_loop_dom _ (start_row + off)) in Hrow; [done|].
    intros [letter [ct idx]] s3 s4. apply calculated_turn_dom.
Qed.

Lemma block_keys_1 (start_row : nat) : block_keys start_row 1 = row_keys start_row.
Proof.
  unfold block_keys. simpl. rewrite Nat.add_0_r. apply (right_id_L ∅ (∪)).
Qed.

Lemma information_section_dom (std3_df : Pd.DataFrame) (c3 : RequiredColumns)
    (summary_df : SummarySheet) (start_row : nat) (results : Results) :
  verify_information_only_section std3_df c3 summary_df start_row = Ok results ->
  dom results = block_keys start_row 1.
Proof.
  unfold verify_information_only_section. intros H.
  apply (row_loop_dom _ start_row) in H.
  - rewrite H, dom_empty_L, block_keys_1. apply (right_id_L ∅ (∪)).
  - intros [letter [ct idx]] s3 s4. apply calculated_turn_dom.
Qed.

Lemma kinship_section_dom (std3_df : Pd.DataFrame) (c3 : RequiredColumns)
    (summary_df : SummarySheet) (start_row : nat) (results : Results) :
  verify_kinship_service_cases_section std3_df c3 summary_df start_row = Ok results ->
  (exists text, results = {[ "kinship_error" := Message text ]})
  \/ dom results = block_keys start_row 1.
Proof.
  unfold verify_kinship_service_cases_section.
  destruct (find_primary_placement_column std3_df) as [p|];
    [|intros [= <-]; left; by eexists].
  intros H. right.
  apply (row_loop_dom _ start_row) in H.
  - rewrite H, dom_empty_L, block_keys_1. apply (right_id_L ∅ (∪)).
  - intros [letter [ct idx]] s3 s4. apply calculated_turn_dom.
Qed.

Lemma merge_fold_dom (l : list Results) (acc : Results) :
  dom (fold_left (fun acc d => d ∪ acc) l acc) = ⋃ map dom l ∪ dom acc.
Proof.
  revert acc. induction l as [|d l IH]; intros acc; simpl.
  - by rewrite (left_id_L ∅ (∪)).
  - rewrite IH, dom_union_L.
    by rewrite (assoc_L (∪)), (comm_L (∪) (⋃ map dom l) (dom d)).
Qed.

Lemma merge_results_dom (l : list Results) : dom (merge_results l) = ⋃ map dom l.
Proof.
  unfold merge_results. rewrite merge_fold_dom, dom_empty_L.
  apply (right_id_L ∅ (∪)).
Qed.

Lemma summary_cells_size : size summary_cells = 92.
Proof. vm_compute. reflexivity. Qed.

Lemma no_text_no_error_key (results : Results) :
  map_Forall run_entry results ->
  (forall k text, results !! k <> Some (Message text)) ->
  forall k, k ∈ dom results -> is_error_key k = false.
Proof.
  intros Hrun Hno k Hk. apply elem_of_dom in Hk as [e He].
  destruct e as [c|text]; [|by apply Hno in He].
  destruct (Hrun _ _ He) as (letter & row & Hin & ->).
  by apply cell_name_not_error.
Qed.

Lemma singleton_error_key (key : string) (e : Entry) (results : Results) :
  results = {[ key := e ]} ->
  is_error_key key = true ->
  (forall k, k ∈ dom results -> is_error_key k = false) -> False.
Proof.
  intros -> Hkey H. specialize (H key). rewrite dom_singleton_L in H.
  rewrite H in Hkey; [done|]. by apply elem_of_singleton.
Qed.

Lemma complete_run_dom (file : ReportFile) (results : Results) :
  verify_summary_total_counts_body file = Ok results ->
  (forall k text, results !! k <> Some (Message text)) ->
  dom results = summary_cells.
Proof.
  intros Hbody Hno.
  assert (Hrun : map_Forall run_entry results).
  { pose proof (run_entries file) as H. unfold verify_summary_total_counts in H.
    by rewrite Hbody in H. }
  pose proof (no_text_no_error_key _ Hrun Hno) as Hkeys. clear Hrun Hno.
  revert Hbody. unfold verify_summary_total_counts_body. intros H.
  apply bind_Ok in H as (std1_df & _ & H). apply bind_Ok in H as (std2_df & _ & H).
  apply bind_Ok in H as (std3_df & _ & H).
  destruct (check_required_cases
              [("Standard 1", find_required_columns std1_df "7 day private visit compliant");
               ("Standard 2", find_required_columns std2_df "30 day private visit compliant");
               ("Standard 3", find_required_columns std3_df "90 day visit compliant")])
    as [Hreq|(n & m & Hreq)]; rewrite Hreq in H.
  2:{ injection H as <-. exfalso. by eapply (singleton_error_key "error" _ _ eq_refl eq_refl). }
  apply bind_Ok in H as (summary_df & _ & H).
  apply bind_Ok in H as (r7 & H7 & H). apply bind_Ok in H as (r30 & H30 & H).
  apply bind_Ok in H as (r90 & H90 & H). apply bind_Ok in H as (rw & Hw & H).
  apply bind_Ok in H as (rs & Hs & H). apply bind_Ok in H as (rd & Hd & H).
  apply bind_Ok in H as (ri & Hi & H). apply bind_Ok in H as (rk & Hk & [= <-]).
  rewrite merge_results_dom in Hkeys |- *.
  assert (Hsub : forall d : Results,
             d ∈ [r7; r30; r90; rw; rs; rd; ri; rk] ->
             forall k, k ∈ dom d -> is_error_key k = false).
  { intros d Hd' k Hk'. apply Hkeys. apply elem_of_union_list.
    exists (dom d). split; [|done]. apply list_elem_of_fmap. by exists d. }
  clear Hkeys.
  apply visit_section_dom in H7 as [H7|H7].
  { exfalso. eapply (singleton_error_key _ _ r7 H7); [reflexivity|]. apply Hsub.
    apply list_elem_of_In. simpl. tauto. }
  apply visit_section_dom in H30 as [H30|H30].
  { exfalso. eapply (singleton_error_key _ _ r30 H30); [reflexivity|]. apply Hsub.
    apply list_elem_of_In. simpl. tauto. }
  apply visit_section_dom in H90 as [H90|H90].
  { exfalso. eapply (singleton_error_key _ _ r90 H90); [reflexivity|]. apply Hsub.
    apply list_elem_of_In. simpl. tauto. }
  apply whereabouts_section_dom in Hw as [[text Hw]|Hw].
  { exfalso. eapply (singleton_error_key _ _ rw Hw); [reflexivity|]. apply Hsub.
    apply list_elem_of_In. simpl. tauto. }
  apply service_ended_section_dom in Hs as [[text Hs]|Hs].
  { exfalso. eapply (singleton_error_key _ _ rs Hs); [reflexivity|]. apply Hsub.
    apply list_elem_of_In. simpl. tauto. }
  apply data_entry_section_dom in Hd.
  apply information_section_dom in Hi.
  apply kinship_section_dom in Hk as [[text Hk]|Hk].
  { exfalso. eapply (singleton_error_key _ _ rk Hk); [reflexivity|]. apply Hsub.
    apply list_elem_of_In. simpl. tauto. }
  simpl. rewrite H7, H30, H90, Hw, Hs, Hd, Hi, Hk.
  vm_compute. reflexivity.
Qed.

(** X12. A run in which every section produced its cell records, so that
    no entry of the dictionary is a text, holds exactly the 92 cells of
    columns B to E in the eight blocks of the summary sheet: rows 3-6,
    8-11, 13-16, 19-21, 24-26, 29-31, 34 and 37. *)
Theorem complete_run_cells (file : ReportFile) (results : Results) :
  verify_summary_total_counts_body file = Ok results ->
  (forall k text, results !! k <> Some (Message text)) ->
  dom results = summary_cells /\ size results = 92.
Proof.
  intros Hbody Hno.
  pose proof (complete_run_dom file results Hbody Hno) as Hdom.
  split; [done|]. by rewrite <- size_dom, Hdom, summary_cells_size.
Qed.

(** A run that was computed to return cell records only. *)
Lemma cells_only_run (run : Res Results) :
  match run with
  | Ok results =>
      forallb (fun kv : string * Entry => negb (is_text kv.2)) (map_to_list results)
      = true
  | Raise _ => False
  end ->
  exists results,
    run = Ok results /\ forall k text, results !! k <> Some (Message text).
Proof.
  destruct run as [results|e]; [|done]. intros Hall.
  exists results. split; [done|]. intros k text Hk.
  rewrite forallb_forall in Hall.
  apply elem_of_map_to_list, list_elem_of_In, Hall in Hk. done.
Qed.

Lemma complete_run_cells_witness :
  exists results,
    verify_summary_total_counts_body (sample_file sample_std1 sample_std2 sample_std3)
    = Ok results
    /\ dom results = summary_cells /\ size results = 92.
Proof.
  destruct (cells_only_run
              (verify_summary_total_counts_body
                 (sample_file sample_std1 sample_std2 sample_std3)))
    as (results & H & Hno).
  { vm_compute. reflexivity. }
  exists results. split; [exact H|].
  exact (complete_run_cells _ _ H Hno).
Defined.

(** ** The correction guidance of the developer report *)

Lemma get_column_correction_verdict (v : Verdict) (expected actual : string) :
  get_column_correction (verdict_text v) expected actual
  = guidance_of (outcome_of v) expected actual.
Proof. destruct v; reflexivity. Qed.

Lemma compare_columns_elem (dc vc : list string) (d : Detail) :
  d ∈ snd (compare_columns dc vc) ->
  (is_count_mismatch d = true /\ error_type d = "Column count mismatch")
  \/ (is_count_mismatch d = false
      /\ error_type d = verdict_text (analyze_difference (design d) (verification d))).
Proof.
  rewrite compare_columns_spec. simpl. rewrite map_app, elem_of_app.
  intros [H|H].
  - right. apply positional_elem in H as (i & _ & _ & ->). done.
  - left. unfold count_discrepancy in H.
    destruct (length dc =? length vc); [by apply elem_of_nil in H|].
    apply list_elem_of_singleton in H as ->. done.
Qed.

(** X13. The guidance written beside a recorded column discrepancy is
    looked up under the text of the error type, and the texts the
    classifier returns for a space, case or spelling difference are not
    keys of that dictionary: for these three the guidance is the default
    "Review and correct: ...", never "Trim spaces", "Standardize case" or
    "Correct spelling". The other outcomes and the column count mismatch
    get the guidance of their own. *)
Theorem column_guidance_of_discrepancy (dc vc : list string) (d : Detail) :
  d ∈ snd (compare_columns dc vc) ->
  column_guidance d
  = if is_count_mismatch d
    then "Adjust number of columns to match design specification"
    else guidance_of (outcome_of (analyze_difference (design d) (verification d)))
                     (design d) (verification d).
Proof.
  intros H. unfold column_guidance.
  apply compare_columns_elem in H as [[-> ->]|[-> ->]]; [done|].
  apply get_column_correction_verdict.
Qed.

Lemma column_guidance_of_discrepancy_witness :
  let d := {| column_number := Col 1;
              design := "Case Owner  First Name";
              verification := "Case Owner First Name";
              error_type := "Space difference (extra/missing spaces)" |} in
  d ∈ snd (compare_columns ["Case Owner  First Name"] ["Case Owner First Name"])
  /\ column_guidance d
     = "Review and correct: 'Case Owner First Name' should be 'Case Owner  First Name'".
Proof.
  intros d.
  assert (Hd : d ∈ snd (compare_columns ["Case Owner  First Name"]
                                        ["Case Owner First Name"])).
  { vm_compute. apply list_elem_of_here. }
  split; [exact Hd|].
  rewrite (column_guidance_of_discrepancy _ _ d Hd). vm_compute. reflexivity.
Defined.

(** ** The first rules of the classifier *)

Lemma of_chars_chars (l : list ascii) : Py.chars (Py.of_chars l) = l.
Proof. apply list_ascii_of_string_of_list_ascii. Qed.

Lemma of_chars_nil (l : list ascii) : Py.of_chars l = "" -> l = [].
Proof. by destruct l. Qed.

Lemma split_chars_words (cur l : list ascii) :
  Forall (fun c => Py.isspace c = false) cur ->
  Forall is_word (Py.split_chars cur l).
Proof.
  revert cur. induction l as [|c l IH]; intros cur Hcur; simpl.
  - destruct cur as [|c0 cur]; [apply Forall_nil_2|].
    apply Forall_cons_2; [|apply Forall_nil_2]. split.
    + intros H. apply of_chars_nil in H. by destruct (app_cons_not_nil (rev cur) [] c0).
    + rewrite of_chars_chars. by apply Forall_rev.
  - destruct (Py.isspace c) eqn:Hc.
    + destruct cur as [|c0 cur]; [by apply IH|].
      apply Forall_cons_2; [|by apply IH]. split.
      * intros H. apply of_chars_nil in H.
        by destruct (app_cons_not_nil (rev cur) [] c0).
      * rewrite of_chars_chars. by apply Forall_rev.
    + apply IH. by apply Forall_cons_2.
Qed.

Lemma split_words (s : string) : Forall is_word (Py.split s).
Proof. apply split_chars_words, Forall_nil_2. Qed.

Lemma join_cons (w : string) (ws : list string) :
  Py.join " " (w :: ws) = w +:+ join_tail ws.
Proof.
  destruct ws as [|w' ws]; simpl; [|done].
  induction w as [|c w IH]; [done|].
  change (String c w = String c (w +:+ "")). by f_equal.
Qed.

Lemma append_nil_l (r : string) : "" +:+ r = r.
Proof. reflexivity. Qed.

Lemma append_cons (c : ascii) (w r : string) : String c w +:+ r = String c (w +:+ r).
Proof. reflexivity. Qed.

(** A word followed by nothing or by a space can be read back. *)
Lemma word_prefix_unique (w1 w2 r1 r2 : string) :
  Forall (fun c => Py.isspace c = false) (Py.chars w1) ->
  Forall (fun c => Py.isspace c = false) (Py.chars w2) ->
  (r1 = "" \/ exists t, r1 = String " " t) ->
  (r2 = "" \/ exists t, r2 = String " " t) ->
  w1 +:+ r1 = w2 +:+ r2 -> w1 = w2 /\ r1 = r2.
Proof.
  revert w2. induction w1 as [|c w1 IH]; intros w2 H1 H2 Hr1 Hr2.
  - destruct w2 as [|c2 w2]; rewrite ?append_nil_l, ?append_cons; [done|].
    intros ->. exfalso. destruct Hr1 as [Hr1|[t Hr1]]; [done|].
    injection Hr1 as -> _. apply Forall_cons in H2 as [H2 _].
    vm_compute in H2. discriminate.
  - destruct w2 as [|c2 w2]; rewrite ?append_nil_l, ?append_cons.
    + intros <-. exfalso. destruct Hr2 as [Hr2|[t Hr2]]; [done|].
      injection Hr2 as -> _. apply Forall_cons in H1 as [H1 _].
      vm_compute in H1. discriminate.
    + intros [= <- H]. apply Forall_cons in H1 as [_ H1].
      apply Forall_cons in H2 as [_ H2].
      destruct (IH w2 H1 H2 Hr1 Hr2 H) as [-> ->]. done.
Qed.

Lemma join_tail_shape (ws : list string) :
  join_tail ws = "" \/ exists t, join_tail ws = String " " t.
Proof. destruct ws; [by left|right]. by eexists. Qed.

Lemma join_words_inj (l1 l2 : list string) :
  Forall is_word l1 -> Forall is_word l2 ->
  Py.join " " l1 = Py.join " " l2 -> l1 = l2.
Proof.
  revert l2. induction l1 as [|w1 l1 IH]; intros l2 H1 H2.
  - destruct l2 as [|w2 l2]; [done|].
    rewrite join_cons. apply Forall_cons in H2 as [[Hw _] _].
    destruct w2; [done|]. rewrite append_cons. discriminate.
  - destruct l2 as [|w2 l2].
    + rewrite join_cons. apply Forall_cons in H1 as [[Hw _] _].
      destruct w1; [done|]. rewrite append_cons. discriminate.
    + rewrite !join_cons.
      apply Forall_cons in H1 as [[_ Hw1] H1]. apply Forall_cons in H2 as [[_ Hw2] H2].
      intros H.
      apply word_prefix_unique in H as [-> Ht]; try done; try apply join_tail_shape.
      f_equal. apply IH; try done.
      destruct l1 as [|a l1], l2 as [|b l2]; try done.
      simpl in Ht. by injection Ht.
Qed.

Lemma join_split_eq (x y : string) :
  Py.join " " (Py.split x) = Py.join " " (Py.split y) <-> Py.split x = Py.split y.
Proof.
  split; [|by intros ->]. apply join_words_inj; apply split_words.
Qed.

(** X14. The first three rules of the classifier: the verdict is "Exact
    match" exactly for equal labels; it is "Space difference" exactly when
    the labels differ but are made of the same words in the same order, so
    that only their white space differs; it is "Case difference" exactly
    when their words differ and the two labels are equal in lower case. *)
Theorem first_rules (x y : string) :
  (analyze_difference x y = ExactMatch <-> x = y)
  /\ (analyze_difference x y = SpaceDifference
      <-> x <> y /\ Py.split x = Py.split y)
  /\ (analyze_difference x y = CaseDifference
      <-> x <> y /\ Py.split x <> Py.split y /\ Py.lower x = Py.lower y).
Proof.
  unfold analyze_difference.
  destruct (String.eqb_spec x y) as [->|Hxy].
  { split; [done|]. split; split; try done; by intros [? _]. }
  destruct (String.eqb_spec (Py.join " " (Py.split x)) (Py.join " " (Py.split y)))
    as [Hj|Hj].
  { apply join_split_eq in Hj.
    split; [done|]. split; [done|]. split; [done|]. by intros (_ & ? & _). }
  assert (Hs : Py.split x <> Py.split y) by (intros H; by apply Hj, join_split_eq).
  destruct (String.eqb_spec (Py.lower x) (Py.lower y)) as [Hl|Hl].
  { split; [done|]. split; [|done]. split; [done|]. by intros [_ ?]. }
  split; [|split].
  - split; [|done].
    destruct (PrimFloat.ltb _ _); [done|]. destruct (list_string_eqb _ _); [done|].
    destruct (all_in _ _); [done|]. by destruct (all_in _ _).
  - split; [|by intros [_ ?]].
    destruct (PrimFloat.ltb _ _); [done|]. destruct (list_string_eqb _ _); [done|].
    destruct (all_in _ _); [done|]. by destruct (all_in _ _).
  - split; [|by intros (_ & _ & ?)].
    destruct (PrimFloat.ltb _ _); [done|]. destruct (list_string_eqb _ _); [done|].
    destruct (all_in _ _); [done|]. by destruct (all_in _ _).
Qed.

(** X15. Past the first four rules (the labels differ in more than white
    space and in more than letter case, and their similarity is at most
    0.8), the verdict is "Word order difference" exactly when the words of
    the two labels in lower case are the same up to their order. Two
    labels with the same words in the same order fall under it as well,
    when they differ in both white space and case. *)
Theorem word_order_rule (x y : string) :
  past_rule_3 x y ->
  PrimFloat.ltb spelling_threshold (Difflib.ratio (Py.lower x) (Py.lower y)) = false ->
  (analyze_difference x y = WordOrderDifference
   <-> Py.split (Py.lower x) ≡ₚ Py.split (Py.lower y)).
Proof.
  intros H3 Hsim. rewrite (analyze_difference_past_rule_3 x y H3), Hsim.
  unfold list_string_eqb. rewrite <- sorted_eq_iff_perm.
  destruct (bool_decide_reflect
              (Py.sorted (Py.split (Py.lower x)) = Py.sorted (Py.split (Py.lower y))))
    as [Hs|Hs].
  - done.
  - split; [|done].
    destruct (all_in _ _); [done|]. by destruct (all_in _ _).
Qed.

Lemma word_order_rule_witness :
  past_rule_3 "A          B" "a b"
  /\ Py.split (Py.lower "A          B") = Py.split (Py.lower "a b")
  /\ analyze_difference "A          B" "a b" = WordOrderDifference.
Proof.
  assert (H3 : past_rule_3 "A          B" "a b").
  { unfold past_rule_3. split; [|split]; vm_compute; discriminate. }
  split; [exact H3|]. split; [vm_compute; reflexivity|].
  apply (word_order_rule _ _ H3).
  - vm_compute. reflexivity.
  - vm_compute. reflexivity.
Defined.
